(** * PrivateVolume: the lifecycle of one private encrypted volume

    A shallow embedding of [model/PrivateVolume.cpp] (namespace
    [android::vold]).  The class drives a set of collaborators that live
    outside the file (device nodes, device-mapper, the filesystem
    drivers, the listener): every call to one of them is an [Event], a
    method is a program over these events threading the object's
    fields, and an [Oracle] plays the rest of the system.  The LOG and
    PLOG statements of the source write to the log only and are left
    out. *)

From Stdlib Require Import ZArith NArith List Ascii String Bool Lia DecimalString
  DecimalN.
From ExtLib Require Import Structures.Monad Structures.MonadState
  Structures.MonadTrans Data.Monads.StateMonad.
Import ListNotations.
Import MonadNotation.
Local Open Scope monad_scope.
Local Open Scope string_scope.
Local Open Scope list_scope.
Local Open Scope Z_scope.

#[local] Existing Instance Monad_stateT.

(** ** Constants of the system headers *)

Abbreviation status_t := Z (only parsing).

Definition OK : status_t := 0.

(** <errno.h> *)
Definition EIO : Z := 5.
Definition EBUSY : Z := 16.
Definition EINVAL : Z := 22.
Definition EPERM : Z := 1.
Definition ENXIO : Z := 6.
Definition EINTR : Z := 4.

(** <fcntl.h> *)
Definition O_WRONLY : Z := 1.
Definition O_CLOEXEC : Z := 524288.

(** <linux/fs.h> *)
Definition FS_CASEFOLD_FL : Z := 1073741824.

(** <private/android_filesystem_config.h> *)
Definition AID_ROOT : Z := 0.
Definition AID_SYSTEM : Z := 1000.
Definition AID_MEDIA_RW : Z := 1023.
Definition AID_SHELL : Z := 2000.

(** The macros and constants of the source file itself. *)
Definition RETRY_MOUNT_ATTEMPTS : nat := 10.
Definition RETRY_MOUNT_DELAY_SECONDS : Z := 1.
Definition kMajorBlockLoop : N := 7.
Definition kMajorBlockMmc : N := 179.

(** Modelled from the spec: the [major]/[minor] macros of
    <sys/sysmacros.h> are not part of the source; a [dev_t] is taken as
    the (major, minor) pair they decode, both unsigned. *)
Record dev_t : Type := makedev { major : N; minor : N }.

Definition KeyBuffer := list N.
Abbreviation userid_t := Z (only parsing).

(** ** Calls to the collaborators

    The index of an event is what the call hands back to the method:
    its return value and, where the method reads them afterwards, the
    value of [errno] or of the out-parameters.  A call that takes a
    [const char*] ([open], [rmdir]) is logged with the string whose
    [c_str()] is passed. *)

Variant Event : Type -> Type :=
| CreateDeviceNode (path : string) (dev : dev_t) : Event status_t
| DestroyDeviceNode (path : string) : Event status_t
| DeleteDeviceIfExists (name : string) : Event (bool * Z)
| DeleteDevice (name : string) : Event (bool * Z)
| sleep_for_ms (ms : Z) : Event unit
| setup_ext_volume (label blk_device : string) (key : KeyBuffer)
    : Event (bool * string)
| open (path : string) (flags : Z) : Event Z
| close (fd : Z) : Event unit
| sleep (seconds : Z) : Event unit
| ReadMetadata (path : string) : Event (status_t * (string * string * string))
| onVolumeMetadataChanged (id fsType fsUuid fsLabel : string) : Event unit
| setPath (path : string) : Event unit
| PrepareDir (path : string) (mode uid gid attrs : Z) : Event status_t
| ext4_Check (source target : string) : Event Z
| ext4_Mount (source target : string) (ro remount executable : bool)
    : Event status_t
| f2fs_Check (source : string) : Event Z
| f2fs_Mount (source target : string) : Event status_t
| RestoreconRecursive (path : string) : Event unit
| IsSdcardfsUsed : Event bool
| getStartedUsers : Event (list userid_t)
| EmulatedVolume_create (rawPath : string) (device : dev_t)
    (fsUuid : string) (user : userid_t) : Event unit
| ForceUnmount (path : string) : Event unit
| rmdir (path : string) : Event (Z * Z)
| IsVirtioBlkDevice (maj : N) : Event bool
| f2fs_IsSupported : Event bool
| ext4_Format (source : string) (numSectors : Z) (target : string)
    : Event status_t
| f2fs_Format (source : string) (is_zoned : bool) (user_devices : list string)
    : Event status_t.

(** ** Programs over the events *)

Inductive Prog (R : Type) : Type :=
| Ret (r : R)
| Vis {X : Type} (e : Event X) (k : X -> Prog R).

Arguments Ret {R} r.
Arguments Vis {R X} e k.

Fixpoint pbind {A B : Type} (p : Prog A) (f : A -> Prog B) : Prog B :=
  match p with
  | Ret a => f a
  | Vis e k => Vis e (fun x => pbind (k x) f)
  end.

#[global] Instance Monad_Prog : Monad Prog :=
  {| ret := @Ret; bind := @pbind |}.

Definition call {X : Type} (e : Event X) : Prog X := Vis e Ret.

(** ** The environment

    One entry of the log is a call with the answer it got.  An oracle
    answers a call from the log of everything that happened before it,
    which covers every deterministic environment. *)

Record Logged : Type := Log { log_ty : Type; log_ev : Event log_ty; log_ans : log_ty }.

Arguments Log {log_ty} log_ev log_ans.
Definition Trace := list Logged.
Definition Oracle := forall X : Type, Trace -> Event X -> X.

(** [run o h p]: the result of [p] and the calls it made, in order, when
    it starts after the history [h]. *)
Fixpoint run {R : Type} (o : Oracle) (h : Trace) (p : Prog R) : R * Trace :=
  match p with
  | Ret r => (r, [])
  | Vis e k =>
      let x := o _ h e in
      let '(r, tr) := run o (h ++ [Log e x]) (k x) in
      (r, Log e x :: tr)
  end.

(** ** The object

    Modelled from the spec: the base class VolumeBase is not in the
    source.  Of its state the methods read the identity ([getId], set
    once by the constructor) and the registered listener
    ([getListener]), which are the fields [mId] and [mListener]; its
    [setPath] is an event. *)

Record PrivateVolume : Type := mkPrivateVolume {
  (* VolumeBase *)
  mId : string;
  mListener : bool;
  (* PrivateVolume *)
  mRawDevice : dev_t;
  mKeyRaw : KeyBuffer;
  mRawDevPath : string;
  mDmDevPath : string;
  mFsType : string;
  mFsUuid : string;
  mFsLabel : string;
  mPath : string
}.

Definition set_mDmDevPath (p : string) (v : PrivateVolume) : PrivateVolume :=
  mkPrivateVolume v.(mId) v.(mListener) v.(mRawDevice) v.(mKeyRaw)
    v.(mRawDevPath) p v.(mFsType) v.(mFsUuid) v.(mFsLabel) v.(mPath).

Definition set_metadata (t u l : string) (v : PrivateVolume) : PrivateVolume :=
  mkPrivateVolume v.(mId) v.(mListener) v.(mRawDevice) v.(mKeyRaw)
    v.(mRawDevPath) v.(mDmDevPath) t u l v.(mPath).

Definition set_mPath (p : string) (v : PrivateVolume) : PrivateVolume :=
  mkPrivateVolume v.(mId) v.(mListener) v.(mRawDevice) v.(mKeyRaw)
    v.(mRawDevPath) v.(mDmDevPath) v.(mFsType) v.(mFsUuid) v.(mFsLabel) p.

(** A method: a program that reads and writes the fields of [this]. *)
Definition Method := stateT PrivateVolume Prog.

Definition getId : Method string := v <- get ;; ret v.(mId).

(** [exec o h m v]: run method [m] on object [v]. *)
Definition exec {R : Type} (o : Oracle) (h : Trace) (m : Method R)
    (v : PrivateVolume) : (R * PrivateVolume) * Trace :=
  run o h (runStateT m v).

Definition result {R : Type} (x : (R * PrivateVolume) * Trace) : R := fst (fst x).

Definition object {R : Type} (x : (R * PrivateVolume) * Trace) : PrivateVolume :=
  snd (fst x).

Definition calls {R : Type} (x : (R * PrivateVolume) * Trace) : Trace := snd x.

(** printf's %u *)
Definition fmt_u (n : N) : string := NilEmpty.string_of_uint (N.to_uint n).

(** printf's %s on [s.c_str()]: the bytes of [s] before its first NUL. *)
Fixpoint c_str (s : string) : string :=
  match s with
  | EmptyString => EmptyString
  | String c s' =>
      if Ascii.eqb c Ascii.zero then EmptyString else String c (c_str s')
  end.

(** The constructor: no listener is registered yet, the strings are
    empty.  The device-node path prints [getId().c_str()] with %s; the
    identity is made of a fixed text and two decimal numbers and holds
    no NUL byte, so what is printed is the identity
    ([new_PrivateVolume_c_str]). *)
Definition new_PrivateVolume (device : dev_t) (keyRaw : KeyBuffer) : PrivateVolume :=
  let id := ("private:" ++ fmt_u (major device) ++ "," ++ fmt_u (minor device))%string in
  mkPrivateVolume id false device keyRaw ("/dev/block/vold/" ++ id)%string
    EmptyString EmptyString EmptyString EmptyString EmptyString.

(** ** The methods *)

Definition readMetadata : Method status_t :=
  v <- get ;;
  '(res, (t, u, l)) <- lift (call (ReadMetadata v.(mDmDevPath))) ;;
  put (set_metadata t u l v) ;;
  (if v.(mListener)
   then lift (call (onVolumeMetadataChanged v.(mId) t u l))
   else ret tt) ;;
  ret res.

(** The loop shared by [doCreate] and [doDestroy], which differ in the
    device-mapper call [del] only:
    [while (tries-- > 0) { ret = del; if (ret || errno != EBUSY) break; sleep }].
    [ret] is the local of that name; the source leaves it uninitialised
    and assigns it in the first iteration. *)
Fixpoint delete_loop (del : Event (bool * Z)) (tries : nat) (ret_ : bool)
    : Prog bool :=
  match tries with
  | O => Ret ret_
  | S tries' =>
      r <- call del ;;
      if (fst r || negb (snd r =? EBUSY))%bool then Ret (fst r)
      else call (sleep_for_ms 100) ;; delete_loop del tries' (fst r)
  end.

(** [while ((fd = open(...)) < 0) { if (retries > 0) {...} else {...} }]
    and the two lines after it. *)
Fixpoint open_loop (path : string) (retries : nat) : Prog status_t :=
  fd <- call (open path (Z.lor O_WRONLY O_CLOEXEC)) ;;
  if fd <? 0 then
    match retries with
    | S retries' =>
        call (sleep RETRY_MOUNT_DELAY_SECONDS) ;; open_loop path retries'
    | O => call (close fd) ;; Ret (- EIO)
    end
  else call (close fd) ;; Ret OK.

Definition doCreate : Method status_t :=
  v <- get ;;
  r <- lift (call (CreateDeviceNode v.(mRawDevPath) v.(mRawDevice))) ;;
  if negb (r =? 0) then ret (- EIO)
  else
    ok <- lift (delete_loop (DeleteDeviceIfExists v.(mId)) 10 false) ;;
    if negb ok then ret (- EIO)
    else
      s <- lift (call (setup_ext_volume v.(mId) v.(mRawDevPath) v.(mKeyRaw))) ;;
      put (set_mDmDevPath (snd s) v) ;;
      if negb (fst s) then ret (- EIO)
      else lift (open_loop (snd s) RETRY_MOUNT_ATTEMPTS).

Definition doDestroy : Method status_t :=
  v <- get ;;
  ok <- lift (delete_loop (DeleteDevice v.(mId)) 10 false) ;;
  if negb ok then ret (- EIO)
  else lift (call (DestroyDeviceNode v.(mRawDevPath))).

(** C's [a || b] on calls that report failure by a non-zero value: the
    right operand runs only when the left one is zero. *)
Definition failed (p : Prog status_t) : Prog bool :=
  r <- p ;; ret (negb (r =? 0)).

Definition orelse (p q : Prog bool) : Prog bool :=
  b <- p ;; if b : bool then ret true else q.

Definition andalso (p q : Prog bool) : Prog bool :=
  b <- p ;; if b : bool then q else ret false.

Infix "|||" := orelse (at level 50, left associativity).
Infix "&&&" := andalso (at level 40, left associativity).

(** An octal literal of three digits. *)
Definition oct (a b c : Z) : Z := a * 64 + b * 8 + c.

(** Lines 190 to 209 of the source: what [doMount] does once the
    filesystem is mounted. *)
Definition doMount_prepare (mPath : string) : Prog status_t :=
  call (RestoreconRecursive mPath) ;;
  sdcardfs <- call IsSdcardfsUsed ;;
  let attrs := if negb sdcardfs then FS_CASEFOLD_FL else 0 in
  bad <-
    (failed (call (PrepareDir (mPath ++ "/app") (oct 7 7 1) AID_SYSTEM AID_SYSTEM 0)) |||
     failed (call (PrepareDir (mPath ++ "/user") (oct 5 1 1) AID_SYSTEM AID_SYSTEM 0)) |||
     failed (call (PrepareDir (mPath ++ "/user_de") (oct 5 1 1) AID_SYSTEM AID_SYSTEM 0)) |||
     failed (call (PrepareDir (mPath ++ "/misc_ce") (oct 5 1 1) AID_SYSTEM AID_SYSTEM 0)) |||
     failed (call (PrepareDir (mPath ++ "/misc_de") (oct 5 1 1) AID_SYSTEM AID_SYSTEM 0)) |||
     failed (call (PrepareDir (mPath ++ "/media") (oct 5 5 0) AID_MEDIA_RW AID_MEDIA_RW attrs)) |||
     failed (call (PrepareDir (mPath ++ "/media/0") (oct 7 7 0) AID_MEDIA_RW AID_MEDIA_RW 0)) |||
     failed (call (PrepareDir (mPath ++ "/local") (oct 7 5 1) AID_ROOT AID_ROOT 0)) |||
     failed (call (PrepareDir (mPath ++ "/local/tmp") (oct 7 7 1) AID_SHELL AID_SHELL 0))) ;;
  if bad : bool then ret (- EIO) else ret OK.

Definition doMount : Method status_t :=
  res <- readMetadata ;;
  if negb (res =? 0) then ret (- EIO)
  else
    v <- get ;;
    let path := ("/mnt/expand/" ++ c_str v.(mFsUuid))%string in
    put (set_mPath path v) ;;
    lift (call (setPath path)) ;;
    r <- lift (call (PrepareDir path (oct 7 0 0) AID_ROOT AID_ROOT 0)) ;;
    if negb (r =? 0) then ret (- EIO)
    else if (v.(mFsType) =? "ext4")%string then
      res <- lift (call (ext4_Check v.(mDmDevPath) path)) ;;
      if ((res =? 0) || (res =? 1))%bool then
        m <- lift (call (ext4_Mount v.(mDmDevPath) path false false true)) ;;
        if negb (m =? 0) then ret (- EIO)
        else lift (doMount_prepare path)
      else ret (- EIO)
    else if (v.(mFsType) =? "f2fs")%string then
      res <- lift (call (f2fs_Check v.(mDmDevPath))) ;;
      if res =? 0 then
        m <- lift (call (f2fs_Mount v.(mDmDevPath) path)) ;;
        if negb (m =? 0) then ret (- EIO)
        else lift (doMount_prepare path)
      else ret (- EIO)
    else ret (- EIO).

(** The body of the loop over the started users builds the child, tags
    it with the user, registers it and creates it; the four statements
    act on the child alone and are one event. *)
Fixpoint doPostMount_users (mediaPath : string) (device : dev_t)
    (fsUuid : string) (users : list userid_t) : Prog unit :=
  match users with
  | [] => Ret tt
  | user :: rest =>
      call (EmulatedVolume_create mediaPath device fsUuid user) ;;
      doPostMount_users mediaPath device fsUuid rest
  end.

Definition doPostMount : Method unit :=
  v <- get ;;
  let mediaPath := (v.(mPath) ++ "/media")%string in
  users <- lift (call getStartedUsers) ;;
  lift (doPostMount_users mediaPath v.(mRawDevice) v.(mFsUuid) users).

(** The macro [TEMP_FAILURE_RETRY(exp)] of <unistd.h>:
    [do { rc = (exp); } while (rc == -1 && errno == EINTR);].  The loop
    has no bound; [fuel] bounds the number of times [exp] is evaluated,
    and [None] tells that the fuel is used up with the call still
    interrupted, that is, that the macro has not returned yet. *)
Fixpoint TEMP_FAILURE_RETRY (fuel : nat) (exp : Event (Z * Z)) : Prog (option Z) :=
  match fuel with
  | O => Ret None
  | S fuel' =>
      r <- call exp ;;
      if ((fst r =? -1) && (snd r =? EINTR))%bool
      then TEMP_FAILURE_RETRY fuel' exp
      else Ret (Some (fst r))
  end.

(** The value of the [rmdir] is only logged.  [None]: the method has not
    returned when the fuel of its [TEMP_FAILURE_RETRY] is used up. *)
Definition doUnmount (fuel : nat) : Method (option status_t) :=
  v <- get ;;
  lift (call (ForceUnmount v.(mPath))) ;;
  rc <- lift (TEMP_FAILURE_RETRY fuel (rmdir v.(mPath))) ;;
  match rc with
  | Some _ => ret (Some OK)
  | None => ret None
  end.

(** Lines 238 to 251 of the source: the value of the local
    [resolvedFsType] when the dispatch on it starts. *)
Definition doFormat_resolve (fsType : string) : Method string :=
  v <- get ;;
  if (fsType =? "auto")%string then
    f2fs <- lift ((Ret (major v.(mRawDevice) =? kMajorBlockMmc)%N |||
                   Ret (major v.(mRawDevice) =? kMajorBlockLoop)%N |||
                   call (IsVirtioBlkDevice (major v.(mRawDevice)))) &&&
                  call f2fs_IsSupported) ;;
    if f2fs : bool then ret "f2fs" else ret "ext4"
  else ret fsType.

Definition doFormat (fsType : string) : Method status_t :=
  resolvedFsType <- doFormat_resolve fsType ;;
  v <- get ;;
  if (resolvedFsType =? "ext4")%string then
    r <- lift (call (ext4_Format v.(mDmDevPath) 0 "/data")) ;;
    if negb (r =? 0) then ret (- EIO) else ret OK
  else if (resolvedFsType =? "f2fs")%string then
    r <- lift (call (f2fs_Format v.(mDmDevPath) false [])) ;;
    if negb (r =? 0) then ret (- EIO) else ret OK
  else ret (- EINVAL).

(** ** Reading a log *)

Variant Kind : Type :=
| KCreateDeviceNode | KDestroyDeviceNode | KDeleteDeviceIfExists | KDeleteDevice
| Ksleep_for_ms | Ksetup_ext_volume | Kopen | Kclose | Ksleep | KReadMetadata
| KonVolumeMetadataChanged | KsetPath | KPrepareDir | Kext4_Check | Kext4_Mount
| Kf2fs_Check | Kf2fs_Mount | KRestoreconRecursive | KIsSdcardfsUsed
| KgetStartedUsers | KEmulatedVolume_create | KForceUnmount | Krmdir
| KIsVirtioBlkDevice | Kf2fs_IsSupported | Kext4_Format | Kf2fs_Format.

Definition kind_of {X : Type} (e : Event X) : Kind :=
  match e with
  | CreateDeviceNode _ _ => KCreateDeviceNode
  | DestroyDeviceNode _ => KDestroyDeviceNode
  | DeleteDeviceIfExists _ => KDeleteDeviceIfExists
  | DeleteDevice _ => KDeleteDevice
  | sleep_for_ms _ => Ksleep_for_ms
  | setup_ext_volume _ _ _ => Ksetup_ext_volume
  | open _ _ => Kopen
  | close _ => Kclose
  | sleep _ => Ksleep
  | ReadMetadata _ => KReadMetadata
  | onVolumeMetadataChanged _ _ _ _ => KonVolumeMetadataChanged
  | setPath _ => KsetPath
  | PrepareDir _ _ _ _ _ => KPrepareDir
  | ext4_Check _ _ => Kext4_Check
  | ext4_Mount _ _ _ _ _ => Kext4_Mount
  | f2fs_Check _ => Kf2fs_Check
  | f2fs_Mount _ _ => Kf2fs_Mount
  | RestoreconRecursive _ => KRestoreconRecursive
  | IsSdcardfsUsed => KIsSdcardfsUsed
  | getStartedUsers => KgetStartedUsers
  | EmulatedVolume_create _ _ _ _ => KEmulatedVolume_create
  | ForceUnmount _ => KForceUnmount
  | rmdir _ => Krmdir
  | IsVirtioBlkDevice _ => KIsVirtioBlkDevice
  | f2fs_IsSupported => Kf2fs_IsSupported
  | ext4_Format _ _ _ => Kext4_Format
  | f2fs_Format _ _ _ => Kf2fs_Format
  end.

Definition Kind_eq_dec (a b : Kind) : {a = b} + {a <> b}.
Proof. decide equality. Defined.

Definition is_kind (k : Kind) (l : Logged) : bool :=
  if Kind_eq_dec (kind_of (log_ev l)) k then true else false.

(** How many calls of kind [k] the log holds. *)
Definition count (k : Kind) (tr : Trace) : nat :=
  List.length (List.filter (is_kind k) tr).

(** The kinds of the calls of a log, in order. *)
Definition kinds (tr : Trace) : list Kind := map (fun l => kind_of (log_ev l)) tr.

(** ** What a log says about the outcome of a step

    Each predicate holds of the calls of one kind that reported
    success, as the method tests it. *)

Definition create_ok (l : Logged) : bool :=
  match log_ev l in Event X return X -> bool with
  | CreateDeviceNode _ _ => fun st => st =? 0
  | _ => fun _ => false
  end (log_ans l).

Definition delete_ok (l : Logged) : bool :=
  match log_ev l in Event X return X -> bool with
  | DeleteDeviceIfExists _ => fun r => fst r
  | DeleteDevice _ => fun r => fst r
  | _ => fun _ => false
  end (log_ans l).

Definition setup_ok (l : Logged) : bool :=
  match log_ev l in Event X return X -> bool with
  | setup_ext_volume _ _ _ => fun r => fst r
  | _ => fun _ => false
  end (log_ans l).

Definition open_ok (l : Logged) : bool :=
  match log_ev l in Event X return X -> bool with
  | open _ _ => fun fd => negb (fd <? 0)
  | _ => fun _ => false
  end (log_ans l).

Definition mount_ok (l : Logged) : bool :=
  match log_ev l in Event X return X -> bool with
  | ext4_Mount _ _ _ _ _ => fun st => st =? 0
  | f2fs_Mount _ _ => fun st => st =? 0
  | _ => fun _ => false
  end (log_ans l).

(** A filesystem check that returned a code its driver's branch accepts:
    0 or 1 for ext4, 0 for f2fs. *)
Definition check_accepted (l : Logged) : bool :=
  match log_ev l in Event X return X -> bool with
  | ext4_Check _ _ => fun c => ((c =? 0) || (c =? 1))%bool
  | f2fs_Check _ => fun c => c =? 0
  | _ => fun _ => false
  end (log_ans l).

(** A filesystem check that returned any other code. *)
Definition check_rejected (l : Logged) : bool :=
  match log_ev l in Event X return X -> bool with
  | ext4_Check _ _ => fun c => negb ((c =? 0) || (c =? 1))
  | f2fs_Check _ => fun c => negb (c =? 0)
  | _ => fun _ => false
  end (log_ans l).

Definition checks (tr : Trace) : nat := (count Kext4_Check tr + count Kf2fs_Check tr)%nat.
Definition mounts (tr : Trace) : nat := (count Kext4_Mount tr + count Kf2fs_Mount tr)%nat.

(** Reads a log from left to right: every mount call comes after a
    check of the same driver, and the last such check was accepted. *)
Fixpoint mounts_checked (ext4_ok f2fs_ok : bool) (tr : Trace) : bool :=
  match tr with
  | [] => true
  | l :: tr' =>
      match kind_of (log_ev l) with
      | Kext4_Check => mounts_checked (check_accepted l) f2fs_ok tr'
      | Kf2fs_Check => mounts_checked ext4_ok (check_accepted l) tr'
      | Kext4_Mount => ext4_ok && mounts_checked ext4_ok f2fs_ok tr'
      | Kf2fs_Mount => f2fs_ok && mounts_checked ext4_ok f2fs_ok tr'
      | _ => mounts_checked ext4_ok f2fs_ok tr'
      end
  end.

(** A [PrepareDir] call that returned 0: path, mode, owner, group, attrs. *)
Definition prepared_dir (l : Logged) : option (string * Z * Z * Z * Z) :=
  match log_ev l in Event X return X -> option (string * Z * Z * Z * Z) with
  | PrepareDir p m u g a => fun st => if st =? 0 then Some (p, m, u, g, a) else None
  | _ => fun _ => None
  end (log_ans l).

(** The directories a log has prepared, in order. *)
Definition prepared (tr : Trace) : list (string * Z * Z * Z * Z) :=
  flat_map (fun l => match prepared_dir l with Some d => [d] | None => [] end) tr.

(** A [PrepareDir] call that returned a non-zero status. *)
Definition prepare_failed (l : Logged) : bool :=
  match log_ev l in Event X return X -> bool with
  | PrepareDir _ _ _ _ _ => fun st => negb (st =? 0)
  | _ => fun _ => false
  end (log_ans l).

(** [IsSdcardfsUsed] answered yes. *)
Definition sdcardfs_used (l : Logged) : bool :=
  match log_ev l in Event X return X -> bool with
  | IsSdcardfsUsed => fun b => b
  | _ => fun _ => false
  end (log_ans l).

(** Modelled from the spec: the Device Node Binder, which is not in the
    source, creates the node at a path and destroys it; a call that
    reports failure leaves the node as it was.  [node_after path before tr]
    tells whether the node at [path] exists after the calls of [tr]. *)
Definition node_step (path : string) (b : bool) (l : Logged) : bool :=
  match log_ev l in Event X return X -> bool with
  | CreateDeviceNode p _ => fun st => if ((p =? path)%string && (st =? 0))%bool then true else b
  | DestroyDeviceNode p => fun st => if ((p =? path)%string && (st =? 0))%bool then false else b
  | _ => fun _ => b
  end (log_ans l).

Definition node_after (path : string) (before : bool) (tr : Trace) : bool :=
  fold_left (node_step path) tr before.

(** ** Scenarios *)

(** The volume on the first partition of an MMC card. *)
Definition vol0 : PrivateVolume := new_PrivateVolume (makedev 179 1) [1; 2; 3]%N.

(** The answer every collaborator gives when all goes well. *)
Definition all_well {X : Type} (e : Event X) : X :=
  match e in Event X return X with
  | CreateDeviceNode _ _ => 0
  | DestroyDeviceNode _ => 0
  | DeleteDeviceIfExists _ => (true, 0)
  | DeleteDevice _ => (true, 0)
  | sleep_for_ms _ => tt
  | setup_ext_volume label _ _ => (true, ("/dev/block/dm-" ++ label)%string)
  | open _ _ => 3
  | close _ => tt
  | sleep _ => tt
  | ReadMetadata _ => (0, ("ext4", "57f8f4bc", EmptyString))
  | onVolumeMetadataChanged _ _ _ _ => tt
  | setPath _ => tt
  | PrepareDir _ _ _ _ _ => 0
  | ext4_Check _ _ => 0
  | ext4_Mount _ _ _ _ _ => 0
  | f2fs_Check _ => 0
  | f2fs_Mount _ _ => 0
  | RestoreconRecursive _ => tt
  | IsSdcardfsUsed => false
  | getStartedUsers => [0]
  | EmulatedVolume_create _ _ _ _ => tt
  | ForceUnmount _ => tt
  | rmdir _ => (0, 0)
  | IsVirtioBlkDevice _ => false
  | f2fs_IsSupported => true
  | ext4_Format _ _ _ => 0
  | f2fs_Format _ _ _ => 0
  end.

Definition o_well : Oracle := fun X _ e => all_well e.

(** The mapped device never appears. *)
Definition o_no_device : Oracle := fun X _ e =>
  match e in Event X return X with
  | open _ _ => -1
  | e' => all_well e'
  end.

(** Every device-mapper delete fails with [errno]. *)
Definition o_delete_fails (errno : Z) : Oracle := fun X _ e =>
  match e in Event X return X with
  | DeleteDevice _ => (false, errno)
  | DeleteDeviceIfExists _ => (false, errno)
  | e' => all_well e'
  end.

(** The first [n] device-mapper deletes fail with EBUSY, the next one
    succeeds. *)
Definition o_busy (n : nat) : Oracle := fun X h e =>
  match e in Event X return X with
  | DeleteDevice _ =>
      if (count KDeleteDevice h <? n)%nat then (false, EBUSY) else (true, 0)
  | DeleteDeviceIfExists _ =>
      if (count KDeleteDeviceIfExists h <? n)%nat then (false, EBUSY) else (true, 0)
  | e' => all_well e'
  end.

(** [PrepareDir] fails on the path [bad], everything else goes well. *)
Definition o_mkdir_fails (bad : string) : Oracle := fun X _ e =>
  match e in Event X return X with
  | PrepareDir p _ _ _ _ => if (p =? bad)%string then -1 else 0
  | e' => all_well e'
  end.

(** The metadata reports [fsType] and the filesystem checks return [code]. *)
Definition o_fs (fsType : string) (code : Z) : Oracle := fun X _ e =>
  match e in Event X return X with
  | ReadMetadata _ => (0, (fsType, "57f8f4bc", EmptyString))
  | ext4_Check _ _ => code
  | f2fs_Check _ => code
  | e' => all_well e'
  end.

(** f2fs is not supported. *)
Definition o_no_f2fs : Oracle := fun X _ e =>
  match e in Event X return X with
  | f2fs_IsSupported => false
  | e' => all_well e'
  end.

(** ** The words of the specification *)

(** The layout the specification fixes: the nine subdirectories of the
    mount point with owner, group and permissions; [media] carries the
    case-folding attribute when sdcardfs is not in use. *)
Definition layout (mountPath : string) (sdcardfs : bool)
    : list (string * Z * Z * Z * Z) :=
  [ ((mountPath ++ "/app")%string, oct 7 7 1, AID_SYSTEM, AID_SYSTEM, 0);
    ((mountPath ++ "/user")%string, oct 5 1 1, AID_SYSTEM, AID_SYSTEM, 0);
    ((mountPath ++ "/user_de")%string, oct 5 1 1, AID_SYSTEM, AID_SYSTEM, 0);
    ((mountPath ++ "/misc_ce")%string, oct 5 1 1, AID_SYSTEM, AID_SYSTEM, 0);
    ((mountPath ++ "/misc_de")%string, oct 5 1 1, AID_SYSTEM, AID_SYSTEM, 0);
    ((mountPath ++ "/media")%string, oct 5 5 0, AID_MEDIA_RW, AID_MEDIA_RW,
       if sdcardfs then 0 else FS_CASEFOLD_FL);
    ((mountPath ++ "/media/0")%string, oct 7 7 0, AID_MEDIA_RW, AID_MEDIA_RW, 0);
    ((mountPath ++ "/local")%string, oct 7 5 1, AID_ROOT, AID_ROOT, 0);
    ((mountPath ++ "/local/tmp")%string, oct 7 7 1, AID_SHELL, AID_SHELL, 0) ].

(** After the history [h], the delete [del] fails with EBUSY as long as
    fewer than [n] attempts were made, and succeeds at the next one. *)
Definition busy_until (o : Oracle) (h : Trace) (del : Event (bool * Z)) (n : nat)
    : Prop :=
  forall tr,
    ((count (kind_of del) tr < n)%nat -> o _ (h ++ tr) del = (false, EBUSY)) /\
    (count (kind_of del) tr = n -> fst (o _ (h ++ tr) del) = true).

(** The steps that follow the delete all succeed. *)
Definition rest_succeeds (o : Oracle) : Prop :=
  forall h,
    (forall p, o _ h (DestroyDeviceNode p) = 0) /\
    (forall l b k, fst (o _ h (setup_ext_volume l b k)) = true) /\
    (forall p f, 0 <= o _ h (open p f)).

(** The reading of the specification: whatever the removal of the block
    mapping yields, [doDestroy] goes on to remove the raw device node. *)
Definition destroy_attempts_both (o : Oracle) (h : Trace) (v : PrivateVolume) : Prop :=
  let tr := calls (exec o h doDestroy v) in
  (1 <= count KDeleteDevice tr)%nat /\ (1 <= count KDestroyDeviceNode tr)%nat.

(** The reading of the specification: [doCreate] either succeeds with
    the node and the mapping in place, or fails and leaves no node. *)
Definition create_is_atomic (o : Oracle) (h : Trace) (v : PrivateVolume) : Prop :=
  let x := exec o h doCreate v in
  (result x = OK /\
   node_after v.(mRawDevPath) false (calls x) = true /\
   existsb setup_ok (calls x) = true) \/
  (result x <> OK /\ node_after v.(mRawDevPath) false (calls x) = false).

(** The reading of the specification: after a [doMount] the mount path
    is non-empty exactly when a mount call has succeeded; it is empty
    again after a [doMount] that fails, and after the [doUnmount] that
    follows a [doMount], once it has returned. *)
Definition mPath_iff_mounted (o : Oracle) (v : PrivateVolume) : Prop :=
  let x := exec o [] doMount v in
  let y fuel := exec o (calls x) (doUnmount fuel) (object x) in
  (mPath (object x) <> EmptyString <-> existsb mount_ok (calls x) = true) /\
  (result x <> OK -> mPath (object x) = EmptyString) /\
  (forall fuel, result (y fuel) <> None -> mPath (object (y fuel)) = EmptyString).

(** ** More readings of a log *)

(** The string holds a comma. *)
Fixpoint has_comma (s : string) : bool :=
  match s with
  | EmptyString => false
  | String c s' => (Ascii.eqb c ","%char || has_comma s')%bool
  end.

(** The open poll: the open of [path] fails as long as fewer than [n]
    opens were made after the history [h], and yields a descriptor at
    the next one. *)
Definition open_fails_until (o : Oracle) (h : Trace) (path : string) (n : nat)
    : Prop :=
  forall tr,
    ((count Kopen tr < n)%nat -> o _ (h ++ tr) (open path (Z.lor O_WRONLY O_CLOEXEC)) < 0) /\
    (count Kopen tr = n -> 0 <= o _ (h ++ tr) (open path (Z.lor O_WRONLY O_CLOEXEC))).

(** After the history [h], the delete [del] fails with EBUSY as long as
    fewer than [n] attempts were made. *)
Definition busy_for (o : Oracle) (h : Trace) (del : Event (bool * Z)) (n : nat)
    : Prop :=
  forall tr,
    (count (kind_of del) tr < n)%nat -> o _ (h ++ tr) del = (false, EBUSY).

(** Every delete fails with EBUSY and every open fails. *)
Definition o_stuck : Oracle := fun X _ e =>
  match e in Event X return X with
  | DeleteDevice _ => (false, EBUSY)
  | DeleteDeviceIfExists _ => (false, EBUSY)
  | open _ _ => -1
  | e' => all_well e'
  end.

(** The first [n] opens of the mapped device fail, the next one yields
    a descriptor. *)
Definition o_slow_device (n : nat) : Oracle := fun X h e =>
  match e in Event X return X with
  | open _ _ => if (count Kopen h <? n)%nat then -1 else 3
  | e' => all_well e'
  end.

(** Three users are started. *)
Definition o_users : Oracle := fun X _ e =>
  match e in Event X return X with
  | getStartedUsers => [0; 10; 11]
  | e' => all_well e'
  end.

Definition dev_eqb (a b : dev_t) : bool :=
  ((major a =? major b)%N && (minor a =? minor b)%N)%bool.

(** A call on the device-node or device-mapper namespace, or to the
    encryption set-up, names the entries of the volume [v]: its
    identity, its device-node path and its raw device. *)
Definition own_entry (v : PrivateVolume) (l : Logged) : bool :=
  match log_ev l with
  | CreateDeviceNode p d => ((p =? mRawDevPath v)%string && dev_eqb d (mRawDevice v))%bool
  | DestroyDeviceNode p => (p =? mRawDevPath v)%string
  | DeleteDeviceIfExists name => (name =? mId v)%string
  | DeleteDevice name => (name =? mId v)%string
  | setup_ext_volume label blk _ =>
      ((label =? mId v)%string && (blk =? mRawDevPath v)%string)%bool
  | _ => true
  end.

(** The mapped device of a run of [doCreate]: the set-up hands back the
    path [p], and [p] is what is opened. *)
Definition mapped_path (p : string) (l : Logged) : bool :=
  match log_ev l in Event X return X -> bool with
  | setup_ext_volume _ _ _ => fun r => (snd r =? p)%string
  | open q _ => fun _ => (q =? p)%string
  | _ => fun _ => true
  end (log_ans l).

(** A format call that returned 0. *)
Definition format_ok (l : Logged) : bool :=
  match log_ev l in Event X return X -> bool with
  | ext4_Format _ _ _ => fun st => st =? 0
  | f2fs_Format _ _ _ => fun st => st =? 0
  | _ => fun _ => false
  end (log_ans l).

Definition formats (tr : Trace) : nat :=
  (count Kext4_Format tr + count Kf2fs_Format tr)%nat.

(** [IsVirtioBlkDevice] answered yes. *)
Definition virtio_yes (l : Logged) : bool :=
  match log_ev l in Event X return X -> bool with
  | IsVirtioBlkDevice _ => fun b => b
  | _ => fun _ => false
  end (log_ans l).

(** What [doMount] may call on the volume [v]: the metadata read and the
    checks on the mapped device, the notification with the identity, the
    mounts of the mapped device on the mount path (ext4 read-write, no
    remount, executable), the path set, relabelled and prepared being the
    mount path or below it; no other kind of call. *)
Definition doMount_call (v : PrivateVolume) (l : Logged) : bool :=
  match log_ev l with
  | ReadMetadata s => (s =? mDmDevPath v)%string
  | onVolumeMetadataChanged id t u lbl =>
      ((id =? mId v) && (t =? mFsType v) && (u =? mFsUuid v) && (lbl =? mFsLabel v))%string%bool
  | setPath p => (p =? mPath v)%string
  | PrepareDir p _ _ _ _ => String.prefix (mPath v) p
  | ext4_Check s t => ((s =? mDmDevPath v)%string && (t =? mPath v)%string)%bool
  | ext4_Mount s t ro remount executable =>
      ((s =? mDmDevPath v)%string && (t =? mPath v)%string &&
       negb ro && negb remount && executable)%bool
  | f2fs_Check s => (s =? mDmDevPath v)%string
  | f2fs_Mount s t => ((s =? mDmDevPath v)%string && (t =? mPath v)%string)%bool
  | RestoreconRecursive p => (p =? mPath v)%string
  | IsSdcardfsUsed => true
  | _ => false
  end.

(** A mount, a forced unmount or a rmdir is on the path [p]. *)
Definition on_path (p : string) (l : Logged) : bool :=
  match log_ev l with
  | ext4_Mount _ t _ _ _ => (t =? p)%string
  | f2fs_Mount _ t => (t =? p)%string
  | ForceUnmount q => (q =? p)%string
  | rmdir q => (q =? p)%string
  | _ => true
  end.

(** The metadata cannot be read. *)
Definition o_no_metadata (code : Z) : Oracle := fun X _ e =>
  match e in Event X return X with
  | ReadMetadata _ => (code, (EmptyString, EmptyString, EmptyString))
  | e' => all_well e'
  end.

(** The four steps of [doCreate], by the calls they make: the creation
    of the device node, the removal of a stale mapping, the encryption
    set-up, the poll of the mapped device. *)
Definition create_step (l : Logged) : nat :=
  match kind_of (log_ev l) with
  | KCreateDeviceNode => 1
  | KDeleteDeviceIfExists | Ksleep_for_ms => 2
  | Ksetup_ext_volume => 3
  | Kopen | Ksleep | Kclose => 4
  | _ => 0
  end.

(** Reads a log from left to right: no call belongs to an earlier step
    than the call before it, starting from step [cur]. *)
Fixpoint steps_in_order (cur : nat) (tr : Trace) : bool :=
  match tr with
  | [] => true
  | l :: tr' => ((cur <=? create_step l)%nat && steps_in_order (create_step l) tr')%bool
  end.

(** The string holds no NUL byte. *)
Fixpoint no_NUL (s : string) : bool :=
  match s with
  | EmptyString => true
  | String c s' => (negb (Ascii.eqb c Ascii.zero) && no_NUL s')%bool
  end.

(** The metadata reports the UUID [uuid]. *)
Definition o_uuid (uuid : string) : Oracle := fun X _ e =>
  match e in Event X return X with
  | ReadMetadata _ => (0, ("ext4"%string, uuid, EmptyString))
  | e' => all_well e'
  end.

(** A device-mapper delete that failed with EBUSY. *)
Definition delete_busy (l : Logged) : bool :=
  match log_ev l in Event X return X -> bool with
  | DeleteDeviceIfExists _ => fun r => (negb (fst r) && (snd r =? EBUSY))%bool
  | DeleteDevice _ => fun r => (negb (fst r) && (snd r =? EBUSY))%bool
  | _ => fun _ => false
  end (log_ans l).

(** A [sleep_for] of [ms] milliseconds. *)
Definition pause_of (ms : Z) (l : Logged) : bool :=
  match log_ev l with
  | sleep_for_ms d => d =? ms
  | _ => false
  end.

(** Reads a log from left to right: a delete that failed with EBUSY is
    followed at once by a [sleep_for] of 100 milliseconds, and there is
    no other [sleep_for].  [busy] tells that the call before was such a
    delete. *)
Fixpoint backs_off (busy : bool) (tr : Trace) : bool :=
  match tr with
  | [] => negb busy
  | l :: tr' =>
      if busy then (pause_of 100 l && backs_off false tr')%bool
      else (negb (is_kind Ksleep_for_ms l) && backs_off (delete_busy l) tr')%bool
  end.

(** An [open] that yielded no descriptor. *)
Definition open_failed (l : Logged) : bool :=
  match log_ev l in Event X return X -> bool with
  | open _ _ => fun fd => fd <? 0
  | _ => fun _ => false
  end (log_ans l).

(** Reads a log from left to right: every [sleep] is of one second,
    comes right after an [open] that failed, and is followed at once by
    the next [open].  [failed] tells that the call before was a failed
    [open]. *)
Fixpoint waits_between_opens (failed : bool) (tr : Trace) : bool :=
  match tr with
  | [] => true
  | l :: tr' =>
      match log_ev l with
      | sleep s =>
          (failed && (s =? 1) &&
           match tr' with l' :: _ => is_kind Kopen l' | [] => false end &&
           waits_between_opens false tr')%bool
      | _ => waits_between_opens (open_failed l) tr'
      end
  end.

(** After the history [h], the call [e] is interrupted (it yields -1 with
    [errno] EINTR) as long as fewer than [n] calls of it were made, and
    is not interrupted at the next one. *)
Definition interrupted_until (o : Oracle) (h : Trace) (e : Event (Z * Z)) (n : nat)
    : Prop :=
  forall tr,
    ((count (kind_of e) tr < n)%nat -> o _ (h ++ tr) e = (-1, EINTR)) /\
    (count (kind_of e) tr = n ->
     ((fst (o _ (h ++ tr) e) =? -1) && (snd (o _ (h ++ tr) e) =? EINTR))%bool = false).

(** The first [n] calls of [rmdir] are interrupted, the next one fails
    with ENOTEMPTY. *)
Definition o_eintr (n : nat) : Oracle := fun X h e =>
  match e in Event X return X with
  | rmdir _ => if (count Krmdir h <? n)%nat then (-1, EINTR) else (-1, 39)
  | e' => all_well e'
  end.

(** A mount call that returned a non-zero status. *)
Definition mount_failed (l : Logged) : bool :=
  match log_ev l in Event X return X -> bool with
  | ext4_Mount _ _ _ _ _ => fun st => negb (st =? 0)
  | f2fs_Mount _ _ => fun st => negb (st =? 0)
  | _ => fun _ => false
  end (log_ans l).

(** A step of [doMount] that failed: a directory that could not be
    prepared, a check with a code that is not accepted, a mount that
    returned a non-zero status. *)
Definition step_failed (l : Logged) : bool :=
  (prepare_failed l || check_rejected l || mount_failed l)%bool.

(** Reads a log from left to right: no call follows a failed step. *)
Fixpoint stops_at_failure (tr : Trace) : bool :=
  match tr with
  | [] => true
  | l :: tr' =>
      if step_failed l then match tr' with [] => true | _ :: _ => false end
      else stops_at_failure tr'
  end.

(** * Runs of the methods *)

Example new_PrivateVolume_id :
  mId vol0 = "private:179,1" /\ mRawDevPath vol0 = "/dev/block/vold/private:179,1".
Proof. split; reflexivity. Qed.

Example doCreate_well :
  result (exec o_well [] doCreate vol0) = OK /\
  kinds (calls (exec o_well [] doCreate vol0)) =
    [KCreateDeviceNode; KDeleteDeviceIfExists; Ksetup_ext_volume; Kopen; Kclose] /\
  mDmDevPath (object (exec o_well [] doCreate vol0)) = "/dev/block/dm-private:179,1".
Proof. repeat split; reflexivity. Qed.

(** The open is tried once and retried RETRY_MOUNT_ATTEMPTS times. *)
Example doCreate_no_device :
  result (exec o_no_device [] doCreate vol0) = - EIO /\
  count Kopen (calls (exec o_no_device [] doCreate vol0)) = 11%nat /\
  count Ksleep (calls (exec o_no_device [] doCreate vol0)) = 10%nat.
Proof. repeat split; reflexivity. Qed.

Example doDestroy_well :
  exec o_well [] doDestroy vol0 =
    ((OK, vol0),
     [Log (DeleteDevice "private:179,1") (true, 0);
      Log (DestroyDeviceNode "/dev/block/vold/private:179,1") 0]).
Proof. reflexivity. Qed.

(** Busy at every attempt: the tenth failure is the last attempt. *)
Example doDestroy_busy_forever :
  result (exec (o_delete_fails EBUSY) [] doDestroy vol0) = - EIO /\
  count KDeleteDevice (calls (exec (o_delete_fails EBUSY) [] doDestroy vol0)) = 10%nat /\
  count Ksleep_for_ms (calls (exec (o_delete_fails EBUSY) [] doDestroy vol0)) = 10%nat.
Proof. repeat split; reflexivity. Qed.

Example doUnmount_well :
  exec o_well [] (doUnmount 1) vol0 =
    ((Some OK, vol0),
     [Log (ForceUnmount EmptyString) tt; Log (rmdir EmptyString) (0, 0)]).
Proof. reflexivity. Qed.

(** The [rmdir] is interrupted twice: it is called three times, and its
    failure at the third does not show in the result.  With fuel for two
    evaluations the method has not returned. *)
Example doUnmount_interrupted :
  result (exec (o_eintr 2) [] (doUnmount 5) vol0) = Some OK /\
  kinds (calls (exec (o_eintr 2) [] (doUnmount 5) vol0)) =
    [KForceUnmount; Krmdir; Krmdir; Krmdir] /\
  result (exec (o_eintr 2) [] (doUnmount 2) vol0) = None.
Proof. repeat split; reflexivity. Qed.

(** printf's %s stops at a NUL byte of the UUID. *)
Example doMount_uuid_NUL :
  let uuid := String "a" (String "b" (String zero (String "c" (String "d" EmptyString)))) in
  mFsUuid (object (exec (o_uuid uuid) [] doMount vol0)) = uuid /\
  mPath (object (exec (o_uuid uuid) [] doMount vol0)) = "/mnt/expand/ab".
Proof. split; reflexivity. Qed.

Example doPostMount_well :
  calls (exec o_well [] doPostMount vol0) =
    [Log getStartedUsers [0];
     Log (EmulatedVolume_create "/media" (makedev 179 1) EmptyString 0) tt].
Proof. reflexivity. Qed.

(** * Programs and logs *)

Section RunLemmas.

Variable o : Oracle.

Lemma run_pbind {A B : Type} (p : Prog A) (f : A -> Prog B) :
  forall h,
    run o h (pbind p f) =
    let '(a, t1) := run o h p in
    let '(b, t2) := run o (h ++ t1) (f a) in
    (b, t1 ++ t2).
Proof.
  induction p as [a | X e k IH]; intros h; simpl.
  - rewrite app_nil_r. destruct (run o h (f a)); reflexivity.
  - rewrite IH.
    destruct (run o (h ++ [Log e (o X h e)]) (k (o X h e))) as [a t1].
    rewrite <- app_assoc. simpl.
    destruct (run o (h ++ Log e (o X h e) :: t1) (f a)); reflexivity.
Qed.

Lemma count_app k t1 t2 : count k (t1 ++ t2) = (count k t1 + count k t2)%nat.
Proof. unfold count. rewrite filter_app, length_app. reflexivity. Qed.

Lemma count_cons k l t :
  count k (l :: t) = ((if is_kind k l then 1 else 0) + count k t)%nat.
Proof. unfold count. simpl. destruct (is_kind k l); reflexivity. Qed.

Lemma count_nil k : count k [] = 0%nat.
Proof. reflexivity. Qed.

Lemma is_kind_Log {X : Type} k (e : Event X) a :
  is_kind k (Log e a) = if Kind_eq_dec (kind_of e) k then true else false.
Proof. reflexivity. Qed.

Lemma is_kind_other {X : Type} k (e : Event X) a :
  kind_of e <> k -> is_kind k (Log e a) = false.
Proof.
  intros H. rewrite is_kind_Log. destruct (Kind_eq_dec (kind_of e) k); congruence.
Qed.

Lemma is_kind_same {X : Type} (e : Event X) a : is_kind (kind_of e) (Log e a) = true.
Proof.
  rewrite is_kind_Log. destruct (Kind_eq_dec (kind_of e) (kind_of e)); congruence.
Qed.

(** *** The busy-retry loop *)

Section DeleteLoop.

Variable del : Event (bool * Z).
Hypothesis del_kind : kind_of del <> Ksleep_for_ms.
Hypothesis del_ok : forall a, delete_ok (Log del a) = fst a.

Lemma delete_loop_S tries ret_ h :
  run o h (delete_loop del (S tries) ret_) =
  let a := o _ h del in
  if (fst a || negb (snd a =? EBUSY))%bool then (fst a, [Log del a])
  else
    let u := o _ (h ++ [Log del a]) (sleep_for_ms 100) in
    let '(r, t) :=
      run o (h ++ [Log del a; Log (sleep_for_ms 100) u])
        (delete_loop del tries (fst a)) in
    (r, Log del a :: Log (sleep_for_ms 100) u :: t).
Proof.
  cbn [delete_loop bind Monad_Prog pbind call run].
  destruct (fst (o _ h del) || negb (snd (o _ h del) =? EBUSY))%bool;
    cbn [pbind run]; [reflexivity |].
  rewrite <- app_assoc. cbn [app].
  match goal with |- context [run o ?h' (delete_loop del tries ?r)] =>
    destruct (run o h' (delete_loop del tries r)) end.
  reflexivity.
Qed.

(** The loop calls nothing but [del] and the sleep between two tries. *)
Lemma delete_loop_calls k tries :
  k <> kind_of del -> k <> Ksleep_for_ms ->
  forall ret_ h, count k (snd (run o h (delete_loop del tries ret_))) = 0%nat.
Proof.
  intros Hk Hs. induction tries as [| tries IH]; intros ret_ h.
  - reflexivity.
  - rewrite delete_loop_S. cbv zeta.
    destruct (fst (o _ h del) || negb (snd (o _ h del) =? EBUSY))%bool.
    + cbn [snd]. rewrite count_cons, is_kind_other by congruence. reflexivity.
    + match goal with |- context [run o ?h' (delete_loop del tries ?r)] =>
        specialize (IH r h'); destruct (run o h' (delete_loop del tries r)) end.
      cbn [snd] in *. rewrite !count_cons, !is_kind_other by (cbn; congruence).
      exact IH.
Qed.

(** It makes at most [tries] attempts. *)
Lemma delete_loop_attempts tries :
  forall ret_ h,
    (count (kind_of del) (snd (run o h (delete_loop del tries ret_))) <= tries)%nat.
Proof.
  induction tries as [| tries IH]; intros ret_ h.
  - cbn. lia.
  - rewrite delete_loop_S. cbv zeta.
    destruct (fst (o _ h del) || negb (snd (o _ h del) =? EBUSY))%bool.
    + cbn [snd]. rewrite count_cons, is_kind_same. cbn. lia.
    + match goal with |- context [run o ?h' (delete_loop del tries ?r)] =>
        specialize (IH r h'); destruct (run o h' (delete_loop del tries r)) end.
      cbn [snd] in *. rewrite !count_cons, is_kind_same.
      rewrite is_kind_other by (cbn; congruence). lia.
Qed.

(** Its first call is [del], and it yields [true] exactly when one
    attempt succeeded. *)
Lemma delete_loop_result tries ret_ h :
  let x := run o h (delete_loop del (S tries) ret_) in
  (exists a t, snd x = Log del a :: t) /\ fst x = existsb delete_ok (snd x).
Proof.
  revert ret_ h. induction tries as [| tries IH]; intros ret_ h.
  - cbv zeta. rewrite delete_loop_S. cbv zeta.
    destruct (fst (o _ h del)) eqn:E1; cbn [orb].
    + cbn [fst snd existsb]. rewrite del_ok, E1. split; [eauto | reflexivity].
    + destruct (negb (snd (o _ h del) =? EBUSY)); cbn [delete_loop run fst snd existsb].
      * rewrite del_ok, E1. split; [eauto | reflexivity].
      * rewrite del_ok, E1. split; [eauto | reflexivity].
  - cbv zeta. rewrite delete_loop_S. cbv zeta.
    destruct (fst (o _ h del)) eqn:E1; cbn [orb].
    + cbn [fst snd existsb]. rewrite del_ok, E1. split; [eauto | reflexivity].
    + destruct (negb (snd (o _ h del) =? EBUSY)).
      * cbn [fst snd existsb]. rewrite del_ok, E1. split; [eauto | reflexivity].
      * match goal with |- context [run o ?h' (delete_loop del (S tries) ?r)] =>
          specialize (IH r h'); cbv zeta in IH;
          destruct (run o h' (delete_loop del (S tries) r)) end.
        cbn [fst snd existsb] in *. rewrite del_ok, E1. cbn [orb].
        split; [eauto | apply IH].
Qed.

End DeleteLoop.

End RunLemmas.

(** ** Kinds of calls in a log *)

(** Counts the calls of a log whose entries are known. *)
Ltac count_calls :=
  repeat rewrite ?count_app, ?count_cons, ?count_nil; cbn -[count Nat.add].

Ltac count_calls_in H :=
  repeat rewrite ?count_app, ?count_cons, ?count_nil in H; cbn -[count Nat.add] in H.

Lemma count_zero_kind k tr :
  count k tr = 0%nat -> forall l, In l tr -> kind_of (log_ev l) <> k.
Proof.
  induction tr as [| l' tr IH]; intros H l Hin Hk; [destruct Hin |].
  destruct Hin as [-> | Hin].
  - rewrite count_cons in H. unfold is_kind in H.
    destruct (Kind_eq_dec (kind_of (log_ev l)) k); [discriminate | contradiction].
  - rewrite count_cons in H. apply (IH ltac:(lia) l Hin Hk).
Qed.

Lemma existsb_none (P : Logged -> bool) k tr :
  (forall l, P l = true -> kind_of (log_ev l) = k) ->
  count k tr = 0%nat -> existsb P tr = false.
Proof.
  intros HP H. destruct (existsb P tr) eqn:E; [| reflexivity].
  apply existsb_exists in E. destruct E as (l & Hin & Hl).
  exfalso. exact (count_zero_kind k tr H l Hin (HP l Hl)).
Qed.

Lemma create_ok_kind l : create_ok l = true -> kind_of (log_ev l) = KCreateDeviceNode.
Proof. destruct l as [X e a]; destruct e; cbn; congruence. Qed.

Lemma setup_ok_kind l : setup_ok l = true -> kind_of (log_ev l) = Ksetup_ext_volume.
Proof. destruct l as [X e a]; destruct e; cbn; congruence. Qed.

Lemma open_ok_kind l : open_ok l = true -> kind_of (log_ev l) = Kopen.
Proof. destruct l as [X e a]; destruct e; cbn; congruence. Qed.

Lemma delete_ok_kind l :
  delete_ok l = true ->
  kind_of (log_ev l) = KDeleteDeviceIfExists \/ kind_of (log_ev l) = KDeleteDevice.
Proof. destruct l as [X e a]; destruct e; cbn; auto; congruence. Qed.

Lemma delete_ok_none tr :
  count KDeleteDeviceIfExists tr = 0%nat -> count KDeleteDevice tr = 0%nat ->
  existsb delete_ok tr = false.
Proof.
  intros H1 H2. destruct (existsb delete_ok tr) eqn:E; [| reflexivity].
  apply existsb_exists in E. destruct E as (l & Hin & Hl).
  exfalso. destruct (delete_ok_kind l Hl) as [Hk | Hk].
  - exact (count_zero_kind _ tr H1 l Hin Hk).
  - exact (count_zero_kind _ tr H2 l Hin Hk).
Qed.

Lemma mount_ok_kind l :
  mount_ok l = true ->
  kind_of (log_ev l) = Kext4_Mount \/ kind_of (log_ev l) = Kf2fs_Mount.
Proof. destruct l as [X e a]; destruct e; cbn; auto; congruence. Qed.

Lemma no_mount_ok tr : mounts tr = 0%nat -> existsb mount_ok tr = false.
Proof.
  unfold mounts. intros H. destruct (existsb mount_ok tr) eqn:E; [| reflexivity].
  apply existsb_exists in E. destruct E as (l & Hin & Hl). exfalso.
  destruct (mount_ok_kind l Hl) as [Hk | Hk].
  - apply (count_zero_kind Kext4_Mount tr ltac:(lia) l Hin Hk).
  - apply (count_zero_kind Kf2fs_Mount tr ltac:(lia) l Hin Hk).
Qed.

Lemma check_kind l :
  check_accepted l = true \/ check_rejected l = true ->
  kind_of (log_ev l) = Kext4_Check \/ kind_of (log_ev l) = Kf2fs_Check.
Proof. destruct l as [X e a]; destruct e; cbn; intuition congruence. Qed.

Lemma no_check tr :
  checks tr = 0%nat ->
  existsb check_accepted tr = false /\ existsb check_rejected tr = false.
Proof.
  unfold checks. intros H.
  assert (Hk : forall l, In l tr ->
             kind_of (log_ev l) <> Kext4_Check /\ kind_of (log_ev l) <> Kf2fs_Check).
  { intros l Hin. split; apply (count_zero_kind _ tr); auto; lia. }
  split.
  - destruct (existsb check_accepted tr) eqn:E; [| reflexivity].
    apply existsb_exists in E. destruct E as (l & Hin & Hl).
    destruct (Hk l Hin), (check_kind l (or_introl Hl)); contradiction.
  - destruct (existsb check_rejected tr) eqn:E; [| reflexivity].
    apply existsb_exists in E. destruct E as (l & Hin & Hl).
    destruct (Hk l Hin), (check_kind l (or_intror Hl)); contradiction.
Qed.

Lemma mounts_checked_none tr :
  checks tr = 0%nat -> mounts tr = 0%nat ->
  forall a b, mounts_checked a b tr = true.
Proof.
  unfold checks, mounts. induction tr as [| l tr IH]; intros Hc Hm a b; [reflexivity |].
  rewrite !count_cons in Hc, Hm. unfold is_kind in Hc, Hm. cbn [mounts_checked].
  destruct (kind_of (log_ev l)); cbn in Hc, Hm; try lia; apply IH; lia.
Qed.

Lemma node_step_other path b l :
  kind_of (log_ev l) <> KCreateDeviceNode ->
  kind_of (log_ev l) <> KDestroyDeviceNode ->
  node_step path b l = b.
Proof. destruct l as [X e a]; destruct e; cbn; congruence. Qed.

Lemma node_after_other path tr :
  count KCreateDeviceNode tr = 0%nat -> count KDestroyDeviceNode tr = 0%nat ->
  forall b, node_after path b tr = b.
Proof.
  unfold node_after. induction tr as [| l tr IH]; intros H1 H2 b; [reflexivity |].
  cbn [fold_left]. rewrite node_step_other.
  - apply IH.
    + rewrite count_cons in H1. lia.
    + rewrite count_cons in H2. lia.
  - apply (count_zero_kind _ _ H1). left. reflexivity.
  - apply (count_zero_kind _ _ H2). left. reflexivity.
Qed.

Lemma prepared_app t1 t2 : prepared (t1 ++ t2) = prepared t1 ++ prepared t2.
Proof. unfold prepared. apply flat_map_app. Qed.

(** ** The device-open poll *)

Section OpenLoop.

Variable o : Oracle.
Variable path : string.

Lemma open_loop_calls k :
  k <> Kopen -> k <> Ksleep -> k <> Kclose ->
  forall retries h, count k (snd (run o h (open_loop path retries))) = 0%nat.
Proof.
  intros H1 H2 H3. induction retries as [| retries IH]; intros h.
  - cbn -[count]. destruct (o Z h _ <? 0); cbn -[count];
      rewrite !count_cons, !is_kind_other by (cbn; congruence); reflexivity.
  - cbn -[count]. destruct (o Z h _ <? 0); cbn -[count].
    + match goal with |- context [run o ?h' (open_loop path retries)] =>
        specialize (IH h'); destruct (run o h' (open_loop path retries)) end.
      cbn [snd] in *. rewrite !count_cons, !is_kind_other by (cbn; congruence).
      exact IH.
    + rewrite !count_cons, !is_kind_other by (cbn; congruence). reflexivity.
Qed.

(** The poll reports success exactly when one [open] returned a
    descriptor. *)
Lemma open_loop_result :
  forall retries h,
    let x := run o h (open_loop path retries) in
    fst x = if existsb open_ok (snd x) then OK else - EIO.
Proof.
  induction retries as [| retries IH]; intros h.
  - cbn. destruct (o Z h _ <? 0) eqn:E; cbn; rewrite E; reflexivity.
  - cbn. destruct (o Z h _ <? 0) eqn:E; cbn.
    + match goal with |- context [run o ?h' (open_loop path retries)] =>
        specialize (IH h'); cbv zeta in IH;
        destruct (run o h' (open_loop path retries)) end.
      cbn [fst snd existsb open_ok log_ev log_ans] in *. rewrite E. exact IH.
    + rewrite E. reflexivity.
Qed.

Lemma open_loop_first retries h :
  0 <= o _ h (open path (Z.lor O_WRONLY O_CLOEXEC)) ->
  fst (run o h (open_loop path retries)) = OK.
Proof.
  intros H. destruct retries; cbn in *;
    destruct (Z.ltb_spec (o Z h (open path 524289)) 0); try lia; reflexivity.
Qed.

End OpenLoop.

(** ** The busy-retry loop at its boundary *)

Section BusyRetry.

Variable o : Oracle.
Variable del : Event (bool * Z).
Hypothesis del_kind : kind_of del <> Ksleep_for_ms.

Lemma delete_loop_busy h n :
  busy_until o h del n ->
  forall j tries tr ret_,
    (count (kind_of del) tr + j = n)%nat -> (j < tries)%nat ->
    let x := run o (h ++ tr) (delete_loop del tries ret_) in
    fst x = true /\ count (kind_of del) (snd x) = S j.
Proof.
  intros Hbusy. induction j as [| j IH]; intros tries tr ret_ Hn Hj;
    (destruct tries as [| tries]; [lia |]); cbv zeta; rewrite delete_loop_S; cbv zeta.
  - destruct (Hbusy tr) as [_ Hok]. rewrite Hok by lia. cbn [orb fst snd].
    split; [reflexivity |]. count_calls. rewrite is_kind_same. reflexivity.
  - destruct (Hbusy tr) as [Hfail _]. rewrite Hfail by lia. cbn [orb fst snd negb Z.eqb EBUSY Pos.eqb].
    match goal with |- context [run o ((h ++ tr) ++ ?t') (delete_loop del tries false)] =>
      rewrite <- (app_assoc h tr t');
      specialize (IH tries (tr ++ t') false); cbv zeta in IH;
      destruct (run o (h ++ tr ++ t') (delete_loop del tries false)) as [r t] end.
    cbn [fst snd] in *.
    assert (Hn' : (count (kind_of del) tr + 1 + 0 + j = n)%nat) by lia.
    destruct IH as [-> Hc].
    + count_calls. rewrite is_kind_same.
      rewrite is_kind_other by (cbn; congruence). lia.
    + lia.
    + split; [reflexivity |]. count_calls. rewrite is_kind_same.
      rewrite is_kind_other by (cbn; congruence). lia.
Qed.

Lemma delete_loop_not_busy h tries ret_ :
  fst (o _ h del) = false -> snd (o _ h del) <> EBUSY ->
  run o h (delete_loop del (S tries) ret_) = (false, [Log del (o _ h del)]).
Proof.
  intros Hf He. rewrite delete_loop_S. cbv zeta. rewrite Hf.
  destruct (Z.eqb_spec (snd (o _ h del)) EBUSY) as [E | _]; [contradiction |].
  reflexivity.
Qed.

End BusyRetry.

Lemma o_busy_DeleteDevice n h name :
  count KDeleteDevice h = 0%nat -> busy_until (o_busy n) h (DeleteDevice name) n.
Proof.
  intros Hh tr. cbn [kind_of o_busy]. rewrite count_app, Hh. cbn [Nat.add].
  split; intros H.
  - destruct (Nat.ltb_spec (count KDeleteDevice tr) n); [reflexivity | lia].
  - destruct (Nat.ltb_spec (count KDeleteDevice tr) n); [lia | reflexivity].
Qed.

Lemma o_busy_DeleteDeviceIfExists n h name :
  count KDeleteDeviceIfExists h = 0%nat ->
  busy_until (o_busy n) h (DeleteDeviceIfExists name) n.
Proof.
  intros Hh tr. cbn [kind_of o_busy]. rewrite count_app, Hh. cbn [Nat.add].
  split; intros H.
  - destruct (Nat.ltb_spec (count KDeleteDeviceIfExists tr) n); [reflexivity | lia].
  - destruct (Nat.ltb_spec (count KDeleteDeviceIfExists tr) n); [lia | reflexivity].
Qed.

Lemma o_busy_rest n : rest_succeeds (o_busy n).
Proof. intros h. repeat split; intros; cbn; lia. Qed.

(** * The methods, step by step *)

Lemma doDestroy_unfold o h v :
  exec o h doDestroy v =
  let '(ok, t1) := run o h (delete_loop (DeleteDevice v.(mId)) 10 false) in
  if ok then
    let st := o _ (h ++ t1) (DestroyDeviceNode v.(mRawDevPath)) in
    ((st, v), t1 ++ [Log (DestroyDeviceNode v.(mRawDevPath)) st])
  else ((- EIO, v), t1).
Proof.
  unfold exec, doDestroy. cbn -[delete_loop]. rewrite !run_pbind.
  destruct (run o h (delete_loop (DeleteDevice (mId v)) 10 false)) as [[|] t1];
    cbn; rewrite ?app_nil_r; reflexivity.
Qed.

Lemma doDestroy_object o h v : object (exec o h doDestroy v) = v.
Proof.
  rewrite doDestroy_unfold.
  destruct (run o h (delete_loop (DeleteDevice (mId v)) 10 false)) as [[|] t];
    reflexivity.
Qed.

Lemma doCreate_unfold o h v :
  exec o h doCreate v =
  let create := CreateDeviceNode v.(mRawDevPath) v.(mRawDevice) in
  let c := o _ h create in
  let h1 := h ++ [Log create c] in
  if negb (c =? 0) then ((- EIO, v), [Log create c])
  else
    let '(ok, t1) := run o h1 (delete_loop (DeleteDeviceIfExists v.(mId)) 10 false) in
    if negb ok then ((- EIO, v), Log create c :: t1)
    else
      let setup := setup_ext_volume v.(mId) v.(mRawDevPath) v.(mKeyRaw) in
      let s := o _ (h1 ++ t1) setup in
      let v' := set_mDmDevPath (snd s) v in
      if negb (fst s) then ((- EIO, v'), Log create c :: t1 ++ [Log setup s])
      else
        let '(r, t2) :=
          run o ((h1 ++ t1) ++ [Log setup s]) (open_loop (snd s) RETRY_MOUNT_ATTEMPTS) in
        ((r, v'), Log create c :: t1 ++ Log setup s :: t2).
Proof.
  unfold exec, doCreate. cbn -[delete_loop open_loop RETRY_MOUNT_ATTEMPTS].
  match goal with |- context [negb (?c =? 0)] => destruct (negb (c =? 0)) end;
    cbn -[delete_loop open_loop RETRY_MOUNT_ATTEMPTS]; [reflexivity |].
  rewrite !run_pbind.
  match goal with |- context [run o ?h' (delete_loop ?d 10 false)] =>
    destruct (run o h' (delete_loop d 10 false)) as [[|] t1] end;
    cbn -[open_loop RETRY_MOUNT_ATTEMPTS]; rewrite ?app_nil_r; [| reflexivity].
  match goal with |- context [negb (fst ?s)] => destruct (negb (fst s)) end;
    cbn -[open_loop RETRY_MOUNT_ATTEMPTS]; [reflexivity |].
  rewrite !run_pbind.
  match goal with |- context [run o ?h' (open_loop ?p ?n)] =>
    destruct (run o h' (open_loop p n)) as [r t2] end.
  cbn. rewrite ?app_nil_r. reflexivity.
Qed.

(** What [doCreate] calls besides the creation of the node: the calls of
    the two loops and the encryption set-up. *)
Lemma doCreate_calls o h v k :
  k <> KCreateDeviceNode -> k <> KDeleteDeviceIfExists -> k <> Ksleep_for_ms ->
  k <> Ksetup_ext_volume -> k <> Kopen -> k <> Ksleep -> k <> Kclose ->
  count k (calls (exec o h doCreate v)) = 0%nat.
Proof.
  intros H1 H2 H3 H4 H5 H6 H7. rewrite doCreate_unfold. cbv zeta.
  match goal with |- context [negb (?c =? 0)] => destruct (negb (c =? 0)) end.
  { unfold calls. cbn [snd]. count_calls. rewrite is_kind_other by (cbn; congruence).
    reflexivity. }
  match goal with |- context [run o ?h' (delete_loop ?d 10 false)] =>
    pose proof (delete_loop_calls o d k 10 ltac:(cbn; congruence) H3 false h') as Hd;
    destruct (run o h' (delete_loop d 10 false)) as [ok t1] end.
  cbn [snd] in Hd. destruct (negb ok).
  { unfold calls. cbn [snd]. count_calls. rewrite is_kind_other by (cbn; congruence).
    rewrite Hd. reflexivity. }
  match goal with |- context [negb (fst ?s)] => destruct (negb (fst s)) end.
  { unfold calls. cbn [snd]. count_calls. rewrite !is_kind_other by (cbn; congruence).
    rewrite Hd. reflexivity. }
  match goal with |- context [run o ?h' (open_loop ?p ?n)] =>
    pose proof (open_loop_calls o p k H5 H6 H7 n h') as Ho;
    destruct (run o h' (open_loop p n)) as [r t2] end.
  cbn [snd] in Ho. unfold calls. cbn [snd]. count_calls.
  rewrite !is_kind_other by (cbn; congruence). rewrite Hd, Ho. reflexivity.
Qed.

(** [doCreate] succeeds exactly when each of its four steps did. *)
Lemma doCreate_result o h v :
  let x := exec o h doCreate v in
  result x =
  if (existsb create_ok (calls x) && existsb delete_ok (calls x) &&
      existsb setup_ok (calls x) && existsb open_ok (calls x))%bool
  then OK else - EIO.
Proof.
  cbv zeta. rewrite doCreate_unfold. cbv zeta.
  set (create := CreateDeviceNode (mRawDevPath v) (mRawDevice v)).
  set (c := o _ h create).
  assert (Hcreate : create_ok (Log create c) = (c =? 0)) by reflexivity.
  assert (Hcd : delete_ok (Log create c) = false) by reflexivity.
  assert (Hcs : setup_ok (Log create c) = false) by reflexivity.
  assert (Hco : open_ok (Log create c) = false) by reflexivity.
  destruct (c =? 0) eqn:Ec; cbn [negb]; unfold calls, result.
  2: { cbn [fst snd existsb]. rewrite Hcreate. reflexivity. }
  match goal with |- context [run o ?h' (delete_loop ?d 10 false)] =>
    pose proof (delete_loop_result o d (fun a => eq_refl) 9 false h') as [_ Hres];
    pose proof (delete_loop_calls o d Ksetup_ext_volume 10
                  ltac:(cbn; congruence) ltac:(congruence) false h') as Hs;
    pose proof (delete_loop_calls o d Kopen 10
                  ltac:(cbn; congruence) ltac:(congruence) false h') as Ho;
    destruct (run o h' (delete_loop d 10 false)) as [ok t1] end.
  cbn [fst snd] in *. subst ok.
  apply (existsb_none setup_ok _ _ setup_ok_kind) in Hs.
  apply (existsb_none open_ok _ _ open_ok_kind) in Ho.
  destruct (existsb delete_ok t1) eqn:Ed; cbn [negb].
  2: { cbn [fst snd existsb]. rewrite Hcreate, Hcd, Ed. reflexivity. }
  set (setup := setup_ext_volume (mId v) (mRawDevPath v) (mKeyRaw v)).
  match goal with |- context [negb (fst ?s')] => set (s := s') end.
  assert (Hsc : create_ok (Log setup s) = false) by reflexivity.
  assert (Hsd : delete_ok (Log setup s) = false) by reflexivity.
  assert (Hss : setup_ok (Log setup s) = fst s) by reflexivity.
  assert (Hso : open_ok (Log setup s) = false) by reflexivity.
  destruct (fst s) eqn:Es; cbn [negb].
  2: { cbn [fst snd existsb]. rewrite !existsb_app. cbn [existsb].
       rewrite Hcreate, Hcd, Hcs, Ed, Hs, Hss. cbn [orb andb]. reflexivity. }
  match goal with |- context [run o ?h' (open_loop ?p ?n)] =>
    pose proof (open_loop_result o p n h') as Hr;
    destruct (run o h' (open_loop p n)) as [r t2] end.
  cbn [fst snd] in *. subst r.
  cbn [existsb]. rewrite !existsb_app. cbn [existsb].
  rewrite Hcreate, Hcd, Hcs, Hco, Ed, Hs, Ho, Hss, Hso. cbn [orb andb].
  reflexivity.
Qed.

Lemma doCreate_mPath o h v : mPath (object (exec o h doCreate v)) = mPath v.
Proof.
  rewrite doCreate_unfold. cbv zeta.
  repeat match goal with
         | |- context [if negb ?c then _ else _] => destruct c; cbn [negb]
         | |- context [let '(_, _) := ?r in _] => destruct r
         end; reflexivity.
Qed.

(** Splits on the status of the next [PrepareDir] of the chain. *)
Ltac next_dir :=
  match goal with
  | |- context [if negb (?st =? 0) then _ else _] =>
      let s := fresh "st" in
      let E := fresh "E" in
      generalize st; intros s; destruct (s =? 0) eqn:E; cbn [negb]
  end.

Lemma doMount_prepare_spec o h p :
  let r := run o h (doMount_prepare p) in
  fst r = (if existsb prepare_failed (snd r) then - EIO else OK) /\
  (existsb prepare_failed (snd r) = false ->
   prepared (snd r) = layout p (existsb sdcardfs_used (snd r))).
Proof.
  cbv zeta. unfold doMount_prepare, failed, orelse.
  cbn -[oct String.append FS_CASEFOLD_FL existsb prepared layout].
  match goal with |- context [negb (o bool ?h' IsSdcardfsUsed)] =>
    generalize (o bool h' IsSdcardfsUsed); intros sd end.
  repeat (next_dir; cbn -[oct String.append FS_CASEFOLD_FL existsb prepared layout]);
    unfold prepared;
    cbn [existsb prepare_failed sdcardfs_used flat_map prepared_dir log_ev log_ans app];
    repeat match goal with E : (_ =? 0) = _ |- _ => rewrite E; clear E end;
    cbn [negb orb app]; (split; [reflexivity | intros Hf; try discriminate Hf]).
  destruct sd; reflexivity.
Qed.

(** [doMount_prepare] calls the relabelling, the sdcardfs query and
    [PrepareDir], nothing else. *)
Lemma doMount_prepare_calls o h p k :
  k <> KRestoreconRecursive -> k <> KIsSdcardfsUsed -> k <> KPrepareDir ->
  count k (snd (run o h (doMount_prepare p))) = 0%nat.
Proof.
  intros H1 H2 H3. unfold doMount_prepare, failed, orelse.
  cbn -[oct String.append FS_CASEFOLD_FL count].
  match goal with |- context [negb (o bool ?h' IsSdcardfsUsed)] =>
    generalize (o bool h' IsSdcardfsUsed); intros sd end.
  repeat (next_dir; cbn -[oct String.append FS_CASEFOLD_FL count]);
    count_calls; rewrite !is_kind_other by (cbn; congruence); reflexivity.
Qed.

Lemma doMount_unfold o h v :
  exec o h doMount v =
  let read := ReadMetadata v.(mDmDevPath) in
  let ans := o _ h read in
  let res := fst ans in
  let t := fst (fst (snd ans)) in
  let u := snd (fst (snd ans)) in
  let l := snd (snd ans) in
  let v1 := set_metadata t u l v in
  let h1 := h ++ [Log read ans] in
  let notify := onVolumeMetadataChanged v.(mId) t u l in
  let t1 := Log read ans :: (if v.(mListener) then [Log notify (o _ h1 notify)] else []) in
  if negb (res =? 0) then ((- EIO, v1), t1)
  else
    let path := ("/mnt/expand/" ++ c_str u)%string in
    let v2 := set_mPath path v1 in
    let t2 := t1 ++ [Log (setPath path) (o _ (h ++ t1) (setPath path))] in
    let mkdir := PrepareDir path (oct 7 0 0) AID_ROOT AID_ROOT 0 in
    let r := o _ (h ++ t2) mkdir in
    let t3 := t2 ++ [Log mkdir r] in
    if negb (r =? 0) then ((- EIO, v2), t3)
    else if (t =? "ext4")%string then
      let check := ext4_Check v.(mDmDevPath) path in
      let c := o _ (h ++ t3) check in
      let t4 := t3 ++ [Log check c] in
      if ((c =? 0) || (c =? 1))%bool then
        let mount := ext4_Mount v.(mDmDevPath) path false false true in
        let m := o _ (h ++ t4) mount in
        let t5 := t4 ++ [Log mount m] in
        if negb (m =? 0) then ((- EIO, v2), t5)
        else
          let '(s, t6) := run o (h ++ t5) (doMount_prepare path) in
          ((s, v2), t5 ++ t6)
      else ((- EIO, v2), t4)
    else if (t =? "f2fs")%string then
      let check := f2fs_Check v.(mDmDevPath) in
      let c := o _ (h ++ t3) check in
      let t4 := t3 ++ [Log check c] in
      if c =? 0 then
        let mount := f2fs_Mount v.(mDmDevPath) path in
        let m := o _ (h ++ t4) mount in
        let t5 := t4 ++ [Log mount m] in
        if negb (m =? 0) then ((- EIO, v2), t5)
        else
          let '(s, t6) := run o (h ++ t5) (doMount_prepare path) in
          ((s, v2), t5 ++ t6)
      else ((- EIO, v2), t4)
    else ((- EIO, v2), t3).
Proof.
  unfold exec, doMount, readMetadata. cbv zeta.
  cbn -[doMount_prepare oct String.append c_str].
  destruct (o _ h (ReadMetadata (mDmDevPath v))) as [res [[t u] l]].
  destruct (mListener v);
    repeat (cbn -[doMount_prepare oct String.append c_str];
            repeat rewrite <- app_assoc; cbn [app];
            match goal with
            | |- context [runStateT (if ?c then _ else _) _] => destruct c
            end);
    cbn -[doMount_prepare oct String.append c_str];
    repeat rewrite <- app_assoc; cbn [app];
    rewrite ?run_pbind;
    repeat match goal with
           | |- context [run o ?h' (doMount_prepare ?p)] =>
               destruct (run o h' (doMount_prepare p)) as [s t6]
           end;
    cbn -[oct String.append c_str]; rewrite ?app_nil_r; reflexivity.
Qed.

(** Walks through the branches of [doMount]: every answer the method
    tests becomes a variable, every test a case. *)
Ltac doMount_cases o h v :=
  rewrite (doMount_unfold o h v); cbv zeta;
  generalize (o _ h (ReadMetadata (mDmDevPath v)));
  intros [res [[fsType fsUuid] fsLabel]]; cbn [fst snd];
  destruct (mListener v);
  repeat match goal with
         | |- context [if (?a =? ?b)%string then _ else _] =>
             is_var a; let E := fresh "Efs" in destruct (a =? b)%string eqn:E
         | |- context [if negb (?c =? 0) then _ else _] =>
             let s := fresh "st" in
             let E := fresh "E" in
             generalize c; intros s; destruct (s =? 0) eqn:E; cbn [negb]
         | |- context [if ((?c =? 0) || (?c =? 1))%bool then _ else _] =>
             let s := fresh "code" in
             let E := fresh "Ecode" in
             generalize c; intros s; destruct ((s =? 0) || (s =? 1))%bool eqn:E
         | |- context [if ?c =? 0 then _ else _] =>
             let s := fresh "code" in
             let E := fresh "Ecode" in
             generalize c; intros s; destruct (s =? 0) eqn:E
         end.

(** In the branches that reach [doMount_prepare], names its result and
    its calls and recalls what is known of them. *)
Ltac doMount_tail o :=
  try match goal with
      | |- context [run o ?h' (doMount_prepare ?p)] =>
          pose proof (doMount_prepare_spec o h' p) as Hprep;
          pose proof (doMount_prepare_calls o h' p) as Hcalls;
          cbv zeta in Hprep;
          destruct (run o h' (doMount_prepare p)) as [s t6];
          cbn [fst snd] in Hprep, Hcalls
      end;
  unfold result, calls, object; cbn [fst snd app mPath set_mPath].

Lemma doPostMount_object o h v : object (exec o h doPostMount v) = v.
Proof.
  unfold exec, doPostMount. cbn -[doPostMount_users]. rewrite !run_pbind.
  match goal with |- context [run o ?h' (doPostMount_users ?a ?b ?c ?d)] =>
    destruct (run o h' (doPostMount_users a b c d)) as [[] t] end.
  reflexivity.
Qed.

Lemma doFormat_resolve_unfold o h v fsType :
  exec o h (doFormat_resolve fsType) v =
  if (fsType =? "auto")%string then
    let maj := major v.(mRawDevice) in
    let virtio := o _ h (IsVirtioBlkDevice maj) in
    if ((maj =? kMajorBlockMmc)%N || (maj =? kMajorBlockLoop)%N)%bool then
      let f2fs := o _ h f2fs_IsSupported in
      (((if f2fs then "f2fs" else "ext4"), v), [Log f2fs_IsSupported f2fs])
    else if virtio then
      let f2fs := o _ (h ++ [Log (IsVirtioBlkDevice maj) virtio]) f2fs_IsSupported in
      (((if f2fs then "f2fs" else "ext4"), v),
       [Log (IsVirtioBlkDevice maj) virtio; Log f2fs_IsSupported f2fs])
    else (("ext4", v), [Log (IsVirtioBlkDevice maj) virtio])
  else ((fsType, v), []).
Proof.
  unfold exec, doFormat_resolve, andalso, orelse. cbv zeta.
  destruct (fsType =? "auto")%string; [| reflexivity].
  cbn -[N.eqb kMajorBlockMmc kMajorBlockLoop].
  destruct (major (mRawDevice v) =? kMajorBlockMmc)%N;
    cbn -[N.eqb kMajorBlockMmc kMajorBlockLoop].
  { destruct (o bool h f2fs_IsSupported); reflexivity. }
  destruct (major (mRawDevice v) =? kMajorBlockLoop)%N;
    cbn -[N.eqb kMajorBlockMmc kMajorBlockLoop].
  { destruct (o bool h f2fs_IsSupported); reflexivity. }
  destruct (o bool h (IsVirtioBlkDevice (major (mRawDevice v)))); cbn; [| reflexivity].
  match goal with |- context [o bool ?h' f2fs_IsSupported] =>
    destruct (o bool h' f2fs_IsSupported) end; reflexivity.
Qed.

Lemma doFormat_unfold o h v fsType :
  exec o h (doFormat fsType) v =
  let '((resolvedFsType, _), t1) := exec o h (doFormat_resolve fsType) v in
  if (resolvedFsType =? "ext4")%string then
    let format := ext4_Format v.(mDmDevPath) 0 "/data" in
    let st := o _ (h ++ t1) format in
    ((if st =? 0 then OK else - EIO, v), t1 ++ [Log format st])
  else if (resolvedFsType =? "f2fs")%string then
    let format := f2fs_Format v.(mDmDevPath) false [] in
    let st := o _ (h ++ t1) format in
    ((if st =? 0 then OK else - EIO, v), t1 ++ [Log format st])
  else ((- EINVAL, v), t1).
Proof.
  assert (Hv : object (exec o h (doFormat_resolve fsType) v) = v).
  { rewrite doFormat_resolve_unfold. cbv zeta.
    repeat match goal with |- context [if ?c then _ else _] => destruct c end;
      reflexivity. }
  unfold exec in *. unfold doFormat. cbn -[doFormat_resolve]. rewrite run_pbind.
  destruct (run o h (runStateT (doFormat_resolve fsType) v)) as [[r v'] t1].
  unfold object in Hv. cbn [fst snd] in Hv. subst v'.
  destruct (r =? "ext4")%string; cbn.
  { match goal with |- context [negb (?c =? 0)] => destruct (c =? 0) end; reflexivity. }
  destruct (r =? "f2fs")%string; cbn.
  { match goal with |- context [negb (?c =? 0)] => destruct (c =? 0) end; reflexivity. }
  rewrite app_nil_r. reflexivity.
Qed.

Lemma doFormat_object o h v fsType : object (exec o h (doFormat fsType) v) = v.
Proof.
  rewrite doFormat_unfold.
  destruct (exec o h (doFormat_resolve fsType) v) as [[r v'] t1].
  repeat match goal with |- context [if (?a =? ?b)%string then _ else _] =>
           destruct (a =? b)%string end; reflexivity.
Qed.

(** ** Unmounting *)

Lemma c_str_no_NUL s : no_NUL s = true -> c_str s = s.
Proof.
  induction s as [| c s IH]; [reflexivity |]. cbn [no_NUL c_str].
  destruct (Ascii.eqb c zero); cbn [negb andb]; [discriminate |].
  intros H. rewrite (IH H). reflexivity.
Qed.

Section Interrupted.

Variable o : Oracle.
Variable e : Event (Z * Z).

Lemma TEMP_FAILURE_RETRY_S fuel h :
  run o h (TEMP_FAILURE_RETRY (S fuel) e) =
  let r := o _ h e in
  if ((fst r =? -1) && (snd r =? EINTR))%bool
  then let '(rc, t) := run o (h ++ [Log e r]) (TEMP_FAILURE_RETRY fuel e) in
       (rc, Log e r :: t)
  else (Some (fst r), [Log e r]).
Proof.
  cbn [TEMP_FAILURE_RETRY bind Monad_Prog pbind call run]. cbv zeta.
  destruct ((fst (o _ h e) =? -1) && (snd (o _ h e) =? EINTR))%bool;
    cbn [pbind run]; [| reflexivity].
  destruct (run o (h ++ [Log e (o _ h e)]) (TEMP_FAILURE_RETRY fuel e)).
  reflexivity.
Qed.

(** The macro evaluates its expression and nothing else, at most [fuel]
    times, and is out of fuel only after [fuel] evaluations. *)
Lemma TEMP_FAILURE_RETRY_calls (P : Logged -> bool) :
  (forall a, P (Log e a) = true) ->
  forall fuel h,
    let x := run o h (TEMP_FAILURE_RETRY fuel e) in
    forallb P (snd x) = true /\
    exists k, (k <= fuel)%nat /\ kinds (snd x) = repeat (kind_of e) k /\
              (fst x = None -> k = fuel).
Proof.
  intros HP. induction fuel as [| fuel IH]; intros h; cbv zeta.
  - split; [reflexivity |]. exists 0%nat. repeat split. lia.
  - rewrite TEMP_FAILURE_RETRY_S. cbv zeta.
    destruct ((fst (o _ h e) =? -1) && (snd (o _ h e) =? EINTR))%bool.
    + specialize (IH (h ++ [Log e (o _ h e)])). cbv zeta in IH.
      destruct (run o (h ++ [Log e (o _ h e)]) (TEMP_FAILURE_RETRY fuel e)) as [rc t].
      cbn [fst snd] in *. destruct IH as (Hall & k & Hk & Hkinds & Hnone).
      split; [cbn [forallb]; rewrite HP, Hall; reflexivity |].
      exists (S k). repeat split;
        [lia | unfold kinds in Hkinds |- *; cbn [map log_ev repeat]; rewrite Hkinds;
               reflexivity |].
      intros Hrc. rewrite (Hnone Hrc). reflexivity.
    + cbn [fst snd]. split; [cbn [forallb]; rewrite HP; reflexivity |].
      exists 1%nat. repeat split; [lia | discriminate].
Qed.

(** Interrupted [n] times and then not, with fuel for more than [n]
    evaluations, the macro returns after [n + 1] of them. *)
Lemma TEMP_FAILURE_RETRY_returns h n :
  interrupted_until o h e n ->
  forall j fuel tr,
    (count (kind_of e) tr + j = n)%nat -> (j < fuel)%nat ->
    let x := run o (h ++ tr) (TEMP_FAILURE_RETRY fuel e) in
    (exists rc, fst x = Some rc) /\ kinds (snd x) = repeat (kind_of e) (S j).
Proof.
  intros Hint. induction j as [| j IH]; intros fuel tr Hn Hj;
    (destruct fuel as [| fuel]; [lia |]); cbv zeta; rewrite TEMP_FAILURE_RETRY_S;
    cbv zeta.
  - destruct (Hint tr) as [_ Hok]. rewrite Hok by lia. cbn [fst snd].
    split; [eauto | reflexivity].
  - destruct (Hint tr) as [Hfail _]. rewrite Hfail by lia.
    cbn [fst snd Z.eqb EINTR Pos.eqb andb].
    match goal with |- context [run o ((h ++ tr) ++ ?t') (TEMP_FAILURE_RETRY fuel e)] =>
      rewrite <- (app_assoc h tr t');
      specialize (IH fuel (tr ++ t')); cbv zeta in IH;
      destruct (run o (h ++ tr ++ t') (TEMP_FAILURE_RETRY fuel e)) as [rc t] end.
    cbn [fst snd] in *. destruct IH as [Hrc Hk].
    + count_calls. rewrite is_kind_same. lia.
    + lia.
    + split; [exact Hrc |]. unfold kinds in Hk |- *. cbn [map log_ev]. rewrite Hk.
      reflexivity.
Qed.

(** Interrupted at every evaluation, the macro does not return: whatever
    the fuel, it is used up. *)
Lemma TEMP_FAILURE_RETRY_spins h :
  (forall tr, o _ (h ++ tr) e = (-1, EINTR)) ->
  forall fuel tr,
    let x := run o (h ++ tr) (TEMP_FAILURE_RETRY fuel e) in
    fst x = None /\ kinds (snd x) = repeat (kind_of e) fuel.
Proof.
  intros Hint. induction fuel as [| fuel IH]; intros tr; cbv zeta.
  - split; reflexivity.
  - rewrite TEMP_FAILURE_RETRY_S. cbv zeta. rewrite Hint.
    cbn [fst snd Z.eqb EINTR Pos.eqb andb].
    match goal with |- context [run o ((h ++ tr) ++ ?t') (TEMP_FAILURE_RETRY fuel e)] =>
      rewrite <- (app_assoc h tr t');
      specialize (IH (tr ++ t')); cbv zeta in IH;
      destruct (run o (h ++ tr ++ t') (TEMP_FAILURE_RETRY fuel e)) as [rc t] end.
    cbn [fst snd] in *. destruct IH as [-> Hk]. split; [reflexivity |].
    unfold kinds in Hk |- *. cbn [map log_ev]. rewrite Hk. reflexivity.
Qed.

End Interrupted.

Lemma o_eintr_rmdir n h path :
  count Krmdir h = 0%nat -> interrupted_until (o_eintr n) h (rmdir path) n.
Proof.
  intros Hh tr. cbn [kind_of o_eintr]. rewrite count_app, Hh. cbn [Nat.add].
  split; intros H.
  - destruct (Nat.ltb_spec (count Krmdir tr) n); [reflexivity | lia].
  - destruct (Nat.ltb_spec (count Krmdir tr) n); [lia | reflexivity].
Qed.

Lemma doUnmount_unfold o h v fuel :
  exec o h (doUnmount fuel) v =
  let force := ForceUnmount v.(mPath) in
  let u := o _ h force in
  let '(rc, t) :=
    run o (h ++ [Log force u]) (TEMP_FAILURE_RETRY fuel (rmdir v.(mPath))) in
  ((match rc with Some _ => Some OK | None => None end, v), Log force u :: t).
Proof.
  unfold exec, doUnmount. cbn -[TEMP_FAILURE_RETRY]. rewrite !run_pbind.
  destruct (run o (h ++ [Log (ForceUnmount (mPath v)) (o _ h (ForceUnmount (mPath v)))])
              (TEMP_FAILURE_RETRY fuel (rmdir (mPath v)))) as [[rc |] t];
    cbn; rewrite ?app_nil_r; reflexivity.
Qed.

Lemma doUnmount_object o h v fuel : object (exec o h (doUnmount fuel) v) = v.
Proof.
  rewrite doUnmount_unfold. cbv zeta.
  match goal with |- context [run o ?h' (TEMP_FAILURE_RETRY fuel ?e)] =>
    destruct (run o h' (TEMP_FAILURE_RETRY fuel e)) end.
  reflexivity.
Qed.

Lemma doUnmount_result o h v fuel :
  result (exec o h (doUnmount fuel) v) = Some OK \/
  result (exec o h (doUnmount fuel) v) = None.
Proof.
  rewrite doUnmount_unfold. cbv zeta.
  match goal with |- context [run o ?h' (TEMP_FAILURE_RETRY fuel ?e)] =>
    destruct (run o h' (TEMP_FAILURE_RETRY fuel e)) as [[rc |] t] end;
    [left | right]; reflexivity.
Qed.

(** [doUnmount] returns, and returns OK, as soon as its [rmdir] is not
    interrupted, whatever the [rmdir] yields then. *)
Lemma doUnmount_returns o h v fuel n :
  (n < fuel)%nat ->
  interrupted_until o
    (h ++ [Log (ForceUnmount v.(mPath)) (o _ h (ForceUnmount v.(mPath)))])
    (rmdir v.(mPath)) n ->
  result (exec o h (doUnmount fuel) v) = Some OK /\
  kinds (calls (exec o h (doUnmount fuel) v)) = KForceUnmount :: repeat Krmdir (S n).
Proof.
  intros Hn Hint. rewrite doUnmount_unfold. cbv zeta.
  pose proof (TEMP_FAILURE_RETRY_returns o _ _ n Hint n fuel [] eq_refl Hn) as Hr.
  cbv zeta in Hr. rewrite app_nil_r in Hr.
  match goal with |- context [run o ?h' (TEMP_FAILURE_RETRY fuel ?e)] =>
    destruct (run o h' (TEMP_FAILURE_RETRY fuel e)) as [rc t] end.
  cbn [fst snd kind_of] in Hr. destruct Hr as [[rc' ->] Hk].
  unfold result, calls. cbn [fst snd]. unfold kinds in Hk |- *.
  cbn [map log_ev kind_of]. rewrite Hk. split; reflexivity.
Qed.

(** * The claims *)

(** ** Destruction *)

(** C1, as stated, fails: when no mapping exists for the identity the
    delete fails with ENXIO, [doDestroy] returns -EIO and never calls
    [DestroyDeviceNode]. *)
Lemma doDestroy_skips_node_removal :
  result (exec (o_delete_fails ENXIO) [] doDestroy vol0) = - EIO /\
  count KDestroyDeviceNode (calls (exec (o_delete_fails ENXIO) [] doDestroy vol0)) = 0%nat /\
  ~ destroy_attempts_both (o_delete_fails ENXIO) [] vol0.
Proof.
  split; [reflexivity |]. split; [reflexivity |].
  unfold destroy_attempts_both. vm_compute. intros [_ H]. inversion H.
Qed.

(** C1, amended: [doDestroy] always starts with the removal of the block
    mapping for the identity; the raw device node is removed, as the last
    call and after every delete attempt, exactly when one delete attempt
    succeeded, and the status of that removal is the result; when the
    mapping removal fails the result is -EIO and the node removal is not
    attempted. *)
Theorem doDestroy_node_removal_gated (o : Oracle) (h : Trace) (v : PrivateVolume) :
  let x := exec o h doDestroy v in
  (exists a t, calls x = Log (DeleteDevice v.(mId)) a :: t) /\
  (count KDeleteDevice (calls x) <= 10)%nat /\
  if existsb delete_ok (calls x)
  then exists t st,
      calls x = t ++ [Log (DestroyDeviceNode v.(mRawDevPath)) st] /\
      count KDestroyDeviceNode t = 0%nat /\
      result x = st
  else result x = - EIO /\ count KDestroyDeviceNode (calls x) = 0%nat.
Proof.
  cbv zeta. rewrite doDestroy_unfold.
  pose proof (delete_loop_result o (DeleteDevice v.(mId)) (fun a => eq_refl) 9 false h)
    as [(a & t & Hfirst) Hres].
  pose proof (delete_loop_calls o (DeleteDevice v.(mId)) KDestroyDeviceNode 10
                ltac:(cbn; congruence) ltac:(congruence) false h) as Hnone.
  pose proof (delete_loop_attempts o (DeleteDevice v.(mId)) ltac:(cbn; congruence)
                10 false h) as Hatt.
  destruct (run o h (delete_loop (DeleteDevice (mId v)) 10 false)) as [ok t1].
  cbn [fst snd kind_of] in *. subst t1 ok.
  destruct (existsb delete_ok (Log (DeleteDevice (mId v)) a :: t)) eqn:E;
    cbv zeta; unfold calls, result; cbn [fst snd].
  - split; [cbn [app]; eauto |]. split.
    + count_calls. count_calls_in Hatt. lia.
    + rewrite existsb_app, E. cbn [orb]. eauto.
  - split; [eauto |]. split; [exact Hatt |]. rewrite E. auto.
Qed.

(** ** Creation *)

(** C2, as stated, fails: the node is created, the delete of the stale
    mapping fails with EPERM, [doCreate] returns -EIO and the node is
    still there. *)
Lemma doCreate_leaves_node :
  result (exec (o_delete_fails EPERM) [] doCreate vol0) = - EIO /\
  node_after vol0.(mRawDevPath) false
    (calls (exec (o_delete_fails EPERM) [] doCreate vol0)) = true /\
  ~ create_is_atomic (o_delete_fails EPERM) [] vol0.
Proof.
  split; [reflexivity |]. split; [reflexivity |].
  unfold create_is_atomic. vm_compute.
  intros [(H & _) | (_ & H)]; discriminate H.
Qed.

(** C2, amended: every execution of [doCreate] either returns success,
    with the device node created and the block mapping set up, or
    returns the I/O error; [doCreate] never removes the device node, so
    that after it the node exists whenever its first step succeeded, also
    when a later step failed. *)
Theorem doCreate_no_rollback (o : Oracle) (h : Trace) (v : PrivateVolume)
    (before : bool) :
  let x := exec o h doCreate v in
  (result x = OK /\
   existsb create_ok (calls x) = true /\
   existsb setup_ok (calls x) = true \/
   result x = - EIO) /\
  count KDestroyDeviceNode (calls x) = 0%nat /\
  node_after v.(mRawDevPath) before (calls x) =
    (existsb create_ok (calls x) || before)%bool.
Proof.
  cbv zeta. split; [| split].
  - pose proof (doCreate_result o h v) as Hr. cbv zeta in Hr. rewrite Hr.
    destruct (existsb create_ok _); cbn [andb]; [| auto].
    destruct (existsb delete_ok _); cbn [andb]; [| auto].
    destruct (existsb setup_ok _); cbn [andb]; [| auto].
    destruct (existsb open_ok _); auto.
  - apply doCreate_calls; congruence.
  - pose proof (doCreate_calls o h v KDestroyDeviceNode
                  ltac:(congruence) ltac:(congruence) ltac:(congruence)
                  ltac:(congruence) ltac:(congruence) ltac:(congruence)
                  ltac:(congruence)) as Hd.
    revert Hd. rewrite doCreate_unfold. cbv zeta.
    set (create := CreateDeviceNode (mRawDevPath v) (mRawDevice v)).
    set (c := o _ h create).
    assert (Htail : forall t,
               count KDestroyDeviceNode (Log create c :: t) = 0%nat ->
               count KCreateDeviceNode t = 0%nat ->
               node_after (mRawDevPath v) before (Log create c :: t) =
               (existsb create_ok (Log create c :: t) || before)%bool).
    { intros t Hd Hc. unfold node_after. cbn [fold_left].
      fold (node_after (mRawDevPath v) (node_step (mRawDevPath v) before (Log create c)) t).
      rewrite node_after_other; [| exact Hc | count_calls_in Hd; exact Hd].
      cbn [existsb create_ok node_step log_ev log_ans create].
      rewrite (existsb_none create_ok KCreateDeviceNode t create_ok_kind Hc).
      rewrite String.eqb_refl. cbn [andb orb]. destruct (c =? 0); reflexivity. }
    destruct (negb (c =? 0)).
    { unfold calls. cbn [fst snd]. intros Hd. apply Htail; [exact Hd | reflexivity]. }
    match goal with |- context [run o ?h' (delete_loop ?d 10 false)] =>
      pose proof (delete_loop_calls o d KCreateDeviceNode 10
                    ltac:(cbn; congruence) ltac:(congruence) false h') as Hc;
      destruct (run o h' (delete_loop d 10 false)) as [ok t1] end.
    cbn [snd] in Hc. destruct (negb ok).
    { unfold calls. cbn [fst snd]. intros Hd. apply Htail; assumption. }
    match goal with |- context [negb (fst ?s)] => destruct (negb (fst s)) end.
    { unfold calls. cbn [fst snd]. intros Hd. apply Htail; [exact Hd |].
      count_calls. rewrite Hc. reflexivity. }
    match goal with |- context [run o ?h' (open_loop ?p ?n)] =>
      pose proof (open_loop_calls o p KCreateDeviceNode
                    ltac:(congruence) ltac:(congruence) ltac:(congruence) n h') as Ho;
      destruct (run o h' (open_loop p n)) as [r t2] end.
    cbn [snd] in Ho. unfold calls. cbn [fst snd]. intros Hd. apply Htail; [exact Hd |].
    count_calls. rewrite Hc, Ho. reflexivity.
Qed.

(** ** The mount path *)

(** C3, as stated, fails.  When the mount point cannot be prepared
    [doMount] returns -EIO before any mount call, and [mPath] is set;
    and after a mount and an unmount [mPath] is still set. *)
Lemma mPath_survives :
  (result (exec (o_mkdir_fails "/mnt/expand/57f8f4bc") [] doMount vol0) = - EIO /\
   mounts (calls (exec (o_mkdir_fails "/mnt/expand/57f8f4bc") [] doMount vol0)) = 0%nat /\
   mPath (object (exec (o_mkdir_fails "/mnt/expand/57f8f4bc") [] doMount vol0)) =
     "/mnt/expand/57f8f4bc") /\
  (result (exec o_well (calls (exec o_well [] doMount vol0)) (doUnmount 1)
             (object (exec o_well [] doMount vol0))) = Some OK /\
   mPath (object (exec o_well (calls (exec o_well [] doMount vol0)) (doUnmount 1)
                    (object (exec o_well [] doMount vol0)))) =
     "/mnt/expand/57f8f4bc") /\
  ~ mPath_iff_mounted (o_mkdir_fails "/mnt/expand/57f8f4bc") vol0 /\
  ~ mPath_iff_mounted o_well vol0.
Proof.
  split; [| split; [| split]].
  - repeat split; reflexivity.
  - split; reflexivity.
  - intros (_ & H & _). vm_compute in H. specialize (H ltac:(discriminate)).
    discriminate H.
  - intros (_ & _ & H). specialize (H 1%nat). vm_compute in H.
    specialize (H ltac:(discriminate)). discriminate H.
Qed.

(** C3, amended: [doMount] sets the mount path to /mnt/expand/<fsUuid>,
    with the UUID as %s prints it (its bytes before the first NUL, all
    of it when it holds none), as soon as the metadata is read, before
    the mount point is prepared, and leaves it unchanged when the
    metadata read fails; so the mount path is not empty when a mount
    call has succeeded.  No method clears it: it keeps its value after a
    [doMount] that returns failure and after [doUnmount], which changes
    no field however often its [rmdir] is interrupted and returns OK as
    soon as the [rmdir] is not interrupted, and [doCreate], [doDestroy],
    [doFormat], [doPostMount] and [readMetadata] leave it as it is. *)
Theorem mPath_set_by_doMount (o : Oracle) (h : Trace) (v : PrivateVolume) :
  (let x := exec o h doMount v in
   let ans := o _ h (ReadMetadata v.(mDmDevPath)) in
   let fsUuid := snd (fst (snd ans)) in
   mPath (object x) =
     (if fst ans =? 0 then ("/mnt/expand/" ++ c_str fsUuid)%string else mPath v) /\
   (fst ans = 0 -> no_NUL fsUuid = true ->
    mPath (object x) = ("/mnt/expand/" ++ fsUuid)%string) /\
   (existsb mount_ok (calls x) = true -> mPath (object x) <> EmptyString)) /\
  (forall fuel,
     let y := exec o h (doUnmount fuel) v in
     object y = v /\ (result y = Some OK \/ result y = None)) /\
  (forall n fuel,
     (n < fuel)%nat ->
     interrupted_until o
       (h ++ [Log (ForceUnmount v.(mPath)) (o _ h (ForceUnmount v.(mPath)))])
       (rmdir v.(mPath)) n ->
     result (exec o h (doUnmount fuel) v) = Some OK) /\
  mPath (object (exec o h doCreate v)) = mPath v /\
  mPath (object (exec o h doDestroy v)) = mPath v /\
  (forall fsType, mPath (object (exec o h (doFormat fsType) v)) = mPath v) /\
  mPath (object (exec o h doPostMount v)) = mPath v /\
  mPath (object (exec o h readMetadata v)) = mPath v.
Proof.
  split; [| split; [| split; [| split; [| split; [| split; [| split]]]]]].
  - cbv zeta. doMount_cases o h v; doMount_tail o;
      cbn [existsb mount_ok log_ev log_ans orb];
      (split; [reflexivity |
               split; [intros Hres Hnul; subst; try discriminate;
                       rewrite (c_str_no_NUL _ Hnul); reflexivity |
                       intros Hm; try discriminate Hm; discriminate]]).
  - intros fuel. cbv zeta. split; [apply doUnmount_object | apply doUnmount_result].
  - intros n fuel Hn Hint. apply (doUnmount_returns o h v fuel n Hn Hint).
  - apply doCreate_mPath.
  - rewrite doDestroy_object. reflexivity.
  - intros fsType. rewrite doFormat_object. reflexivity.
  - rewrite doPostMount_object. reflexivity.
  - unfold exec, readMetadata. cbn.
    destruct (o _ h (ReadMetadata (mDmDevPath v))) as [res [[t u] l]].
    destruct (mListener v); reflexivity.
Qed.

(** The mount path after a mount that went well. *)
Lemma mPath_set_by_doMount_witness :
  mPath (object (exec o_well [] doMount vol0)) = "/mnt/expand/57f8f4bc" /\
  mPath (object (exec o_well [] doMount vol0)) <> EmptyString /\
  result (exec (o_eintr 2) [] (doUnmount 3) vol0) = Some OK.
Proof.
  pose proof (mPath_set_by_doMount o_well [] vol0) as [(_ & Hnul & Hset) _].
  pose proof (mPath_set_by_doMount (o_eintr 2) [] vol0) as (_ & _ & Hret & _).
  split; [exact (Hnul eq_refl eq_refl) |]. split; [exact (Hset eq_refl) |].
  apply (Hret 2%nat 3%nat ltac:(lia)). apply o_eintr_rmdir. reflexivity.
Defined.

(** ** The busy-retry boundary *)

(** Nine busy failures, then success: [doDestroy]. *)
Lemma doDestroy_busy (o : Oracle) (h : Trace) (v : PrivateVolume) :
  busy_until o h (DeleteDevice v.(mId)) 9 ->
  let x := exec o h doDestroy v in
  count KDeleteDevice (calls x) = 10%nat /\
  (exists t st,
      calls x = t ++ [Log (DestroyDeviceNode v.(mRawDevPath)) st] /\ result x = st) /\
  (rest_succeeds o -> result x = OK).
Proof.
  intros Hbusy. cbv zeta. rewrite doDestroy_unfold.
  pose proof (delete_loop_busy o (DeleteDevice v.(mId)) ltac:(cbn; congruence)
                h 9 Hbusy 9 10 [] false eq_refl ltac:(lia)) as Hl.
  cbv zeta in Hl. rewrite app_nil_r in Hl.
  destruct (run o h (delete_loop (DeleteDevice (mId v)) 10 false)) as [ok t1].
  cbn [fst snd kind_of] in Hl. destruct Hl as [-> Hc].
  unfold calls, result. cbn [fst snd]. split; [| split].
  - count_calls. lia.
  - eauto.
  - intros Hrest. apply (Hrest (h ++ t1)).
Qed.

(** Nine busy failures, then success: [doCreate], once the node is created. *)
Lemma doCreate_busy (o : Oracle) (h : Trace) (v : PrivateVolume) :
  let create := CreateDeviceNode v.(mRawDevPath) v.(mRawDevice) in
  o _ h create = 0 ->
  busy_until o (h ++ [Log create 0]) (DeleteDeviceIfExists v.(mId)) 9 ->
  let x := exec o h doCreate v in
  count KDeleteDeviceIfExists (calls x) = 10%nat /\
  (exists s, In (Log (setup_ext_volume v.(mId) v.(mRawDevPath) v.(mKeyRaw)) s) (calls x)) /\
  result x =
    (if (existsb setup_ok (calls x) && existsb open_ok (calls x))%bool
     then OK else - EIO) /\
  (rest_succeeds o -> result x = OK).
Proof.
  cbv zeta. intros Hcreate Hbusy.
  assert (Hres : result (exec o h doCreate v) =
                 (if (existsb setup_ok (calls (exec o h doCreate v)) &&
                      existsb open_ok (calls (exec o h doCreate v)))%bool
                  then OK else - EIO) /\
                 count KDeleteDeviceIfExists (calls (exec o h doCreate v)) = 10%nat /\
                 (exists s, In (Log (setup_ext_volume v.(mId) v.(mRawDevPath) v.(mKeyRaw)) s)
                              (calls (exec o h doCreate v))) /\
                 (rest_succeeds o -> result (exec o h doCreate v) = OK));
    [| tauto].
  pose proof (doCreate_result o h v) as Hr. cbv zeta in Hr. rewrite Hr at 1. clear Hr.
  rewrite doCreate_unfold. cbv zeta. rewrite Hcreate. cbn [Z.eqb negb].
  set (create := CreateDeviceNode (mRawDevPath v) (mRawDevice v)) in *.
  pose proof (delete_loop_busy o (DeleteDeviceIfExists v.(mId)) ltac:(cbn; congruence)
                _ 9 Hbusy 9 10 [] false eq_refl ltac:(lia)) as Hl.
  cbv zeta in Hl. rewrite app_nil_r in Hl.
  match goal with |- context [run o ?h' (delete_loop ?d 10 false)] =>
    pose proof (delete_loop_result o d (fun a => eq_refl) 9 false h') as [_ Hok];
    destruct (run o h' (delete_loop d 10 false)) as [ok t1] end.
  cbn [fst snd kind_of] in Hl, Hok. destruct Hl as [-> Hc]. cbn [negb].
  assert (Hd : forall t, existsb delete_ok (Log create 0 :: t1 ++ t) = true).
  { intros t. cbn [existsb]. rewrite existsb_app, <- Hok. apply orb_true_r. }
  set (setup := setup_ext_volume (mId v) (mRawDevPath v) (mKeyRaw v)).
  match goal with |- context [negb (fst ?s')] => set (s := s') end.
  destruct (fst s) eqn:Es; cbn [negb].
  - match goal with |- context [run o ?h' (open_loop ?p ?n)] =>
      pose proof (open_loop_calls o p KDeleteDeviceIfExists
                    ltac:(congruence) ltac:(congruence) ltac:(congruence) n h') as Ho;
      pose proof (fun H => open_loop_first o p n h' H) as Hopen;
      destruct (run o h' (open_loop p n)) as [r t2] end.
    cbn [fst snd] in Ho, Hopen. unfold calls, result. cbn [fst snd].
    rewrite Hd. cbn [existsb create_ok log_ev log_ans Z.eqb orb andb create].
    split; [reflexivity |]. split; [count_calls; lia |]. split.
    + exists s. right. apply in_or_app. right. left. reflexivity.
    + intros Hrest. apply Hopen, Hrest.
  - unfold calls, result. cbn [fst snd].
    rewrite Hd. cbn [existsb create_ok log_ev log_ans Z.eqb orb andb create].
    split; [reflexivity |]. split; [count_calls; lia |]. split.
    + exists s. right. apply in_or_app. right. left. reflexivity.
    + intros Hrest. exfalso.
      destruct (Hrest ((h ++ [Log create 0]) ++ t1)) as (_ & Hs & _).
      unfold s, setup in Es. rewrite Hs in Es. discriminate Es.
Qed.

(** C4: when the delete of the block mapping fails with EBUSY on the
    attempts 1 to 9 and succeeds on attempt 10, exactly 10 attempts are
    made and the method goes on: [doDestroy] removes the device node and
    returns its status, [doCreate] sets up the mapping and returns OK
    when set-up and open succeed; both return OK when the later steps
    succeed.  When the first attempt fails with another reason than
    EBUSY, the method returns -EIO at once: that attempt is its last
    call. *)
Theorem busy_retry_boundary (o : Oracle) (h : Trace) (v : PrivateVolume) :
  let create := CreateDeviceNode v.(mRawDevPath) v.(mRawDevice) in
  let h1 := h ++ [Log create 0] in
  (busy_until o h (DeleteDevice v.(mId)) 9 ->
   let x := exec o h doDestroy v in
   count KDeleteDevice (calls x) = 10%nat /\
   (exists t st,
       calls x = t ++ [Log (DestroyDeviceNode v.(mRawDevPath)) st] /\ result x = st) /\
   (rest_succeeds o -> result x = OK)) /\
  (o _ h create = 0 -> busy_until o h1 (DeleteDeviceIfExists v.(mId)) 9 ->
   let x := exec o h doCreate v in
   count KDeleteDeviceIfExists (calls x) = 10%nat /\
   (exists s, In (Log (setup_ext_volume v.(mId) v.(mRawDevPath) v.(mKeyRaw)) s) (calls x)) /\
   result x =
     (if (existsb setup_ok (calls x) && existsb open_ok (calls x))%bool
      then OK else - EIO) /\
   (rest_succeeds o -> result x = OK)) /\
  (fst (o _ h (DeleteDevice v.(mId))) = false ->
   snd (o _ h (DeleteDevice v.(mId))) <> EBUSY ->
   exec o h doDestroy v =
     ((- EIO, v), [Log (DeleteDevice v.(mId)) (o _ h (DeleteDevice v.(mId)))])) /\
  (o _ h create = 0 ->
   fst (o _ h1 (DeleteDeviceIfExists v.(mId))) = false ->
   snd (o _ h1 (DeleteDeviceIfExists v.(mId))) <> EBUSY ->
   exec o h doCreate v =
     ((- EIO, v),
      [Log create 0;
       Log (DeleteDeviceIfExists v.(mId)) (o _ h1 (DeleteDeviceIfExists v.(mId)))])).
Proof.
  cbv zeta. split; [| split; [| split]].
  - apply doDestroy_busy.
  - apply doCreate_busy.
  - intros Hf He. rewrite doDestroy_unfold.
    rewrite delete_loop_not_busy by assumption. reflexivity.
  - intros Hcreate Hf He. rewrite doCreate_unfold. cbv zeta.
    rewrite Hcreate. cbn [Z.eqb negb].
    rewrite delete_loop_not_busy by assumption. reflexivity.
Qed.

(** The boundary on a run: nine busy failures, then success; and a
    first failure with EPERM. *)
Lemma busy_retry_boundary_witness :
  (count KDeleteDevice (calls (exec (o_busy 9) [] doDestroy vol0)) = 10%nat /\
   result (exec (o_busy 9) [] doDestroy vol0) = OK) /\
  (count KDeleteDeviceIfExists (calls (exec (o_busy 9) [] doCreate vol0)) = 10%nat /\
   result (exec (o_busy 9) [] doCreate vol0) = OK) /\
  exec (o_delete_fails EPERM) [] doDestroy vol0 =
    ((- EIO, vol0), [Log (DeleteDevice "private:179,1") (false, EPERM)]) /\
  exec (o_delete_fails EPERM) [] doCreate vol0 =
    ((- EIO, vol0),
     [Log (CreateDeviceNode "/dev/block/vold/private:179,1" (makedev 179 1)) 0;
      Log (DeleteDeviceIfExists "private:179,1") (false, EPERM)]).
Proof.
  destruct (busy_retry_boundary (o_busy 9) [] vol0) as (Hd & Hc & _ & _).
  destruct (busy_retry_boundary (o_delete_fails EPERM) [] vol0) as (_ & _ & Hd' & Hc').
  split; [| split; [| split]].
  - destruct (Hd (o_busy_DeleteDevice 9 [] _ eq_refl)) as (Hn & _ & Hok).
    split; [exact Hn | exact (Hok (o_busy_rest 9))].
  - destruct (Hc eq_refl ltac:(apply o_busy_DeleteDeviceIfExists; reflexivity))
      as (Hn & _ & _ & Hok).
    split; [exact Hn | exact (Hok (o_busy_rest 9))].
  - apply Hd'; [reflexivity | vm_compute; discriminate].
  - apply Hc'; [reflexivity | reflexivity | vm_compute; discriminate].
Defined.

(** ** Mounting *)

(** C5: [doMount] dispatches on the type read from the metadata.  A
    mount is only called after a check of the same driver that returned
    an accepted code: 0 or 1 for ext4, 0 for f2fs; a check that returns
    another code makes [doMount] return -EIO with no mount call; after an
    accepted check the mount is called.  With type ext4 only the ext4
    driver is used, with f2fs only the f2fs driver, and with any other
    type [doMount] returns -EIO without a check or a mount. *)
Theorem doMount_dispatch (o : Oracle) (h : Trace) (v : PrivateVolume) :
  let x := exec o h doMount v in
  let tr := calls x in
  let fsType := mFsType (object x) in
  mounts_checked false false tr = true /\
  (existsb check_rejected tr = true -> result x = - EIO /\ mounts tr = 0%nat) /\
  (existsb check_accepted tr = true -> mounts tr = 1%nat) /\
  if (fsType =? "ext4")%string
  then count Kf2fs_Check tr = 0%nat /\ count Kf2fs_Mount tr = 0%nat
  else if (fsType =? "f2fs")%string
  then count Kext4_Check tr = 0%nat /\ count Kext4_Mount tr = 0%nat
  else result x = - EIO /\ checks tr = 0%nat /\ mounts tr = 0%nat.
Proof.
  cbv zeta. doMount_cases o h v; doMount_tail o;
    try (pose proof (Hcalls Kext4_Check ltac:(congruence) ltac:(congruence)
                       ltac:(congruence)) as Hc1;
         pose proof (Hcalls Kf2fs_Check ltac:(congruence) ltac:(congruence)
                       ltac:(congruence)) as Hc2;
         pose proof (Hcalls Kext4_Mount ltac:(congruence) ltac:(congruence)
                       ltac:(congruence)) as Hm1;
         pose proof (Hcalls Kf2fs_Mount ltac:(congruence) ltac:(congruence)
                       ltac:(congruence)) as Hm2;
         pose proof (mounts_checked_none t6 ltac:(unfold checks; lia)
                       ltac:(unfold mounts; lia)) as Hmc;
         destruct (no_check t6 ltac:(unfold checks; lia)) as [Hna Hnr]);
    cbn [mFsType set_mPath set_metadata];
    rewrite ?Efs, ?Efs0;
    unfold checks, mounts;
    cbn [mounts_checked existsb check_accepted check_rejected kind_of log_ev log_ans
         andb orb];
    rewrite ?Ecode, ?Hmc, ?Hna, ?Hnr;
    cbn [negb orb andb];
    count_calls; rewrite ?Hc1, ?Hc2, ?Hm1, ?Hm2;
    repeat split; intros; try reflexivity; try discriminate.
Qed.

(** The dispatch on runs: ext4 repaired (code 1) is mounted, f2fs with
    code 1 is not. *)
Lemma doMount_dispatch_witness :
  mounts (calls (exec (o_fs "ext4" 1) [] doMount vol0)) = 1%nat /\
  (result (exec (o_fs "f2fs" 1) [] doMount vol0) = - EIO /\
   mounts (calls (exec (o_fs "f2fs" 1) [] doMount vol0)) = 0%nat).
Proof.
  split.
  - exact (proj1 (proj2 (proj2 (doMount_dispatch (o_fs "ext4" 1) [] vol0))) eq_refl).
  - exact (proj1 (proj2 (doMount_dispatch (o_fs "f2fs" 1) [] vol0)) eq_refl).
Defined.

(** C6: after a successful [doMount] every [PrepareDir] call has
    succeeded and the directories prepared are the mount point followed
    by exactly the nine subdirectories app, user, user_de, misc_ce,
    misc_de, media, media/0, local and local/tmp of the mount path, each
    with its mode, owner and group; and when one [PrepareDir] fails
    [doMount] returns -EIO. *)
Theorem doMount_layout (o : Oracle) (h : Trace) (v : PrivateVolume) :
  let x := exec o h doMount v in
  let p := mPath (object x) in
  (result x = OK ->
   existsb prepare_failed (calls x) = false /\
   prepared (calls x) =
     (p, oct 7 0 0, AID_ROOT, AID_ROOT, 0) :: layout p (existsb sdcardfs_used (calls x))) /\
  (existsb prepare_failed (calls x) = true -> result x = - EIO).
Proof.
  cbv zeta. doMount_cases o h v; doMount_tail o;
    (split; [intros Hok; try discriminate Hok | intros Hfail; try reflexivity]);
    destruct Hprep as [Hs Hl]; unfold prepared in *;
    cbn [existsb prepare_failed sdcardfs_used flat_map prepared_dir
         log_ev log_ans app orb] in *;
    repeat match goal with E : (_ =? 0) = _ |- _ =>
             rewrite ?E in *; clear E end;
    cbn [app orb negb] in *;
    destruct (existsb prepare_failed t6);
    try (subst s; first [discriminate | reflexivity]).
  all: rewrite (Hl eq_refl); split; reflexivity.
Qed.

(** The layout on a run where all goes well, and a run where preparing
    media/0 fails. *)
Lemma doMount_layout_witness :
  prepared (calls (exec o_well [] doMount vol0)) =
    [ ("/mnt/expand/57f8f4bc", 448, 0, 0, 0);
      ("/mnt/expand/57f8f4bc/app", 505, 1000, 1000, 0);
      ("/mnt/expand/57f8f4bc/user", 329, 1000, 1000, 0);
      ("/mnt/expand/57f8f4bc/user_de", 329, 1000, 1000, 0);
      ("/mnt/expand/57f8f4bc/misc_ce", 329, 1000, 1000, 0);
      ("/mnt/expand/57f8f4bc/misc_de", 329, 1000, 1000, 0);
      ("/mnt/expand/57f8f4bc/media", 360, 1023, 1023, 1073741824);
      ("/mnt/expand/57f8f4bc/media/0", 504, 1023, 1023, 0);
      ("/mnt/expand/57f8f4bc/local", 489, 0, 0, 0);
      ("/mnt/expand/57f8f4bc/local/tmp", 505, 2000, 2000, 0) ] /\
  result (exec (o_mkdir_fails "/mnt/expand/57f8f4bc/media/0") [] doMount vol0) = - EIO.
Proof.
  split.
  - exact (proj2 (proj1 (doMount_layout o_well [] vol0) eq_refl)).
  - exact (proj2 (doMount_layout (o_mkdir_fails "/mnt/expand/57f8f4bc/media/0") [] vol0)
             eq_refl).
Defined.

(** ** Formatting *)

(** C7: with the type "auto" the resolved type is f2fs when the major
    number of the raw device is that of MMC or of loop devices, or a
    virtio-blk one, and f2fs is supported; it is ext4 in every other
    case; and [doFormat] calls the format of the resolved driver, once,
    and not the other. *)
Theorem doFormat_auto (o : Oracle) (h : Trace) (v : PrivateVolume)
    (virtio f2fs : bool) :
  (forall h', o _ h' (IsVirtioBlkDevice (major v.(mRawDevice))) = virtio) ->
  (forall h', o _ h' f2fs_IsSupported = f2fs) ->
  let maj := major v.(mRawDevice) in
  let flash := ((maj =? kMajorBlockMmc)%N || (maj =? kMajorBlockLoop)%N || virtio)%bool in
  let tr := calls (exec o h (doFormat "auto") v) in
  result (exec o h (doFormat_resolve "auto") v) =
    (if (flash && f2fs)%bool then "f2fs" else "ext4") /\
  count Kf2fs_Format tr = (if (flash && f2fs)%bool then 1 else 0)%nat /\
  count Kext4_Format tr = (if (flash && f2fs)%bool then 0 else 1)%nat.
Proof.
  intros Hvirtio Hf2fs. cbv zeta.
  rewrite doFormat_unfold, doFormat_resolve_unfold. cbv zeta.
  rewrite !Hvirtio, !Hf2fs. cbn [String.eqb Ascii.eqb Bool.eqb].
  destruct (major (mRawDevice v) =? kMajorBlockMmc)%N;
    destruct (major (mRawDevice v) =? kMajorBlockLoop)%N;
    destruct virtio; destruct f2fs; cbn [orb andb];
    repeat split; reflexivity.
Qed.

(** An MMC card with f2fs supported, and a SCSI disk. *)
Lemma doFormat_auto_witness :
  result (exec o_well [] (doFormat_resolve "auto") vol0) = "f2fs" /\
  result (exec o_well [] (doFormat_resolve "auto")
            (new_PrivateVolume (makedev 8 16) [])) = "ext4".
Proof.
  split.
  - exact (proj1 (doFormat_auto o_well [] vol0 false true
                    (fun _ => eq_refl) (fun _ => eq_refl))).
  - exact (proj1 (doFormat_auto o_well [] (new_PrivateVolume (makedev 8 16) [])
                    false true (fun _ => eq_refl) (fun _ => eq_refl))).
Defined.

(** C8: for a type that is none of "auto", "ext4" and "f2fs", [doFormat]
    returns -EINVAL, which is not -EIO, leaves the object as it is and
    calls nothing: no format reaches the mapped device. *)
Theorem doFormat_unsupported (o : Oracle) (h : Trace) (v : PrivateVolume)
    (fsType : string) :
  fsType <> "auto" -> fsType <> "ext4" -> fsType <> "f2fs" ->
  exec o h (doFormat fsType) v = ((- EINVAL, v), []) /\ - EINVAL <> - EIO.
Proof.
  intros Ha He Hf. split; [| discriminate].
  rewrite doFormat_unfold, doFormat_resolve_unfold.
  apply String.eqb_neq in Ha, He, Hf. rewrite Ha, He, Hf. reflexivity.
Qed.

Lemma doFormat_unsupported_witness :
  exec o_well [] (doFormat "zzz") vol0 = ((- EINVAL, vol0), []) /\ - EINVAL <> - EIO.
Proof.
  apply (doFormat_unsupported o_well [] vol0 "zzz"); discriminate.
Defined.

(** ** Metadata *)

(** C9: [readMetadata] returns the status of [ReadMetadata] as it is,
    whatever it is, stores the three strings it got, and, when a listener
    is registered, notifies it with the identity and these strings
    after the read and before it returns; it calls nothing else. *)
Theorem readMetadata_notifies (o : Oracle) (h : Trace) (v : PrivateVolume) :
  let read := ReadMetadata v.(mDmDevPath) in
  let ans := o _ h read in
  let fsType := fst (fst (snd ans)) in
  let fsUuid := snd (fst (snd ans)) in
  let fsLabel := snd (snd ans) in
  let x := exec o h readMetadata v in
  result x = fst ans /\
  object x = set_metadata fsType fsUuid fsLabel v /\
  calls x =
    Log read ans ::
    (if v.(mListener)
     then [Log (onVolumeMetadataChanged v.(mId) fsType fsUuid fsLabel) tt]
     else []).
Proof.
  cbv zeta. unfold exec, readMetadata. cbn.
  destruct (o _ h (ReadMetadata (mDmDevPath v))) as [res [[t u] l]].
  destruct (mListener v); cbn; [| repeat split; reflexivity].
  match goal with |- context [o unit ?h' ?e] => destruct (o unit h' e) end.
  repeat split; reflexivity.
Qed.

(** ** Formatting with an explicit type *)

(** C10: a type other than "auto" is the resolved type as it is, and
    neither the major number nor the availability of f2fs is looked at;
    "f2fs" calls the f2fs format and "ext4" the ext4 format, on every
    device and whatever the environment answers, and the result is OK
    when the format returns 0 and -EIO otherwise. *)
Theorem doFormat_explicit (o : Oracle) (h : Trace) (v : PrivateVolume)
    (fsType : string) :
  fsType <> "auto" ->
  exec o h (doFormat_resolve fsType) v = ((fsType, v), []) /\
  count KIsVirtioBlkDevice (calls (exec o h (doFormat fsType) v)) = 0%nat /\
  count Kf2fs_IsSupported (calls (exec o h (doFormat fsType) v)) = 0%nat /\
  exec o h (doFormat "f2fs") v =
    (let format := f2fs_Format v.(mDmDevPath) false [] in
     ((if o _ h format =? 0 then OK else - EIO, v), [Log format (o _ h format)])) /\
  exec o h (doFormat "ext4") v =
    (let format := ext4_Format v.(mDmDevPath) 0 "/data" in
     ((if o _ h format =? 0 then OK else - EIO, v), [Log format (o _ h format)])).
Proof.
  intros Ha. apply String.eqb_neq in Ha.
  rewrite !doFormat_unfold, !doFormat_resolve_unfold. rewrite Ha.
  cbn [String.eqb Ascii.eqb Bool.eqb]. rewrite !app_nil_r. cbv zeta.
  repeat split; try reflexivity;
    destruct (fsType =? "ext4")%string; try reflexivity;
    destruct (fsType =? "f2fs")%string; reflexivity.
Qed.

Lemma doFormat_explicit_witness :
  exec o_no_f2fs [] (doFormat "f2fs") (new_PrivateVolume (makedev 8 16) []) =
    ((OK, new_PrivateVolume (makedev 8 16) []), [Log (f2fs_Format EmptyString false []) 0]) /\
  exec o_well [] (doFormat "ext4") vol0 =
    ((OK, vol0), [Log (ext4_Format EmptyString 0 "/data") 0]).
Proof.
  split.
  - exact (proj1 (proj2 (proj2 (proj2
      (doFormat_explicit o_no_f2fs [] (new_PrivateVolume (makedev 8 16) []) "f2fs"
         ltac:(discriminate)))))).
  - exact (proj2 (proj2 (proj2 (proj2
      (doFormat_explicit o_well [] vol0 "ext4" ltac:(discriminate)))))).
Defined.

(** * Further properties *)

(** ** The identity *)

Lemma string_of_uint_no_comma d : has_comma (NilEmpty.string_of_uint d) = false.
Proof. induction d; cbn; auto. Qed.

Lemma string_of_uint_no_NUL d : no_NUL (NilEmpty.string_of_uint d) = true.
Proof. induction d; cbn; auto. Qed.

Lemma no_NUL_append a b : no_NUL (a ++ b) = (no_NUL a && no_NUL b)%bool.
Proof.
  induction a as [| c a IH]; [reflexivity |]. cbn [String.append no_NUL].
  rewrite IH, andb_assoc. reflexivity.
Qed.

(** The identity the constructor builds is printed by %s as it is. *)
Lemma new_PrivateVolume_c_str d k :
  c_str (mId (new_PrivateVolume d k)) = mId (new_PrivateVolume d k).
Proof.
  apply c_str_no_NUL. cbn [new_PrivateVolume mId]. unfold fmt_u.
  rewrite !no_NUL_append, !string_of_uint_no_NUL. reflexivity.
Qed.

Lemma fmt_u_inj n m : fmt_u n = fmt_u m -> n = m.
Proof.
  unfold fmt_u. intros H. apply DecimalN.Unsigned.to_uint_inj.
  assert (Hs : Some (N.to_uint n) = Some (N.to_uint m)).
  { rewrite <- !NilEmpty.usu, H. reflexivity. }
  congruence.
Qed.

(** Two strings without comma that are followed by a comma. *)
Lemma append_comma_inj a a' b b' :
  has_comma a = false -> has_comma a' = false ->
  (a ++ "," ++ b)%string = (a' ++ "," ++ b')%string -> a = a' /\ b = b'.
Proof.
  revert a'. induction a as [| c a IH]; intros [| c' a'] Ha Ha' H; cbn in *.
  - injection H as H. auto.
  - injection H as Hc _. subst c'. discriminate Ha'.
  - injection H as Hc _. subst c. discriminate Ha.
  - injection H as Hc H. subst c'.
    apply orb_false_elim in Ha as [_ Ha]. apply orb_false_elim in Ha' as [_ Ha'].
    destruct (IH a' Ha Ha' H) as [-> ->]. auto.
Qed.

(** X1: the constructor gives two volumes on different raw devices
    different identities and different device-node paths, whatever their
    keys. *)
Theorem new_PrivateVolume_injective (d1 d2 : dev_t) (k1 k2 : KeyBuffer) :
  d1 <> d2 ->
  mId (new_PrivateVolume d1 k1) <> mId (new_PrivateVolume d2 k2) /\
  mRawDevPath (new_PrivateVolume d1 k1) <> mRawDevPath (new_PrivateVolume d2 k2).
Proof.
  intros Hd.
  assert (Hid : mId (new_PrivateVolume d1 k1) <> mId (new_PrivateVolume d2 k2)).
  { intros H. apply Hd. cbn in H. injection H as H.
    apply append_comma_inj in H; try apply string_of_uint_no_comma.
    destruct H as [H1 H2]. apply fmt_u_inj in H1, H2.
    destruct d1, d2. cbn in *. congruence. }
  split; [exact Hid |].
  intros H. apply Hid. cbn in H |- *. injection H as H. rewrite H. reflexivity.
Qed.

Lemma new_PrivateVolume_injective_witness :
  mId (new_PrivateVolume (makedev 179 1) []) <> mId (new_PrivateVolume (makedev 17 91) []).
Proof.
  exact (proj1 (new_PrivateVolume_injective (makedev 179 1) (makedev 17 91) [] []
                  ltac:(discriminate))).
Defined.

(** ** Children *)



(** ** The busy-retry loop, every number of failures *)

Section Retries.

Variable o : Oracle.
Variable del : Event (bool * Z).
Hypothesis del_kind : kind_of del <> Ksleep_for_ms.

Lemma delete_loop_busy_sleeps h n :
  busy_until o h del n ->
  forall j tries tr ret_,
    (count (kind_of del) tr + j = n)%nat -> (j < tries)%nat ->
    let x := run o (h ++ tr) (delete_loop del tries ret_) in
    fst x = true /\ count (kind_of del) (snd x) = S j /\
    count Ksleep_for_ms (snd x) = j.
Proof.
  intros Hbusy. induction j as [| j IH]; intros tries tr ret_ Hn Hj;
    (destruct tries as [| tries]; [lia |]); cbv zeta; rewrite delete_loop_S; cbv zeta.
  - destruct (Hbusy tr) as [_ Hok]. rewrite Hok by lia. cbn [orb fst snd].
    split; [reflexivity |]. count_calls. rewrite is_kind_same.
    rewrite is_kind_other by exact del_kind. auto.
  - destruct (Hbusy tr) as [Hfail _]. rewrite Hfail by lia.
    cbn [orb fst snd negb Z.eqb EBUSY Pos.eqb].
    match goal with |- context [run o ((h ++ tr) ++ ?t') (delete_loop del tries false)] =>
      rewrite <- (app_assoc h tr t');
      specialize (IH tries (tr ++ t') false); cbv zeta in IH;
      destruct (run o (h ++ tr ++ t') (delete_loop del tries false)) as [r t] end.
    cbn [fst snd] in *.
    destruct IH as (-> & Hc & Hs).
    + count_calls. rewrite is_kind_same.
      rewrite is_kind_other by (cbn; congruence). lia.
    + lia.
    + split; [reflexivity |]. count_calls. rewrite is_kind_same.
      rewrite !is_kind_other by (cbn; congruence). cbn. lia.
Qed.

Lemma delete_loop_stuck h n :
  busy_for o h del n ->
  forall tries tr ret_,
    (count (kind_of del) tr + tries <= n)%nat ->
    let x := run o (h ++ tr) (delete_loop del tries ret_) in
    fst x = match tries with O => ret_ | S _ => false end /\
    count (kind_of del) (snd x) = tries /\
    count Ksleep_for_ms (snd x) = tries.
Proof.
  intros Hbusy. induction tries as [| tries IH]; intros tr ret_ Hn; cbv zeta.
  - cbn. auto.
  - rewrite delete_loop_S. cbv zeta. rewrite (Hbusy tr) by lia.
    cbn [orb fst snd negb Z.eqb EBUSY Pos.eqb].
    match goal with |- context [run o ((h ++ tr) ++ ?t') (delete_loop del tries false)] =>
      rewrite <- (app_assoc h tr t');
      specialize (IH (tr ++ t') false); cbv zeta in IH;
      destruct (run o (h ++ tr ++ t') (delete_loop del tries false)) as [r t] end.
    cbn [fst snd] in *.
    destruct IH as (Hr & Hc & Hs).
    + count_calls. rewrite is_kind_same.
      rewrite is_kind_other by (cbn; congruence). lia.
    + split; [destruct tries; assumption |]. count_calls. rewrite is_kind_same.
      rewrite !is_kind_other by (cbn; congruence). cbn. lia.
Qed.

End Retries.

(** *** The pause after a busy delete *)

Lemma backs_off_app b t1 t2 :
  backs_off b t1 = true -> backs_off false t2 = true ->
  backs_off b (t1 ++ t2) = true.
Proof.
  revert b. induction t1 as [| l t1 IH]; intros b H1 H2.
  - destruct b; [discriminate H1 | exact H2].
  - cbn [app backs_off] in *. destruct b;
      apply andb_prop in H1 as [Hp Hr]; rewrite Hp; cbn [andb]; apply IH; assumption.
Qed.

(** A log without [sleep_for] and without a busy delete. *)
Lemma backs_off_quiet t :
  count Ksleep_for_ms t = 0%nat -> existsb delete_busy t = false ->
  backs_off false t = true.
Proof.
  induction t as [| l t IH]; [reflexivity |]. intros Hc He.
  rewrite count_cons in Hc. cbn [existsb] in He.
  apply orb_false_elim in He as [Hb He]. cbn [backs_off]. rewrite Hb.
  destruct (is_kind Ksleep_for_ms l); [discriminate Hc |]. cbn [negb andb].
  apply IH; [exact Hc | exact He].
Qed.

Lemma delete_busy_kind l :
  delete_busy l = true ->
  kind_of (log_ev l) = KDeleteDevice \/ kind_of (log_ev l) = KDeleteDeviceIfExists.
Proof. destruct l as [X e a]; destruct e; cbn; intros H; auto; discriminate H. Qed.

Lemma delete_busy_none t :
  count KDeleteDevice t = 0%nat -> count KDeleteDeviceIfExists t = 0%nat ->
  existsb delete_busy t = false.
Proof.
  intros H1 H2. destruct (existsb delete_busy t) eqn:E; [| reflexivity].
  apply existsb_exists in E as (l & Hin & Hl).
  destruct (delete_busy_kind l Hl) as [Hk | Hk].
  - exfalso. exact (count_zero_kind _ _ H1 l Hin Hk).
  - exfalso. exact (count_zero_kind _ _ H2 l Hin Hk).
Qed.

Section BackOff.

Variable o : Oracle.
Variable del : Event (bool * Z).
Hypothesis del_kind : kind_of del <> Ksleep_for_ms.
Hypothesis del_busy :
  forall a, delete_busy (Log del a) = (negb (fst a) && (snd a =? EBUSY))%bool.

(** In every run of the loop each delete that fails with EBUSY, the
    last one too, is followed at once by a pause of 100 ms, and the loop
    pauses at no other place. *)
Lemma delete_loop_backs_off :
  forall tries ret_ h,
    backs_off false (snd (run o h (delete_loop del tries ret_))) = true.
Proof.
  induction tries as [| tries IH]; intros ret_ h; [reflexivity |].
  rewrite delete_loop_S. cbv zeta.
  destruct (fst (o _ h del) || negb (snd (o _ h del) =? EBUSY))%bool eqn:E.
  - cbn [snd backs_off]. rewrite is_kind_other by exact del_kind.
    rewrite del_busy. cbn [negb andb].
    destruct (fst (o _ h del)), (snd (o _ h del) =? EBUSY);
      try reflexivity; discriminate E.
  - match goal with |- context [run o ?h' (delete_loop del tries ?r)] =>
      specialize (IH r h'); destruct (run o h' (delete_loop del tries r)) end.
    cbn [snd backs_off] in *. rewrite is_kind_other by exact del_kind.
    rewrite del_busy. cbn [negb andb pause_of log_ev Z.eqb Pos.eqb].
    destruct (fst (o _ h del)), (snd (o _ h del) =? EBUSY);
      try discriminate E. exact IH.
Qed.

End BackOff.

Lemma doDestroy_backs_off o h v :
  backs_off false (calls (exec o h doDestroy v)) = true.
Proof.
  rewrite doDestroy_unfold.
  pose proof (delete_loop_backs_off o (DeleteDevice v.(mId)) ltac:(cbn; congruence)
                (fun a => eq_refl) 10 false h) as Hl.
  destruct (run o h (delete_loop (DeleteDevice (mId v)) 10 false)) as [[|] t1];
    unfold calls; cbn [fst snd] in *; [| exact Hl].
  apply backs_off_app; [exact Hl | reflexivity].
Qed.

Lemma doCreate_backs_off o h v :
  backs_off false (calls (exec o h doCreate v)) = true.
Proof.
  rewrite doCreate_unfold. cbv zeta.
  match goal with |- context [negb (?c =? 0)] => destruct (negb (c =? 0)) end;
    [reflexivity |].
  match goal with |- context [run o ?h' (delete_loop ?d 10 false)] =>
    pose proof (delete_loop_backs_off o d ltac:(cbn; congruence)
                  (fun a => eq_refl) 10 false h') as Hl;
    destruct (run o h' (delete_loop d 10 false)) as [ok t1] end.
  cbn [snd] in Hl.
  destruct ok; cbn [negb]; [| exact Hl].
  match goal with |- context [negb (fst ?s)] => destruct (negb (fst s)) end;
    unfold calls; cbn [snd].
  - apply (backs_off_app false (_ :: t1)); [exact Hl | reflexivity].
  - match goal with |- context [run o ?h' (open_loop ?p ?m)] =>
      pose proof (open_loop_calls o p Ksleep_for_ms
                    ltac:(congruence) ltac:(congruence) ltac:(congruence) m h') as Ho1;
      pose proof (open_loop_calls o p KDeleteDevice
                    ltac:(congruence) ltac:(congruence) ltac:(congruence) m h') as Ho2;
      pose proof (open_loop_calls o p KDeleteDeviceIfExists
                    ltac:(congruence) ltac:(congruence) ltac:(congruence) m h') as Ho3;
      destruct (run o h' (open_loop p m)) as [r t2] end.
    cbn [snd] in *.
    apply (backs_off_app false (_ :: t1)); [exact Hl |].
    apply (backs_off_quiet (_ :: t2)).
    + rewrite count_cons, is_kind_other by (cbn; congruence). exact Ho1.
    + cbn [existsb delete_busy log_ev log_ans orb].
      apply delete_busy_none; assumption.
Qed.

(** X3: when the delete of the block mapping fails with EBUSY at each of
    ten attempts, both methods give up: exactly ten deletes, each
    followed at once by a pause of 100 ms and with no other pause, then
    -EIO; [doDestroy] does not remove the device node, [doCreate] does
    not set up the mapping and changes no field. *)
Theorem busy_retry_exhausted (o : Oracle) (h : Trace) (v : PrivateVolume) :
  let create := CreateDeviceNode v.(mRawDevPath) v.(mRawDevice) in
  (busy_for o h (DeleteDevice v.(mId)) 10 ->
   let x := exec o h doDestroy v in
   backs_off false (calls x) = true /\
   result x = - EIO /\
   count KDeleteDevice (calls x) = 10%nat /\
   count Ksleep_for_ms (calls x) = 10%nat /\
   count KDestroyDeviceNode (calls x) = 0%nat) /\
  (o _ h create = 0 ->
   busy_for o (h ++ [Log create 0]) (DeleteDeviceIfExists v.(mId)) 10 ->
   let x := exec o h doCreate v in
   backs_off false (calls x) = true /\
   result x = - EIO /\ object x = v /\
   count KDeleteDeviceIfExists (calls x) = 10%nat /\
   count Ksleep_for_ms (calls x) = 10%nat /\
   count Ksetup_ext_volume (calls x) = 0%nat).
Proof.
  cbv zeta. split.
  - intros Hbusy. split; [apply doDestroy_backs_off |]. rewrite doDestroy_unfold.
    pose proof (delete_loop_stuck o (DeleteDevice v.(mId)) ltac:(cbn; congruence)
                  h 10 Hbusy 10 [] false ltac:(cbn; lia)) as Hl.
    pose proof (delete_loop_calls o (DeleteDevice v.(mId)) KDestroyDeviceNode 10
                  ltac:(cbn; congruence) ltac:(congruence) false h) as Hn.
    cbv zeta in Hl. rewrite app_nil_r in Hl.
    destruct (run o h (delete_loop (DeleteDevice (mId v)) 10 false)) as [ok t1].
    cbn [fst snd kind_of] in Hl, Hn. destruct Hl as (-> & Hc & Hs).
    unfold result, calls. cbn [fst snd]. auto.
  - intros Hcreate Hbusy. split; [apply doCreate_backs_off |].
    rewrite doCreate_unfold. cbv zeta.
    rewrite Hcreate. cbn [Z.eqb negb].
    pose proof (delete_loop_stuck o (DeleteDeviceIfExists v.(mId)) ltac:(cbn; congruence)
                  _ 10 Hbusy 10 [] false ltac:(cbn; lia)) as Hl.
    cbv zeta in Hl. rewrite app_nil_r in Hl.
    match goal with |- context [run o ?h' (delete_loop ?d 10 false)] =>
      pose proof (delete_loop_calls o d Ksetup_ext_volume 10
                    ltac:(cbn; congruence) ltac:(congruence) false h') as Hn;
      destruct (run o h' (delete_loop d 10 false)) as [ok t1] end.
    cbn [fst snd kind_of] in Hl, Hn. destruct Hl as (-> & Hc & Hs).
    unfold result, calls, object. cbn [fst snd negb].
    repeat split; try reflexivity; count_calls; lia.
Qed.

(** Busy for ever. *)
Lemma busy_retry_exhausted_witness :
  (backs_off false (calls (exec o_stuck [] doDestroy vol0)) = true /\
   result (exec o_stuck [] doDestroy vol0) = - EIO /\
   count KDeleteDevice (calls (exec o_stuck [] doDestroy vol0)) = 10%nat) /\
  (backs_off false (calls (exec o_stuck [] doCreate vol0)) = true /\
   result (exec o_stuck [] doCreate vol0) = - EIO /\
   object (exec o_stuck [] doCreate vol0) = vol0).
Proof.
  destruct (busy_retry_exhausted o_stuck [] vol0) as [Hd Hc]. split.
  - destruct (Hd (fun tr _ => eq_refl)) as (Hb & Hr & Hn & _). auto.
  - destruct (Hc eq_refl (fun tr _ => eq_refl)) as (Hb & Hr & Hv & _). auto.
Defined.

(** X4: when the delete fails with EBUSY at the first [n] attempts, for
    any [n] up to 9, and succeeds at the next, exactly [n + 1] deletes
    are made and [n] pauses, each of 100 ms and right after a delete
    that failed with EBUSY, so none after the success, and the method
    goes on: [doDestroy] to the removal of the device node, [doCreate]
    to the set-up of the mapping. *)
Theorem busy_retry_any (o : Oracle) (h : Trace) (v : PrivateVolume) (n : nat) :
  (n <= 9)%nat ->
  let create := CreateDeviceNode v.(mRawDevPath) v.(mRawDevice) in
  (busy_until o h (DeleteDevice v.(mId)) n ->
   let x := exec o h doDestroy v in
   backs_off false (calls x) = true /\
   count KDeleteDevice (calls x) = S n /\
   count Ksleep_for_ms (calls x) = n /\
   count KDestroyDeviceNode (calls x) = 1%nat) /\
  (o _ h create = 0 ->
   busy_until o (h ++ [Log create 0]) (DeleteDeviceIfExists v.(mId)) n ->
   let x := exec o h doCreate v in
   backs_off false (calls x) = true /\
   count KDeleteDeviceIfExists (calls x) = S n /\
   count Ksleep_for_ms (calls x) = n /\
   count Ksetup_ext_volume (calls x) = 1%nat).
Proof.
  intros Hn. cbv zeta. split.
  - intros Hbusy. split; [apply doDestroy_backs_off |]. rewrite doDestroy_unfold.
    pose proof (delete_loop_busy_sleeps o (DeleteDevice v.(mId)) ltac:(cbn; congruence)
                  h n Hbusy n 10 [] false eq_refl ltac:(lia)) as Hl.
    pose proof (delete_loop_calls o (DeleteDevice v.(mId)) KDestroyDeviceNode 10
                  ltac:(cbn; congruence) ltac:(congruence) false h) as Hd.
    cbv zeta in Hl. rewrite app_nil_r in Hl.
    destruct (run o h (delete_loop (DeleteDevice (mId v)) 10 false)) as [ok t1].
    cbn [fst snd kind_of] in Hl, Hd. destruct Hl as (-> & Hc & Hs).
    unfold calls. cbn [snd]. repeat split; count_calls; lia.
  - intros Hcreate Hbusy. split; [apply doCreate_backs_off |].
    rewrite doCreate_unfold. cbv zeta.
    rewrite Hcreate. cbn [Z.eqb negb].
    pose proof (delete_loop_busy_sleeps o (DeleteDeviceIfExists v.(mId))
                  ltac:(cbn; congruence) _ n Hbusy n 10 [] false eq_refl ltac:(lia)) as Hl.
    cbv zeta in Hl. rewrite app_nil_r in Hl.
    match goal with |- context [run o ?h' (delete_loop ?d 10 false)] =>
      pose proof (delete_loop_calls o d Ksetup_ext_volume 10
                    ltac:(cbn; congruence) ltac:(congruence) false h') as Hd;
      destruct (run o h' (delete_loop d 10 false)) as [ok t1] end.
    cbn [fst snd kind_of] in Hl, Hd. destruct Hl as (-> & Hc & Hs). cbn [negb].
    match goal with |- context [negb (fst ?s)] => destruct (negb (fst s)) end.
    + unfold calls. cbn [snd]. repeat split; count_calls; lia.
    + match goal with |- context [run o ?h' (open_loop ?p ?m)] =>
        pose proof (open_loop_calls o p KDeleteDeviceIfExists
                      ltac:(congruence) ltac:(congruence) ltac:(congruence) m h') as Ho1;
        pose proof (open_loop_calls o p Ksleep_for_ms
                      ltac:(congruence) ltac:(congruence) ltac:(congruence) m h') as Ho2;
        pose proof (open_loop_calls o p Ksetup_ext_volume
                      ltac:(congruence) ltac:(congruence) ltac:(congruence) m h') as Ho3;
        destruct (run o h' (open_loop p m)) as [r t2] end.
      cbn [snd] in Ho1, Ho2, Ho3. unfold calls. cbn [snd].
      repeat split; count_calls; lia.
Qed.

(** Three busy failures. *)
Lemma busy_retry_any_witness :
  (backs_off false (calls (exec (o_busy 3) [] doDestroy vol0)) = true /\
   count KDeleteDevice (calls (exec (o_busy 3) [] doDestroy vol0)) = 4%nat) /\
  (backs_off false (calls (exec (o_busy 3) [] doCreate vol0)) = true /\
   count Ksleep_for_ms (calls (exec (o_busy 3) [] doCreate vol0)) = 3%nat).
Proof.
  destruct (busy_retry_any (o_busy 3) [] vol0 3 ltac:(lia)) as [Hd Hc]. split.
  - destruct (Hd (o_busy_DeleteDevice 3 [] _ eq_refl)) as (Hb & Hn & _). auto.
  - destruct (Hc eq_refl ltac:(apply o_busy_DeleteDeviceIfExists; reflexivity))
      as (Hb & _ & Hs & _). auto.
Defined.

(** ** The device-open poll, counted *)

Section OpenPoll.

Variable o : Oracle.
Variable path : string.


Lemma open_loop_slow h n :
  open_fails_until o h path n ->
  forall j retries tr,
    (count Kopen tr + j = n)%nat -> (j <= retries)%nat ->
    let x := run o (h ++ tr) (open_loop path retries) in
    fst x = OK /\ count Kopen (snd x) = S j /\ count Ksleep (snd x) = j.
Proof.
  intros Hslow. induction j as [| j IH]; intros retries tr Hn Hj; cbv zeta.
  - destruct (Hslow tr) as [_ Hok]. specialize (Hok ltac:(lia)).
    destruct retries; cbn -[count] in *;
      (destruct (Z.ltb_spec (o Z (h ++ tr) (open path 524289)) 0); [lia |]);
      cbn -[count]; count_calls; auto.
  - destruct (Hslow tr) as [Hfail _]. specialize (Hfail ltac:(lia)).
    destruct retries as [| retries]; [lia |]. cbn -[count] in *.
    destruct (Z.ltb_spec (o Z (h ++ tr) (open path 524289)) 0); [| lia].
    cbn -[count].
    match goal with |- context [run o ?h' (open_loop path retries)] =>
      replace h' with (h ++ (tr ++ [Log (open path 524289) (o Z (h ++ tr) (open path 524289));
                                   Log (sleep 1) (o unit ((h ++ tr) ++ [Log (open path 524289) (o Z (h ++ tr) (open path 524289))]) (sleep 1))]))
        by (rewrite <- !app_assoc; reflexivity)
    end.
    match goal with |- context [run o (h ++ ?tr') (open_loop path retries)] =>
      specialize (IH retries tr'); cbv zeta in IH;
      destruct (run o (h ++ tr') (open_loop path retries)) as [r t] end.
    cbn [fst snd] in *. destruct IH as (-> & Ho & Hs).
    + count_calls. lia.
    + lia.
    + count_calls. repeat split; lia.
Qed.

(** In every run of the poll each sleep is of one second, comes right
    after an [open] that failed and is followed at once by the next
    [open]. *)
Lemma open_loop_waits :
  forall retries h,
    waits_between_opens false (snd (run o h (open_loop path retries))) = true.
Proof.
  induction retries as [| retries IH]; intros h.
  - cbn -[Z.lor O_WRONLY O_CLOEXEC]. destruct (o Z h _ <? 0); reflexivity.
  - cbn -[Z.lor O_WRONLY O_CLOEXEC waits_between_opens].
    destruct (o Z h _ <? 0) eqn:E; cbn -[Z.lor O_WRONLY O_CLOEXEC waits_between_opens].
    + match goal with |- context [run o ?h' (open_loop path retries)] =>
        specialize (IH h');
        assert (Hfirst : exists a t,
                   snd (run o h' (open_loop path retries)) =
                   Log (open path (Z.lor O_WRONLY O_CLOEXEC)) a :: t)
          by (destruct retries; cbn -[Z.lor O_WRONLY O_CLOEXEC];
              match goal with |- context [?fd <? 0] => destruct (fd <? 0) end;
              cbn -[Z.lor O_WRONLY O_CLOEXEC];
              repeat match goal with |- context [run o ?h2 (open_loop path ?r)] =>
                       destruct (run o h2 (open_loop path r)) end;
              cbn [snd]; eauto);
        destruct (run o h' (open_loop path retries)) as [r t] end.
      cbn [snd] in *. destruct Hfirst as (a & t' & ->).
      cbn [waits_between_opens log_ev open_failed log_ans] in IH |- *.
      rewrite E. cbn [andb].
      rewrite IH. reflexivity.
    + cbn [waits_between_opens log_ev open_failed log_ans]. reflexivity.
Qed.

End OpenPoll.

Lemma waits_between_opens_weaken t :
  waits_between_opens false t = true -> forall f, waits_between_opens f t = true.
Proof.
  destruct t as [| [X e a] t]; [reflexivity |].
  destruct e; cbn [waits_between_opens log_ev andb]; intros H f;
    first [exact H | discriminate H].
Qed.

Lemma open_failed_kind l : open_failed l = true -> kind_of (log_ev l) = Kopen.
Proof. destruct l as [X e a]; destruct e; cbn; intros H; auto; discriminate H. Qed.

(** Calls that are neither an [open] nor a [sleep] do not matter. *)
Lemma waits_between_opens_app t1 t2 :
  count Ksleep t1 = 0%nat -> count Kopen t1 = 0%nat ->
  waits_between_opens false t2 = true ->
  forall f, waits_between_opens f (t1 ++ t2) = true.
Proof.
  induction t1 as [| [X e a] t1 IH]; intros Hs Ho H2 f.
  - apply waits_between_opens_weaken, H2.
  - rewrite count_cons in Hs, Ho.
    destruct e; cbn [app waits_between_opens log_ev];
      try (apply IH; [| | exact H2];
           [destruct (is_kind Ksleep _) in Hs; [discriminate Hs | exact Hs] |
            destruct (is_kind Kopen _) in Ho; [discriminate Ho | exact Ho]]).
    exfalso. cbn -[count] in Hs. discriminate Hs.
Qed.

(** Names the parts of a run of [doCreate] that reaches the poll or
    stops before it, with what is known of the calls of the delete
    loop. *)
Ltac doCreate_cases o h v :=
  let Hs := fresh "Hs" in
  let Ho := fresh "Ho" in
  let Hsl := fresh "Hsl" in
  let Hcl := fresh "Hcl" in
  let Hs' := fresh "Hs'" in
  let Ec := fresh "Ec" in
  let Es := fresh "Es" in
  let ok := fresh "ok" in
  let t1 := fresh "t1" in
  let create := fresh "create" in
  let c := fresh "c" in
  let setup := fresh "setup" in
  let s := fresh "s" in
  rewrite (doCreate_unfold o h v); cbv zeta;
  set (create := CreateDeviceNode (mRawDevPath v) (mRawDevice v));
  set (c := o _ h create);
  destruct (c =? 0) eqn:Ec; cbn [negb];
  [ match goal with |- context [run o ?h' (delete_loop ?d 10 false)] =>
      pose proof (delete_loop_calls o d Ksetup_ext_volume 10
                    ltac:(cbn; congruence) ltac:(congruence) false h') as Hs;
      pose proof (delete_loop_calls o d Kopen 10
                    ltac:(cbn; congruence) ltac:(congruence) false h') as Ho;
      pose proof (delete_loop_calls o d Ksleep 10
                    ltac:(cbn; congruence) ltac:(congruence) false h') as Hsl;
      pose proof (delete_loop_calls o d Kclose 10
                    ltac:(cbn; congruence) ltac:(congruence) false h') as Hcl;
      destruct (run o h' (delete_loop d 10 false)) as [ok t1] end;
    cbn [fst snd] in Hs, Ho, Hsl, Hcl;
    pose proof (existsb_none setup_ok _ _ setup_ok_kind Hs) as Hs';
    destruct ok; cbn [negb];
    [ set (setup := setup_ext_volume (mId v) (mRawDevPath v) (mKeyRaw v));
      match goal with |- context [negb (fst ?s')] => set (s := s') end;
      destruct (fst s) eqn:Es; cbn [negb] | ] | ].

Lemma doCreate_waits o h v :
  waits_between_opens false (calls (exec o h doCreate v)) = true.
Proof.
  doCreate_cases o h v; unfold calls; cbn [fst snd].
  - match goal with |- context [run o ?h' (open_loop ?p ?n)] =>
      pose proof (open_loop_waits o p n h') as Hw;
      destruct (run o h' (open_loop p n)) as [r t2] end.
    cbn [snd] in Hw.
    replace (Log create c :: t1 ++ Log setup s :: t2)
      with ((Log create c :: t1 ++ [Log setup s]) ++ t2)
      by (cbn [app]; rewrite <- app_assoc; reflexivity).
    apply waits_between_opens_app; [| | exact Hw].
    + count_calls. rewrite Hsl. reflexivity.
    + count_calls. rewrite Ho. reflexivity.
  - rewrite <- (app_nil_r (Log create c :: t1 ++ [Log setup s])).
    apply waits_between_opens_app; [| | reflexivity].
    + count_calls. rewrite Hsl. reflexivity.
    + count_calls. rewrite Ho. reflexivity.
  - rewrite <- (app_nil_r (Log create c :: t1)).
    apply waits_between_opens_app; [| | reflexivity].
    + count_calls. rewrite Hsl. reflexivity.
    + count_calls. rewrite Ho. reflexivity.
  - reflexivity.
Qed.


(** X6: when the mapping is set up and the open of the mapped device
    fails [n] times, for any [n] up to 10, and then yields a
    descriptor, [doCreate] returns OK after [n + 1] opens and [n]
    sleeps, each of one second and between a failed [open] and the
    next [open]. *)
Theorem doCreate_slow_device (o : Oracle) (h : Trace) (v : PrivateVolume) (n : nat) :
  (n <= 10)%nat ->
  (forall path, open_fails_until o h path n) ->
  let x := exec o h doCreate v in
  existsb setup_ok (calls x) = true ->
  waits_between_opens false (calls x) = true /\
  result x = OK /\ count Kopen (calls x) = S n /\ count Ksleep (calls x) = n.
Proof.
  intros Hn Hslow. cbv zeta. intros Hset. split; [apply doCreate_waits |].
  revert Hset. doCreate_cases o h v; unfold calls, result; cbn [fst snd].
  - intros _.
    match goal with |- context [run o ?h' (open_loop ?p ?m)] =>
      replace h' with (h ++ (Log create c :: t1 ++ [Log setup s]))
        by (rewrite <- !app_assoc; reflexivity);
      pose proof (open_loop_slow o p h n (Hslow p) n m
                    (Log create c :: t1 ++ [Log setup s])) as Hp;
      destruct (run o (h ++ (Log create c :: t1 ++ [Log setup s])) (open_loop p m))
        as [r t2] end.
    cbv zeta in Hp. cbn [fst snd] in Hp |- *.
    destruct Hp as (-> & Hop & Hsle).
    + count_calls. rewrite Ho. reflexivity.
    + unfold RETRY_MOUNT_ATTEMPTS. exact Hn.
    + split; [reflexivity |]. count_calls. rewrite Ho, Hsl. lia.
  - cbn [existsb]. rewrite existsb_app. cbn [existsb].
    change (setup_ok (Log setup s)) with (fst s). rewrite Es, Hs'.
    cbn [setup_ok log_ev log_ans create orb]. discriminate.
  - cbn [existsb]. rewrite Hs'. cbn [setup_ok log_ev log_ans create orb]. discriminate.
  - cbn. discriminate.
Qed.

Lemma o_slow_device_spec n h path :
  count Kopen h = 0%nat -> open_fails_until (o_slow_device n) h path n.
Proof.
  intros Hh tr. cbn [o_slow_device]. rewrite count_app, Hh. cbn [Nat.add].
  split; intros H; destruct (Nat.ltb_spec (count Kopen tr) n); lia.
Qed.

(** The device appears at the last open of the poll. *)
Lemma doCreate_slow_device_witness :
  waits_between_opens false (calls (exec (o_slow_device 10) [] doCreate vol0)) = true /\
  result (exec (o_slow_device 10) [] doCreate vol0) = OK /\
  count Kopen (calls (exec (o_slow_device 10) [] doCreate vol0)) = 11%nat /\
  count Ksleep (calls (exec (o_slow_device 10) [] doCreate vol0)) = 10%nat.
Proof.
  apply (doCreate_slow_device (o_slow_device 10) [] vol0 10 ltac:(lia)
           (fun path => o_slow_device_spec 10 [] path eq_refl)).
  reflexivity.
Defined.

(** ** The entries of the volume *)

Lemma dev_eqb_refl d : dev_eqb d d = true.
Proof. unfold dev_eqb. rewrite !N.eqb_refl. reflexivity. Qed.

Lemma delete_loop_forall o (P : Logged -> bool) del :
  (forall a, P (Log del a) = true) ->
  (forall u, P (Log (sleep_for_ms 100) u) = true) ->
  forall tries ret_ h, forallb P (snd (run o h (delete_loop del tries ret_))) = true.
Proof.
  intros Hd Hs. induction tries as [| tries IH]; intros ret_ h; [reflexivity |].
  rewrite delete_loop_S. cbv zeta.
  destruct (fst (o _ h del) || negb (snd (o _ h del) =? EBUSY))%bool.
  - cbn [snd forallb]. rewrite Hd. reflexivity.
  - match goal with |- context [run o ?h' (delete_loop del tries ?r)] =>
      specialize (IH r h'); destruct (run o h' (delete_loop del tries r)) end.
    cbn [snd forallb] in *. rewrite Hd, Hs, IH. reflexivity.
Qed.

Lemma open_loop_forall o (P : Logged -> bool) path :
  (forall a, P (Log (open path (Z.lor O_WRONLY O_CLOEXEC)) a) = true) ->
  (forall u, P (Log (sleep RETRY_MOUNT_DELAY_SECONDS) u) = true) ->
  (forall fd u, P (Log (close fd) u) = true) ->
  forall retries h, forallb P (snd (run o h (open_loop path retries))) = true.
Proof.
  intros Ho Hs Hc. induction retries as [| retries IH]; intros h.
  - cbn -[Z.lor O_WRONLY O_CLOEXEC RETRY_MOUNT_DELAY_SECONDS]. destruct (o Z h _ <? 0); cbn -[Z.lor O_WRONLY O_CLOEXEC RETRY_MOUNT_DELAY_SECONDS]; rewrite Ho, Hc; reflexivity.
  - cbn -[Z.lor O_WRONLY O_CLOEXEC RETRY_MOUNT_DELAY_SECONDS]. destruct (o Z h _ <? 0); cbn -[Z.lor O_WRONLY O_CLOEXEC RETRY_MOUNT_DELAY_SECONDS].
    + match goal with |- context [run o ?h' (open_loop path retries)] =>
        specialize (IH h'); destruct (run o h' (open_loop path retries)) end.
      cbn [snd forallb] in *. rewrite Ho, Hs, IH. reflexivity.
    + rewrite Ho, Hc. reflexivity.
Qed.

(** X7: every call of [doCreate] and of [doDestroy] to the device-node
    binder, to the device mapper and to the encryption set-up names the
    volume's own identity, its own device-node path and its own raw
    device, in every run. *)
Theorem own_entries_only (o : Oracle) (h : Trace) (v : PrivateVolume) :
  forallb (own_entry v) (calls (exec o h doCreate v)) = true /\
  forallb (own_entry v) (calls (exec o h doDestroy v)) = true.
Proof.
  split.
  - rewrite doCreate_unfold. cbv zeta.
    assert (Hc : forall c, own_entry v (Log (CreateDeviceNode (mRawDevPath v) (mRawDevice v)) c) = true).
    { intros c. cbn. rewrite String.eqb_refl, dev_eqb_refl. reflexivity. }
    assert (Hs : forall s, own_entry v (Log (setup_ext_volume (mId v) (mRawDevPath v) (mKeyRaw v)) s) = true).
    { intros s. cbn. rewrite !String.eqb_refl. reflexivity. }
    match goal with |- context [negb (?c =? 0)] => destruct (negb (c =? 0)) end.
    { unfold calls. cbn [snd forallb]. rewrite Hc. reflexivity. }
    match goal with |- context [run o ?h' (delete_loop ?d 10 false)] =>
      pose proof (delete_loop_forall o (own_entry v) d
                    ltac:(intros; cbn; apply String.eqb_refl)
                    ltac:(reflexivity) 10 false h') as Hd;
      destruct (run o h' (delete_loop d 10 false)) as [ok t1] end.
    cbn [snd] in Hd. destruct (negb ok).
    { unfold calls. cbn [snd forallb]. rewrite Hc, Hd. reflexivity. }
    match goal with |- context [negb (fst ?s)] => destruct (negb (fst s)) end.
    { unfold calls. cbn [snd forallb]. rewrite forallb_app, Hc, Hd. cbn [forallb].
      rewrite Hs. reflexivity. }
    match goal with |- context [run o ?h' (open_loop ?p ?n)] =>
      pose proof (open_loop_forall o (own_entry v) p
                    ltac:(reflexivity) ltac:(reflexivity) ltac:(reflexivity) n h') as Ho;
      destruct (run o h' (open_loop p n)) as [r t2] end.
    cbn [snd] in Ho. unfold calls. cbn [snd forallb].
    rewrite forallb_app, Hc, Hd. cbn [forallb]. rewrite Hs, Ho. reflexivity.
  - rewrite doDestroy_unfold.
    pose proof (delete_loop_forall o (own_entry v) (DeleteDevice (mId v))
                  ltac:(intros; cbn; apply String.eqb_refl)
                  ltac:(reflexivity) 10 false h) as Hd.
    destruct (run o h (delete_loop (DeleteDevice (mId v)) 10 false)) as [[|] t1];
      cbn [snd] in Hd; unfold calls; cbn [snd]; [| exact Hd].
    rewrite forallb_app, Hd. cbn. rewrite String.eqb_refl. reflexivity.
Qed.

Lemma set_mDmDevPath_same v : set_mDmDevPath (mDmDevPath v) v = v.
Proof. destruct v. reflexivity. Qed.

(** X8: [doCreate] writes no field but the path of the mapped device;
    that path is what the encryption set-up handed back, also when the
    set-up reported failure, and it is the path every open of the poll
    is made on; a run that does not reach the set-up leaves the object
    as it was. *)
Theorem doCreate_mapped_device (o : Oracle) (h : Trace) (v : PrivateVolume) :
  let x := exec o h doCreate v in
  let p := mDmDevPath (object x) in
  forallb (mapped_path p) (calls x) = true /\
  object x = set_mDmDevPath p v /\
  (count Ksetup_ext_volume (calls x) = 0%nat -> object x = v).
Proof.
  cbv zeta. rewrite doCreate_unfold. cbv zeta.
  match goal with |- context [negb (?c =? 0)] => destruct (negb (c =? 0)) end.
  { unfold calls, object. cbn. rewrite set_mDmDevPath_same. auto. }
  match goal with |- context [run o ?h' (delete_loop ?d 10 false)] =>
    pose proof (fun p => delete_loop_forall o (mapped_path p) d
                  ltac:(reflexivity) ltac:(reflexivity) 10 false h') as Hd;
    destruct (run o h' (delete_loop d 10 false)) as [ok t1] end.
  cbn [snd] in Hd. destruct (negb ok).
  { unfold calls, object. cbn [fst snd forallb]. rewrite Hd, set_mDmDevPath_same.
    cbn. auto. }
  match goal with |- context [negb (fst ?s')] => set (s := s'); destruct (negb (fst s)) end.
  { unfold calls, object. cbn [fst snd forallb mDmDevPath set_mDmDevPath].
    rewrite forallb_app, Hd. cbn -[count]. rewrite String.eqb_refl.
    split; [reflexivity | split; [reflexivity |]].
    intros H. exfalso. revert H. count_calls. lia. }
  match goal with |- context [run o ?h' (open_loop ?p ?n)] =>
    pose proof (open_loop_forall o (mapped_path p) p
                  ltac:(intros; cbn; apply String.eqb_refl)
                  ltac:(reflexivity) ltac:(reflexivity) n h') as Ho;
    destruct (run o h' (open_loop p n)) as [r t2] end.
  cbn [snd] in Ho. unfold calls, object. cbn [fst snd forallb mDmDevPath set_mDmDevPath].
  rewrite forallb_app, Hd. cbn [forallb andb]. rewrite Ho.
  cbn -[count]. rewrite String.eqb_refl.
  split; [reflexivity | split; [reflexivity |]].
    intros H. exfalso. revert H. count_calls. lia.
Qed.

(** ** Formatting, every outcome *)

(** Walks through the branches of [doFormat]. *)
Ltac doFormat_cases o h v fsType :=
  rewrite (doFormat_unfold o h v fsType), (doFormat_resolve_unfold o h v fsType);
  cbv zeta;
  destruct (fsType =? "auto")%string;
  [ destruct ((major (mRawDevice v) =? kMajorBlockMmc)%N ||
              (major (mRawDevice v) =? kMajorBlockLoop)%N)%bool;
    [ generalize (o bool h f2fs_IsSupported); intros [|]
    | generalize (o bool h (IsVirtioBlkDevice (major (mRawDevice v)))); intros [|];
      [ match goal with |- context [o bool ?h' f2fs_IsSupported] =>
          generalize (o bool h' f2fs_IsSupported); intros [|] end
      | ] ]
  | destruct (fsType =? "ext4")%string; [| destruct (fsType =? "f2fs")%string] ];
  cbn [String.eqb Ascii.eqb Bool.eqb];
  try match goal with |- context [?st =? 0] =>
        let s := fresh "st" in
        let E := fresh "E" in
        generalize st; intros s; destruct (s =? 0) eqn:E end.

(** X9: [doFormat] changes no field and calls at most one format
    driver, at most once; it returns OK exactly when that format returned
    0, -EINVAL exactly when no format was called, and -EIO otherwise,
    whatever non-zero value the driver returned; besides the format it
    calls the virtio and f2fs-support queries and nothing else, so it
    never mounts, unmounts or prepares a directory. *)
Theorem doFormat_outcome (o : Oracle) (h : Trace) (v : PrivateVolume)
    (fsType : string) :
  let x := exec o h (doFormat fsType) v in
  object x = v /\
  (formats (calls x) <= 1)%nat /\
  result x =
    (if existsb format_ok (calls x) then OK
     else if (formats (calls x) =? 0)%nat then - EINVAL else - EIO) /\
  (forall k, k <> KIsVirtioBlkDevice -> k <> Kf2fs_IsSupported ->
             k <> Kext4_Format -> k <> Kf2fs_Format ->
             count k (calls x) = 0%nat).
Proof.
  cbv zeta. doFormat_cases o h v fsType;
    unfold object, result, calls, formats;
    cbn [fst snd app existsb format_ok log_ev log_ans];
    rewrite ?E; cbn [orb];
    (split; [reflexivity |]);
    (split; [count_calls; lia |]);
    (split; [count_calls; reflexivity |]);
    intros k H1 H2 H3 H4; count_calls;
    rewrite ?is_kind_other by (cbn; congruence); reflexivity.
Qed.

(** X10: with the type "auto", [doFormat] always formats: exactly one
    format call is made and the result is never -EINVAL.  The virtio
    query is made only when the major number is neither that of MMC nor
    that of loop devices, and f2fs is asked for its support only on an
    MMC, loop or virtio device. *)
Theorem doFormat_auto_queries (o : Oracle) (h : Trace) (v : PrivateVolume) :
  let x := exec o h (doFormat "auto") v in
  let maj := major v.(mRawDevice) in
  let flash := ((maj =? kMajorBlockMmc)%N || (maj =? kMajorBlockLoop)%N)%bool in
  formats (calls x) = 1%nat /\
  result x <> - EINVAL /\
  count KIsVirtioBlkDevice (calls x) = (if flash then 0 else 1)%nat /\
  count Kf2fs_IsSupported (calls x) =
    (if (flash || existsb virtio_yes (calls x))%bool then 1 else 0)%nat.
Proof.
  cbv zeta. rewrite (doFormat_unfold o h v "auto"), (doFormat_resolve_unfold o h v "auto").
  cbv zeta. cbn [String.eqb Ascii.eqb Bool.eqb].
  destruct ((major (mRawDevice v) =? kMajorBlockMmc)%N ||
            (major (mRawDevice v) =? kMajorBlockLoop)%N)%bool;
    [ generalize (o bool h f2fs_IsSupported); intros [|]
    | generalize (o bool h (IsVirtioBlkDevice (major (mRawDevice v)))); intros [|];
      [ match goal with |- context [o bool ?h' f2fs_IsSupported] =>
          generalize (o bool h' f2fs_IsSupported); intros [|] end
      | ] ];
    cbn [String.eqb Ascii.eqb Bool.eqb];
    match goal with |- context [?st =? 0] =>
      generalize st; intros st'; destruct (st' =? 0) end;
    unfold result, calls, formats;
    cbn [fst snd app existsb virtio_yes log_ev log_ans orb];
    repeat split; try discriminate; count_calls; reflexivity.
Qed.

(** ** Mounting, every outcome *)

(** X11: [doMount] returns OK or -EIO and nothing else, whatever the
    collaborators return; and it returns OK only when the metadata was
    read, the type is ext4 or f2fs, one check was made and accepted and
    one mount was made and succeeded. *)
Theorem doMount_success (o : Oracle) (h : Trace) (v : PrivateVolume) :
  let x := exec o h doMount v in
  let ans := o _ h (ReadMetadata v.(mDmDevPath)) in
  (result x = OK \/ result x = - EIO) /\
  (result x = OK ->
   fst ans = 0 /\
   (mFsType (object x) = "ext4" \/ mFsType (object x) = "f2fs") /\
   checks (calls x) = 1%nat /\ existsb check_accepted (calls x) = true /\
   mounts (calls x) = 1%nat /\ existsb mount_ok (calls x) = true).
Proof.
  cbv zeta. doMount_cases o h v; doMount_tail o;
    (split; [try (right; reflexivity) | intros Hok; try discriminate Hok]);
    try (destruct Hprep as [Hs _]; destruct (existsb prepare_failed t6);
         subst s; auto; fail).
  all: pose proof (Hcalls Kext4_Check ltac:(congruence) ltac:(congruence)
                     ltac:(congruence)) as Hc1;
    pose proof (Hcalls Kf2fs_Check ltac:(congruence) ltac:(congruence)
                  ltac:(congruence)) as Hc2;
    pose proof (Hcalls Kext4_Mount ltac:(congruence) ltac:(congruence)
                  ltac:(congruence)) as Hm1;
    pose proof (Hcalls Kf2fs_Mount ltac:(congruence) ltac:(congruence)
                  ltac:(congruence)) as Hm2;
    cbn [mFsType set_mPath set_metadata];
    repeat match goal with E : (_ =? _)%string = true |- _ =>
             apply String.eqb_eq in E end;
    repeat match goal with E : (?z =? 0) = true |- _ =>
             apply Z.eqb_eq in E; try subst z end;
    unfold checks, mounts;
    cbn [existsb check_accepted mount_ok log_ev log_ans Z.eqb orb];
    rewrite ?Ecode; cbn [orb];
    repeat split; auto; count_calls; rewrite ?Hc1, ?Hc2, ?Hm1, ?Hm2; reflexivity.
Qed.

Lemma doMount_success_witness :
  mounts (calls (exec o_well [] doMount vol0)) = 1%nat /\
  existsb mount_ok (calls (exec o_well [] doMount vol0)) = true.
Proof.
  destruct (proj2 (doMount_success o_well [] vol0) eq_refl) as (_ & _ & _ & _ & Hm & Hok).
  split; assumption.
Defined.

(** X12: when the metadata cannot be read, [doMount] returns -EIO
    whatever the status of the read was; it has stored the strings the
    read left and notified the listener, if one is registered, and it
    does nothing else: the mount path is not set and no directory is
    prepared. *)
Theorem doMount_no_metadata (o : Oracle) (h : Trace) (v : PrivateVolume) :
  let read := ReadMetadata v.(mDmDevPath) in
  let ans := o _ h read in
  let fsType := fst (fst (snd ans)) in
  let fsUuid := snd (fst (snd ans)) in
  let fsLabel := snd (snd ans) in
  fst ans <> 0 ->
  exec o h doMount v =
    ((- EIO, set_metadata fsType fsUuid fsLabel v),
     Log read ans ::
     (if v.(mListener)
      then [Log (onVolumeMetadataChanged v.(mId) fsType fsUuid fsLabel) tt]
      else [])).
Proof.
  cbv zeta. intros Hres. rewrite doMount_unfold. cbv zeta.
  destruct (Z.eqb_spec (fst (o _ h (ReadMetadata (mDmDevPath v)))) 0) as [E | _];
    [contradiction |].
  cbn [negb]. destruct (mListener v); [| reflexivity].
  match goal with |- context [o unit ?h' ?e] => destruct (o unit h' e) end.
  reflexivity.
Qed.

(** The read fails with -ENOENT. *)
Lemma doMount_no_metadata_witness :
  exec (o_no_metadata (-2)) [] doMount vol0 =
    ((- EIO, vol0),
     [Log (ReadMetadata EmptyString) (-2, (EmptyString, EmptyString, EmptyString))]).
Proof.
  exact (doMount_no_metadata (o_no_metadata (-2)) [] vol0 ltac:(discriminate)).
Defined.

(** ** What [doMount] calls *)

Lemma prefix_append p s : String.prefix p (p ++ s) = true.
Proof.
  induction p as [| c p IH]; cbn.
  - destruct s; reflexivity.
  - rewrite IH. destruct (Ascii.ascii_dec c c); [reflexivity | contradiction].
Qed.

Lemma prefix_refl p : String.prefix p p = true.
Proof.
  induction p as [| c p IH]; cbn; [reflexivity |].
  rewrite IH. destruct (Ascii.ascii_dec c c); [reflexivity | contradiction].
Qed.

Lemma doMount_prepare_forall o (v : PrivateVolume) h :
  forallb (doMount_call v) (snd (run o h (doMount_prepare (mPath v)))) = true.
Proof.
  unfold doMount_prepare, failed, orelse.
  cbn -[oct String.append FS_CASEFOLD_FL forallb doMount_call].
  match goal with |- context [negb (o bool ?h' IsSdcardfsUsed)] =>
    generalize (o bool h' IsSdcardfsUsed); intros sd end.
  repeat (next_dir; cbn -[oct String.append FS_CASEFOLD_FL forallb doMount_call]);
    cbn [forallb doMount_call log_ev];
    rewrite ?prefix_append, ?String.eqb_refl; reflexivity.
Qed.

Lemma doMount_calls_all o h v :
  forallb (doMount_call (object (exec o h doMount v))) (calls (exec o h doMount v)) = true.
Proof.
  doMount_cases o h v;
    try match goal with |- context [run o ?h' (doMount_prepare ?p)] =>
          pose proof (doMount_prepare_forall o
                        (set_mPath p (set_metadata fsType fsUuid fsLabel v)) h') as Hall;
          cbn [mPath set_mPath] in Hall
        end;
    doMount_tail o;
    try rewrite forallb_app;
    cbn [forallb doMount_call log_ev mDmDevPath mId mFsType mFsUuid mFsLabel mPath
         set_mPath set_metadata negb andb snd] in *;
    rewrite ?String.eqb_refl, ?prefix_refl; cbn [andb];
    try reflexivity; try exact Hall.
Qed.

Lemma forallb_count_zero (P : Logged -> bool) k tr :
  (forall l, P l = true -> kind_of (log_ev l) <> k) ->
  forallb P tr = true -> count k tr = 0%nat.
Proof.
  intros HP. induction tr as [| l tr IH]; intros H; [reflexivity |].
  cbn [forallb] in H. apply andb_prop in H as [Hl Ht].
  rewrite count_cons, (IH Ht). unfold is_kind.
  destruct (Kind_eq_dec (kind_of (log_ev l)) k) as [E | _]; [| reflexivity].
  exfalso. exact (HP l Hl E).
Qed.

Lemma doMount_call_kind v l :
  doMount_call v l = true ->
  In (kind_of (log_ev l))
     [KReadMetadata; KonVolumeMetadataChanged; KsetPath; KPrepareDir; Kext4_Check;
      Kext4_Mount; Kf2fs_Check; Kf2fs_Mount; KRestoreconRecursive; KIsSdcardfsUsed].
Proof. destruct l as [X e a]; destruct e; cbn; intros H; try discriminate H; tauto. Qed.

(** X13: whatever the collaborators answer, [doMount] reads, checks and
    mounts the mapped device of the volume and no other, mounts it on the
    mount path (ext4 read-write, not as a remount, executable), announces
    the identity and the strings just read, and prepares and relabels
    the mount path or directories below it; it never unmounts, removes a
    directory, formats, or touches the device node or the block mapping,
    so a [doMount] that fails after the mount leaves the filesystem
    mounted. *)
Theorem doMount_calls_only (o : Oracle) (h : Trace) (v : PrivateVolume) :
  let x := exec o h doMount v in
  forallb (doMount_call (object x)) (calls x) = true /\
  count KForceUnmount (calls x) = 0%nat /\ count Krmdir (calls x) = 0%nat /\
  formats (calls x) = 0%nat /\
  count KCreateDeviceNode (calls x) = 0%nat /\ count KDestroyDeviceNode (calls x) = 0%nat /\
  count KDeleteDevice (calls x) = 0%nat /\ count KDeleteDeviceIfExists (calls x) = 0%nat /\
  count Ksetup_ext_volume (calls x) = 0%nat.
Proof.
  cbv zeta. pose proof (doMount_calls_all o h v) as Hall.
  assert (Hk : forall k,
             ~ In k [KReadMetadata; KonVolumeMetadataChanged; KsetPath; KPrepareDir;
                     Kext4_Check; Kext4_Mount; Kf2fs_Check; Kf2fs_Mount;
                     KRestoreconRecursive; KIsSdcardfsUsed] ->
             count k (calls (exec o h doMount v)) = 0%nat).
  { intros k Hk. apply (forallb_count_zero (doMount_call (object (exec o h doMount v))) k);
      [| exact Hall].
    intros l Hl E. apply Hk. rewrite <- E. exact (doMount_call_kind _ _ Hl). }
  split; [exact Hall |]. unfold formats.
  rewrite !Hk by (cbn; intuition discriminate). repeat split; reflexivity.
Qed.

Lemma doMount_call_on_path v l : doMount_call v l = true -> on_path (mPath v) l = true.
Proof.
  destruct l as [X e a]; destruct e; cbn; intros H; try reflexivity; try discriminate H.
  - do 3 (apply andb_prop in H as [H _]). apply andb_prop in H as [_ H]. exact H.
  - apply andb_prop in H as [_ H]. exact H.
Qed.

Lemma doUnmount_calls (o : Oracle) h v fuel :
  let y := exec o h (doUnmount fuel) v in
  forallb (on_path (mPath v)) (calls y) = true /\
  exists k, (k <= fuel)%nat /\ kinds (calls y) = KForceUnmount :: repeat Krmdir k /\
            (result y = None -> k = fuel).
Proof.
  cbv zeta. rewrite doUnmount_unfold. cbv zeta.
  match goal with |- context [run o ?h' (TEMP_FAILURE_RETRY fuel ?e)] =>
    pose proof (TEMP_FAILURE_RETRY_calls o e (on_path (mPath v))
                  (fun a => String.eqb_refl (mPath v)) fuel h') as Hc;
    cbv zeta in Hc;
    destruct (run o h' (TEMP_FAILURE_RETRY fuel e)) as [rc t] end.
  cbn [fst snd kind_of] in Hc. destruct Hc as (Hall & k & Hk & Hkinds & Hnone).
  unfold calls, result. cbn [fst snd]. split.
  - cbn [forallb on_path log_ev]. rewrite String.eqb_refl, Hall. reflexivity.
  - exists k. split; [exact Hk |]. split.
    + unfold kinds in Hkinds |- *. cbn [map log_ev kind_of]. rewrite Hkinds.
      reflexivity.
    + intros Hrc. apply Hnone. destruct rc; [discriminate Hrc | reflexivity].
Qed.

Lemma doUnmount_spins (o : Oracle) h v fuel :
  (forall tr,
     o _ ((h ++ [Log (ForceUnmount v.(mPath)) (o _ h (ForceUnmount v.(mPath)))]) ++ tr)
       (rmdir v.(mPath)) = (-1, EINTR)) ->
  result (exec o h (doUnmount fuel) v) = None /\
  kinds (calls (exec o h (doUnmount fuel) v)) = KForceUnmount :: repeat Krmdir fuel.
Proof.
  intros Hint. rewrite doUnmount_unfold. cbv zeta.
  pose proof (TEMP_FAILURE_RETRY_spins o _ _ Hint fuel []) as Hr.
  cbv zeta in Hr. rewrite app_nil_r in Hr.
  match goal with |- context [run o ?h' (TEMP_FAILURE_RETRY fuel ?e)] =>
    destruct (run o h' (TEMP_FAILURE_RETRY fuel e)) as [rc t] end.
  cbn [fst snd kind_of] in Hr. destruct Hr as [-> Hk].
  unfold result, calls. cbn [fst snd]. unfold kinds in Hk |- *.
  cbn [map log_ev kind_of]. rewrite Hk. split; reflexivity.
Qed.

(** X14: a [doUnmount] after a [doMount], whatever either met, changes
    no field, calls the forced unmount once and after it [rmdir] and
    nothing else, every call on the mount path, which is the path every
    mount call of the [doMount] was made on, and returns nothing but OK.
    The [rmdir] is called again as long as it is interrupted: when it is
    interrupted [n] times and then is not, [doUnmount] returns OK after
    exactly [n + 1] calls of [rmdir], whatever the last one yields; when
    it is interrupted at every call [doUnmount] does not return, any
    fuel is used up. *)
Theorem mount_unmount_path (o : Oracle) (h : Trace) (v : PrivateVolume)
    (fuel n : nat) :
  let x := exec o h doMount v in
  let p := mPath (object x) in
  let force := ForceUnmount p in
  let h' := (h ++ calls x) ++ [Log force (o _ (h ++ calls x) force)] in
  let y := exec o (h ++ calls x) (doUnmount fuel) (object x) in
  (object y = object x /\
   (result y = Some OK \/ result y = None) /\
   (exists k, (k <= fuel)%nat /\
              kinds (calls y) = KForceUnmount :: repeat Krmdir k /\
              (result y = None -> k = fuel)) /\
   forallb (on_path p) (calls x ++ calls y) = true) /\
  ((n < fuel)%nat -> interrupted_until o h' (rmdir p) n ->
   result y = Some OK /\ kinds (calls y) = KForceUnmount :: repeat Krmdir (S n)) /\
  ((forall tr, o _ (h' ++ tr) (rmdir p) = (-1, EINTR)) ->
   result y = None /\ kinds (calls y) = KForceUnmount :: repeat Krmdir fuel).
Proof.
  cbv zeta. pose proof (doMount_calls_all o h v) as Hall.
  destruct (exec o h doMount v) as [[r v2] tr].
  change (object (r, v2, tr)) with v2 in *.
  change (calls (r, v2, tr)) with tr in *.
  pose proof (doUnmount_calls o (h ++ tr) v2 fuel) as [Hpath Hk].
  split; [| split].
  - split; [apply doUnmount_object |]. split; [apply doUnmount_result |].
    split; [exact Hk |]. rewrite forallb_app. apply andb_true_intro. split.
    + rewrite forallb_forall in *. intros l Hl. apply doMount_call_on_path, Hall, Hl.
    + exact Hpath.
  - intros Hn Hint. apply (doUnmount_returns o (h ++ tr) v2 fuel n Hn Hint).
  - intros Hint. apply (doUnmount_spins o (h ++ tr) v2 fuel Hint).
Qed.

(** After a mount that went well the [rmdir] is interrupted twice. *)
Lemma mount_unmount_path_witness :
  result (exec (o_eintr 2) (calls (exec (o_eintr 2) [] doMount vol0)) (doUnmount 5)
            (object (exec (o_eintr 2) [] doMount vol0))) = Some OK /\
  kinds (calls (exec (o_eintr 2) (calls (exec (o_eintr 2) [] doMount vol0))
                  (doUnmount 5) (object (exec (o_eintr 2) [] doMount vol0)))) =
    [KForceUnmount; Krmdir; Krmdir; Krmdir].
Proof.
  apply (proj1 (proj2 (mount_unmount_path (o_eintr 2) [] vol0 5 2)));
    [lia | apply o_eintr_rmdir; reflexivity].
Defined.

(** ** Creation, then destruction *)

Lemma doCreate_ids o h v :
  mId (object (exec o h doCreate v)) = mId v /\
  mRawDevPath (object (exec o h doCreate v)) = mRawDevPath v.
Proof.
  rewrite doCreate_unfold. cbv zeta.
  repeat match goal with
         | |- context [if negb ?c then _ else _] => destruct c; cbn [negb]
         | |- context [let '(_, _) := ?r in _] => destruct r
         end; split; reflexivity.
Qed.

(** X15: when the [doDestroy] that follows a [doCreate] returns OK, a
    delete of the block mapping of the identity has succeeded and the
    node at the device-node path of the volume is gone, whatever the
    [doCreate] before it met: a node its first step created is removed,
    with the path the creation used. *)
Theorem create_destroy_round_trip (o : Oracle) (h : Trace) (v : PrivateVolume)
    (before : bool) :
  let x := exec o h doCreate v in
  let y := exec o (h ++ calls x) doDestroy (object x) in
  result y = OK ->
  existsb delete_ok (calls y) = true /\
  count KDestroyDeviceNode (calls x ++ calls y) = 1%nat /\
  node_after v.(mRawDevPath) before (calls x ++ calls y) = false.
Proof.
  cbv zeta.
  pose proof (doCreate_calls o h v KDestroyDeviceNode
                ltac:(congruence) ltac:(congruence) ltac:(congruence)
                ltac:(congruence) ltac:(congruence) ltac:(congruence)
                ltac:(congruence)) as Hx.
  destruct (doCreate_ids o h v) as [Hid Hpath].
  destruct (exec o h doCreate v) as [[r v1] tr].
  unfold object, calls in Hid, Hpath, Hx |- *. cbn [fst snd] in *.
  rewrite doDestroy_unfold, Hid, Hpath.
  pose proof (delete_loop_result o (DeleteDevice (mId v)) (fun a => eq_refl) 9 false
                (h ++ tr)) as [_ Hres].
  pose proof (delete_loop_calls o (DeleteDevice (mId v)) KDestroyDeviceNode 10
                ltac:(cbn; congruence) ltac:(congruence) false (h ++ tr)) as Hn.
  destruct (run o (h ++ tr) (delete_loop (DeleteDevice (mId v)) 10 false)) as [[|] t1];
    cbn [fst snd] in Hres, Hn; cbv zeta; unfold result; cbn [fst snd];
    [| discriminate].
  intros Hst. rewrite Hst. split; [| split].
  - rewrite existsb_app, <- Hres. reflexivity.
  - count_calls. rewrite Hx, Hn. reflexivity.
  - unfold node_after. rewrite !fold_left_app. cbn [fold_left node_step log_ev log_ans].
    rewrite String.eqb_refl. reflexivity.
Qed.

Lemma create_destroy_round_trip_witness :
  node_after (mRawDevPath vol0) false
    (calls (exec o_well [] doCreate vol0) ++
     calls (exec o_well ([] ++ calls (exec o_well [] doCreate vol0)) doDestroy
              (object (exec o_well [] doCreate vol0)))) = false.
Proof.
  exact (proj2 (proj2 (create_destroy_round_trip o_well [] vol0 false eq_refl))).
Defined.

(** ** The order of the steps of [doCreate] *)

Lemma steps_in_order_from cur p tr :
  (cur <= p)%nat -> steps_in_order p tr = true -> steps_in_order cur tr = true.
Proof.
  intros Hle. destruct tr as [| l tr]; [reflexivity |]. cbn [steps_in_order].
  intros H. apply andb_prop in H as [H1 H2]. apply Nat.leb_le in H1.
  rewrite H2, andb_true_r. apply Nat.leb_le. lia.
Qed.

Lemma steps_in_order_app p t rest :
  forallb (fun l => (create_step l =? p)%nat) t = true ->
  steps_in_order p rest = true ->
  steps_in_order p (t ++ rest) = true.
Proof.
  induction t as [| l t IH]; intros Ht Hrest; [exact Hrest |].
  cbn [forallb] in Ht. apply andb_prop in Ht as [Hl Ht]. apply Nat.eqb_eq in Hl.
  cbn [app steps_in_order]. rewrite Hl, Nat.leb_refl. exact (IH Ht Hrest).
Qed.

(** X16: [doCreate] takes its steps in one order in every run: the
    device node is created first and once, then the stale mapping is
    removed, then the mapping is set up, at most once, then the mapped
    device is polled; no call of an earlier step follows a call of a
    later one, and nothing else is called. *)
Theorem doCreate_order (o : Oracle) (h : Trace) (v : PrivateVolume) :
  let x := exec o h doCreate v in
  steps_in_order 1 (calls x) = true /\
  count KCreateDeviceNode (calls x) = 1%nat /\
  (count Ksetup_ext_volume (calls x) <= 1)%nat.
Proof.
  cbv zeta. rewrite doCreate_unfold. cbv zeta.
  match goal with |- context [negb (?c =? 0)] => destruct (negb (c =? 0)) end.
  { unfold calls. cbn. auto. }
  match goal with |- context [run o ?h' (delete_loop ?d 10 false)] =>
    pose proof (delete_loop_forall o (fun l => (create_step l =? 2)%nat) d
                  ltac:(reflexivity) ltac:(reflexivity) 10 false h') as Hd;
    pose proof (delete_loop_calls o d KCreateDeviceNode 10
                  ltac:(cbn; congruence) ltac:(congruence) false h') as Hc;
    pose proof (delete_loop_calls o d Ksetup_ext_volume 10
                  ltac:(cbn; congruence) ltac:(congruence) false h') as Hs;
    destruct (run o h' (delete_loop d 10 false)) as [ok t1] end.
  cbn [snd] in Hd, Hc, Hs.
  assert (Hstep : forall rest,
             steps_in_order 2 rest = true -> steps_in_order 1 (t1 ++ rest) = true).
  { intros rest Hrest. apply (steps_in_order_from 1 2); [lia |].
    apply steps_in_order_app; assumption. }
  destruct (negb ok).
  { unfold calls. cbn [snd steps_in_order create_step kind_of log_ev Nat.leb andb].
    split; [rewrite <- (app_nil_r t1); apply Hstep; reflexivity |].
    split; count_calls; rewrite ?Hc, ?Hs; lia. }
  match goal with |- context [negb (fst ?s)] => destruct (negb (fst s)) end.
  { unfold calls. cbn [snd steps_in_order create_step kind_of log_ev Nat.leb andb].
    split; [apply Hstep; reflexivity |].
    split; count_calls; rewrite ?Hc, ?Hs; lia. }
  match goal with |- context [run o ?h' (open_loop ?p ?n)] =>
    pose proof (open_loop_forall o (fun l => (create_step l =? 4)%nat) p
                  ltac:(reflexivity) ltac:(reflexivity) ltac:(reflexivity) n h') as Ho;
    pose proof (open_loop_calls o p KCreateDeviceNode
                  ltac:(congruence) ltac:(congruence) ltac:(congruence) n h') as Hoc;
    pose proof (open_loop_calls o p Ksetup_ext_volume
                  ltac:(congruence) ltac:(congruence) ltac:(congruence) n h') as Hos;
    destruct (run o h' (open_loop p n)) as [r t2] end.
  cbn [snd] in Ho, Hoc, Hos.
  unfold calls. cbn [snd steps_in_order create_step kind_of log_ev Nat.leb andb].
  split.
  - apply Hstep. cbn [steps_in_order create_step kind_of log_ev Nat.leb andb].
    apply (steps_in_order_from 3 4); [lia |].
    rewrite <- (app_nil_r t2). apply steps_in_order_app; [exact Ho | reflexivity].
  - split; count_calls; rewrite ?Hc, ?Hs, ?Hoc, ?Hos; lia.
Qed.

Lemma step_failed_eq l :
  step_failed l = (prepare_failed l || check_rejected l || mount_failed l)%bool.
Proof. reflexivity. Qed.

Lemma doMount_prepare_stops o h p :
  let t := snd (run o h (doMount_prepare p)) in
  stops_at_failure t = true /\ existsb step_failed t = existsb prepare_failed t /\
  existsb mount_ok t = false /\
  count KRestoreconRecursive t = 1%nat /\ count KIsSdcardfsUsed t = 1%nat.
Proof.
  cbv zeta. unfold doMount_prepare, failed, orelse.
  cbn -[oct String.append FS_CASEFOLD_FL existsb stops_at_failure count].
  match goal with |- context [negb (o bool ?h' IsSdcardfsUsed)] =>
    generalize (o bool h' IsSdcardfsUsed); intros sd end.
  repeat (next_dir;
          cbn -[oct String.append FS_CASEFOLD_FL existsb stops_at_failure count]);
    repeat (cbn [existsb stops_at_failure app];
            unfold step_failed;
            cbn [prepare_failed check_rejected mount_failed mount_ok log_ev log_ans];
            repeat match goal with
                   | E : (?s =? 0) = _ |- context [?s =? 0] => rewrite E
                   end;
            cbn [negb orb]);
    cbn [negb orb]; count_calls; repeat split; reflexivity.
Qed.

(** X17: [doMount] stops at the first step that fails: no call follows
    a directory that could not be prepared, a check whose code is not
    accepted or a mount that returned a non-zero status.  It returns OK
    exactly when a mount succeeded and no step failed; the relabelling
    and the sdcardfs query are made once when a mount succeeded and not
    at all otherwise, and without a successful mount no directory but
    the mount point is prepared. *)
Theorem doMount_fail_fast (o : Oracle) (h : Trace) (v : PrivateVolume) :
  let x := exec o h doMount v in
  let mounted := existsb mount_ok (calls x) in
  stops_at_failure (calls x) = true /\
  (result x = OK <-> mounted = true /\ existsb step_failed (calls x) = false) /\
  count KRestoreconRecursive (calls x) = (if mounted then 1 else 0)%nat /\
  count KIsSdcardfsUsed (calls x) = (if mounted then 1 else 0)%nat /\
  (mounted = false -> (count KPrepareDir (calls x) <= 1)%nat).
Proof.
  cbv zeta. doMount_cases o h v;
    try match goal with
      | |- context [run o ?h' (doMount_prepare ?p)] =>
          pose proof (doMount_prepare_stops o h' p) as Hstop;
          pose proof (doMount_prepare_spec o h' p) as Hprep;
          cbv zeta in Hstop, Hprep;
          destruct (run o h' (doMount_prepare p)) as [s t6];
          cbn [fst snd] in Hstop, Hprep;
          destruct Hstop as (Hs1 & Hs2 & Hs3 & Hs4 & Hs5);
          destruct Hprep as [Hres _]
      end;
    unfold result, calls, object; cbn [fst snd app].
  all: repeat (cbn [existsb stops_at_failure app];
               rewrite ?step_failed_eq;
               cbn [prepare_failed check_rejected mount_failed mount_ok log_ev log_ans];
               repeat match goal with
                      | E : (?s =? 0) = _ |- context [?s =? 0] => rewrite E
                      | E : ((?s =? 0) || (?s =? 1))%bool = _ |- context [?s =? 0] =>
                          rewrite E
                      end;
               cbn [negb orb andb]).
  all: rewrite ?Hs1, ?Hs2, ?Hs3; count_calls; rewrite ?Hs4, ?Hs5.
  all: try (subst s; destruct (existsb prepare_failed t6)).
  all: repeat split; try reflexivity; try discriminate; try lia;
    try (intros [? ?]; discriminate); try (intros; discriminate).
Qed.
